(** * pmltools: the Python analyzers of [pmlutils/python/analyzer]

    A shallow embedding of the reporting layer (audit queries, configuration
    loading, documentation extraction, spreadsheet export) and the proofs of
    its specified properties.

    Conventions.
    - A SQLite table is the list of its rows; a query is the list of rows it
      returns, in order.  TEXT columns are [string]s compared bytewise (the
      BINARY collation), INTEGER columns are [Z].
    - A Python [str] that is searched by a regular expression is the list of
      its code points ([pystr]); paths and names are [string]s.
    - A pandas float64 cell is a binary64 [float]. *)

From Stdlib Require Import ZArith NArith List String Ascii Bool Lia.
From Stdlib Require Import Sorted Permutation.
From Stdlib Require Import Floats Uint63.
Import ListNotations.

#[local] Set Warnings "-register-all,-inexact-float".

Local Open Scope string_scope.
Local Open Scope Z_scope.

(* ================================================================== *)
(** * ORDER BY: a stable sort by a boolean "comes no later than" test *)
(* ================================================================== *)

Module OrderBy.
Section Sort.
Context {A : Type}.
Variable leb : A -> A -> bool.

Fixpoint insert_row (x : A) (l : list A) : list A :=
  match l with
  | [] => [x]
  | y :: l' => if leb x y then x :: l else y :: insert_row x l'
  end.

(** Rows are inserted from the last to the first, each before the first
    row it does not follow: rows with equal keys keep their order. *)
Definition order_by (l : list A) : list A := fold_right insert_row [] l.
End Sort.
End OrderBy.

(** Bytewise order of TEXT values (the BINARY collation). *)
Module Text.
Definition lt (a b : string) : Prop := String.compare a b = Lt.
Definition le (a b : string) : Prop := lt a b \/ a = b.
End Text.

(* ================================================================== *)
(** * The relational store read by the analyzers *)
(* ================================================================== *)

(** Modelled from the spec: the schema of the store (section 3, data model);
    the statements that create the tables belong to the external producer.
    Each table keeps the columns the queries read, with the types the spec
    gives them; [widget_type] and [framework_type] may be NULL. *)
Module Schema.
Record source_file := {
  file_id : Z;
  file_path : string }.

Record class_row := {
  class_id : Z;
  c_file_id : Z;
  class_name : string;
  class_type : string;
  widget_type : option string;
  framework_type : option string;
  import_count : Z }.

Record method_row := {
  method_id : Z;
  m_class_id : Z;
  method_name : string;
  return_type : string;
  param_count : Z;
  is_async : Z;
  is_static : Z;
  has_annotation : Z;
  cyclomatic_complexity : Z;
  cognitive_complexity : Z }.

Record class_usage_reference := { referenced_class_id : Z }.
Record method_usage_reference := { referenced_method_id : Z }.

Record database := {
  source_files : list source_file;
  classes : list class_row;
  class_methods : list method_row;
  class_usage_references : list class_usage_reference;
  method_usage_references : list method_usage_reference }.

(** INSERT INTO class_usage_references: what the external producer does
    between two runs of the report. *)
Definition insert_class_usage (r : class_usage_reference) (db : database)
  : database :=
  {| source_files := source_files db;
     classes := classes db;
     class_methods := class_methods db;
     class_usage_references := class_usage_references db ++ [r];
     method_usage_references := method_usage_references db |}.
End Schema.

(** SQL expressions shared by the queries. *)
Module Sql.
(** [ORDER BY k1, k2]: the second key decides among rows equal on the first. *)
Definition then_by (c1 c2 : comparison) : comparison :=
  match c1 with Eq => c2 | _ => c1 end.

Definition no_later {A} (cmp : A -> A -> comparison) (a b : A) : bool :=
  match cmp a b with Gt => false | _ => true end.

(** [CASE WHEN x = 1 THEN yes ELSE no END] *)
Definition case_is_one (x : Z) (yes no : string) : string :=
  if x =? 1 then yes else no.

(** Conversion of an INTEGER to a double, as SUM/AVG and pandas do: the
    nearest double, ties to even. *)
Definition float_of_Z (z : Z) : float :=
  SF2Prim (binary_normalize prec emax z 0 false).

Definition sum_Z (l : list Z) : Z := fold_right Z.add 0 l.

(** [AVG(x)]: NULL over no row, else the sum divided by the count.  SQLite
    adds the values one by one to a double. *)
Definition avg (l : list Z) : option float :=
  match l with
  | [] => None
  | _ => Some (PrimFloat.div
                 (fold_left (fun acc v => PrimFloat.add acc (float_of_Z v))
                            l 0%float)
                 (float_of_Z (Z.of_nat (List.length l))))
  end.
End Sql.

(** The Python built-ins the analyzers call. *)
Module Python.
(** A [str] as the list of its code points. *)
Definition pystr := list N.

(** An ASCII literal. *)
Definition py (s : string) : pystr := map N_of_ascii (list_ascii_of_string s).

Definition len (s : pystr) : Z := Z.of_nat (List.length s).

(** [chr(i)]: the character of code point [i]; ValueError ([None]) outside
    [range(0x110000)]. *)
Definition chr (i : Z) : option N :=
  if (0 <=? i) && (i <=? 1114111) then Some (Z.to_N i) else None.

(** A number that may be NaN ([None]). *)
Definition number := option Z.

(** [max(a, b)] and [min(a, b)] with [a] possibly NaN: the second argument
    replaces the first only when the comparison with it is true, and every
    comparison with NaN is false. *)
Definition max2 (a : number) (b : Z) : number :=
  match a with
  | None => None
  | Some x => Some (if b >? x then b else x)
  end.

Definition min2 (a : number) (b : Z) : number :=
  match a with
  | None => None
  | Some x => Some (if b <? x then b else x)
  end.

Definition add (a : number) (b : Z) : number :=
  match a with
  | None => None
  | Some x => Some (x + b)
  end.

(** [str.isspace] of one character, which is also the class [\s] of [re] on
    a [str] pattern: the Unicode whitespace characters. *)
Definition isspace (c : N) : bool :=
  (((9 <=? c) && (c <=? 13)) || ((28 <=? c) && (c <=? 32))
   || (c =? 133) || (c =? 160) || (c =? 5760)
   || ((8192 <=? c) && (c <=? 8202))
   || (c =? 8232) || (c =? 8233) || (c =? 8239) || (c =? 8287)
   || (c =? 12288))%N.

Fixpoint lstrip (s : pystr) : pystr :=
  match s with
  | c :: rest => if isspace c then lstrip rest else s
  | [] => []
  end.

Definition rstrip (s : pystr) : pystr := rev (lstrip (rev s)).

(** [s.strip()] *)
Definition strip (s : pystr) : pystr := rstrip (lstrip s).

(** [s.startswith(prefix)] and [s.endswith(suffix)] *)
Definition startswith (s prefix : string) : bool := String.prefix prefix s.

Definition endswith (s suffix : string) : bool :=
  let n := String.length s in
  let m := String.length suffix in
  (m <=? n)%nat && String.eqb (substring (n - m) m s) suffix.

(** [os.path.join(a, b)] of posixpath. *)
Definition join (a b : string) : string :=
  if startswith b "/" then b
  else if String.eqb a "" || endswith a "/" then a ++ b
  else a ++ "/" ++ b.
End Python.

(** The pandas operations the analyzers apply to numeric columns.  pandas and
    numpy are libraries; these are their float64 semantics. *)
Module Pandas.
Import Sql.

Definition two52 : float := 4503599627370496%float.

(** [numpy.rint]: the nearest integer, ties to even. *)
Definition rint (x : float) : float :=
  if PrimFloat.ltb (PrimFloat.abs x) two52 then
    if PrimFloat.ltb x 0%float then
      PrimFloat.opp (PrimFloat.sub (PrimFloat.add (PrimFloat.opp x) two52) two52)
    else if PrimFloat.eqb x 0%float then x
    else PrimFloat.sub (PrimFloat.add x two52) two52
  else x.

(** [Series.round(1)] on a float64 column, numpy's [around] with one decimal:
    multiply by ten, [rint], divide by ten. *)
Definition round1 (x : float) : float :=
  PrimFloat.div (rint (PrimFloat.mul x 10%float)) 10%float.

(** A numeric cell read from SQL as float64: NULL becomes NaN. *)
Definition float_cell (v : option Z) : float :=
  match v with
  | Some z => float_of_Z z
  | None => PrimFloat.nan
  end.
End Pandas.

(** The column-width loop that [AuditAnalyzer._format_excel_sheet],
    [DartCodeAnalyzer._format_excel_sheet] and
    [SchemaDocAnalyzer.export_documentation] each carry, word for word:
<<
    for idx, col in enumerate(df):
        max_length = max(df[col].astype(str).apply(len).max(), len(str(col)))
        worksheet.column_dimensions[chr(65 + idx)].width = min(max_length + 2, 50)
>> *)
Module Sheet.
Import Python.

(** A column of the DataFrame as the loop reads it: [str(col)] and the values
    of [df[col].astype(str)], a Series: the labels of the frame are
    distinct, as those of the sheets the analyzers write. *)
Record column := {
  label : pystr;
  values : list pystr }.

Definition dataframe := list column.

(** [Series.max()]: NaN for a column without rows. *)
Definition series_max (l : list Z) : number :=
  match l with
  | [] => None
  | x :: rest => Some (fold_left Z.max rest x)
  end.

Definition max_length (col : column) : number :=
  max2 (series_max (map len (values col))) (len (label col)).

Definition column_width (col : column) : number :=
  min2 (add (max_length col) 2) 50.

(** The assignments [column_dimensions[key].width = width] in the order the
    loop makes them, from column [idx] on; [None] when [chr] raises. *)
Fixpoint format_from (idx : Z) (df : dataframe) : option (list (N * number)) :=
  match df with
  | [] => Some []
  | col :: rest =>
      match chr (65 + idx) with
      | None => None
      | Some key =>
          match format_from (idx + 1) rest with
          | None => None
          | Some done => Some ((key, column_width col) :: done)
          end
      end
  end.

Definition format_excel_sheet (df : dataframe) : option (list (N * number)) :=
  format_from 0 df.

(** A column letter of the spreadsheet: 'A' to 'Z'. *)
Definition is_column_letter (key : N) : Prop := (65 <= key <= 90)%N.

(** In the words of the spec: [n] is the longer of the header length and the
    maximum stringified cell length of the column. *)
Definition longest (col : column) (n : Z) : Prop :=
  (n = len (label col) \/ exists v, In v (values col) /\ n = len v) /\
  len (label col) <= n /\
  forall v, In v (values col) -> len v <= n.

(** A column with header "ab" and the single cell "abc". *)
Definition sample_column : column :=
  {| label := py "ab"; values := [py "abc"] |}.
End Sheet.

(* ================================================================== *)
(** * audit_analyzer.py *)
(* ================================================================== *)

Module AuditAnalyzer.
Import Schema Sql.

(** ** analyze_unused_methods *)

(** [FROM class_methods m JOIN classes c ON m.class_id = c.class_id
     JOIN source_files sf ON c.file_id = sf.file_id] *)
Definition methods_join (db : database)
  : list (method_row * class_row * source_file) :=
  flat_map (fun m =>
    flat_map (fun c =>
      if m_class_id m =? class_id c then
        flat_map (fun sf =>
          if c_file_id c =? file_id sf then [(m, c, sf)] else [])
          (source_files db)
      else [])
      (classes db))
    (class_methods db).

(** [EXISTS (SELECT 1 FROM method_usage_references mur
             WHERE mur.referenced_method_id = m.method_id)] *)
Definition method_is_referenced (db : database) (m : method_row) : bool :=
  existsb (fun mur => referenced_method_id mur =? method_id m)
          (method_usage_references db).

Definition lifecycle_methods : list string :=
  ["build"; "initState"; "dispose"; "createState"].

Definition name_in (names : list string) (n : string) : bool :=
  existsb (String.eqb n) names.

Definition unused_method_where (db : database)
           (t : method_row * class_row * source_file) : bool :=
  let '(m, _, _) := t in
  negb (method_is_referenced db m)
  && negb (name_in lifecycle_methods (method_name m))
  && (has_annotation m =? 0).

(** [ORDER BY m.cyclomatic_complexity DESC, sf.file_path, c.class_name,
     m.method_name] *)
Definition unused_methods_order
           (a b : method_row * class_row * source_file) : comparison :=
  let '(ma, ca, fa) := a in
  let '(mb, cb, fb) := b in
  then_by (Z.compare (cyclomatic_complexity mb) (cyclomatic_complexity ma))
 (then_by (String.compare (file_path fa) (file_path fb))
 (then_by (String.compare (class_name ca) (class_name cb))
          (String.compare (method_name ma) (method_name mb)))).

(** The rows of the report before the SELECT list is applied. *)
Definition unused_methods_selection (db : database)
  : list (method_row * class_row * source_file) :=
  OrderBy.order_by (no_later unused_methods_order)
                   (filter (unused_method_where db) (methods_join db)).

Record unused_method := {
  um_file_name : string;
  um_class_name : string;
  um_method_name : string;
  um_return_type : string;
  um_param_count : Z;
  um_is_async : string;
  um_is_static : string;
  um_cyclomatic_complexity : Z;
  um_cognitive_complexity : Z }.

Definition select_unused_method
           (t : method_row * class_row * source_file) : unused_method :=
  let '(m, c, sf) := t in
  {| um_file_name := file_path sf;
     um_class_name := class_name c;
     um_method_name := method_name m;
     um_return_type := return_type m;
     um_param_count := param_count m;
     um_is_async := case_is_one (is_async m) "Yes" "No";
     um_is_static := case_is_one (is_static m) "Yes" "No";
     um_cyclomatic_complexity := cyclomatic_complexity m;
     um_cognitive_complexity := cognitive_complexity m |}.

Definition analyze_unused_methods (db : database) : list unused_method :=
  map select_unused_method (unused_methods_selection db).

(** ** analyze_unused_classes *)

(** [FROM classes c JOIN source_files sf ON c.file_id = sf.file_id] *)
Definition classes_join (db : database) : list (class_row * source_file) :=
  flat_map (fun c =>
    flat_map (fun sf =>
      if c_file_id c =? file_id sf then [(c, sf)] else [])
      (source_files db))
    (classes db).

Definition class_is_referenced (db : database) (c : class_row) : bool :=
  existsb (fun cur => referenced_class_id cur =? class_id c)
          (class_usage_references db).

Definition unused_class_where (db : database)
           (t : class_row * source_file) : bool :=
  negb (class_is_referenced db (fst t)).

(** [ORDER BY sf.file_path, c.class_name] *)
Definition unused_classes_order (a b : class_row * source_file)
  : comparison :=
  then_by (String.compare (file_path (snd a)) (file_path (snd b)))
          (String.compare (class_name (fst a)) (class_name (fst b))).

Definition unused_classes_selection (db : database)
  : list (class_row * source_file) :=
  OrderBy.order_by (no_later unused_classes_order)
                   (filter (unused_class_where db) (classes_join db)).

Definition methods_of (db : database) (c : class_row) : list method_row :=
  filter (fun m => m_class_id m =? class_id c) (class_methods db).

Record unused_class := {
  uc_file_name : string;
  uc_class_name : string;
  uc_class_type : string;
  uc_widget_type : option string;
  uc_framework_type : option string;
  uc_method_count : Z;
  uc_avg_complexity : option float }.

Definition select_unused_class (db : database)
           (t : class_row * source_file) : unused_class :=
  let '(c, sf) := t in
  {| uc_file_name := file_path sf;
     uc_class_name := class_name c;
     uc_class_type := class_type c;
     uc_widget_type := widget_type c;
     uc_framework_type := framework_type c;
     uc_method_count := Z.of_nat (List.length (methods_of db c));
     uc_avg_complexity :=
       avg (map cyclomatic_complexity (methods_of db c)) |}.

Definition analyze_unused_classes (db : database) : list unused_class :=
  map (select_unused_class db) (unused_classes_selection db).

(** A class is in the report when one of the selected rows is its row. *)
Definition class_reported (db : database) (c : class_row) : Prop :=
  exists sf, In (c, sf) (unused_classes_selection db).

(** ** get_usage_statistics *)

(** [SUM(x)]: NULL over no row. *)
Definition sql_sum (l : list Z) : option Z :=
  match l with
  | [] => None
  | _ => Some (sum_Z l)
  end.

(** [CASE WHEN EXISTS (...) THEN 1 ELSE 0 END] *)
Definition one_if (b : bool) : Z := if b then 1 else 0.

(** One row of the UNION ALL.  The fourth column, ROUND(AVG(...), 1), is not
    read by the usage rate and is left out. *)
Record usage_counts := {
  category : string;
  total : Z;
  used : option Z }.

Definition usage_query (db : database) : list usage_counts :=
  [ {| category := "Classes";
       total := Z.of_nat (List.length (classes db));
       used := sql_sum (map (fun c => one_if (class_is_referenced db c))
                            (classes db)) |};
    {| category := "Methods";
       total := Z.of_nat (List.length (class_methods db));
       used := sql_sum (map (fun m => one_if (method_is_referenced db m))
                            (class_methods db)) |} ].

Record usage_statistic := {
  us_category : string;
  us_total : Z;
  us_used : option Z;
  us_usage_rate : float }.

(** [df['used'] / df['total'] * 100] then [.round(1)], on float64. *)
Definition usage_rate (used : option Z) (total : Z) : float :=
  Pandas.round1
    (PrimFloat.mul (PrimFloat.div (Pandas.float_cell used) (float_of_Z total))
                   100%float).

(** [get_usage_statistics].  pandas reads the [used] column as float64, NULL
    being NaN, when one of its values is a number, and as [None] objects
    when both are NULL; either way the division leaves a missing value
    missing, and the rate of that row is NaN. *)
Definition get_usage_statistics (db : database) : list usage_statistic :=
  map (fun r => {| us_category := category r;
                   us_total := total r;
                   us_used := used r;
                   us_usage_rate := usage_rate (used r) (total r) |})
      (usage_query db).

(** ** _format_excel_sheet *)
Definition _format_excel_sheet := Sheet.format_excel_sheet.
End AuditAnalyzer.

(** The orders the two reports are specified to have, in the words of the
    ordering contract: cyclomatic complexity descending, then file path, class
    name and method name ascending; file path then class name ascending. *)
Module ReportOrder.
Import AuditAnalyzer.

Definition unused_methods_le (a b : unused_method) : Prop :=
  um_cyclomatic_complexity a > um_cyclomatic_complexity b \/
  (um_cyclomatic_complexity a = um_cyclomatic_complexity b /\
   (Text.lt (um_file_name a) (um_file_name b) \/
    (um_file_name a = um_file_name b /\
     (Text.lt (um_class_name a) (um_class_name b) \/
      (um_class_name a = um_class_name b /\
       Text.le (um_method_name a) (um_method_name b)))))).

Definition unused_classes_le (a b : unused_class) : Prop :=
  Text.lt (uc_file_name a) (uc_file_name b) \/
  (uc_file_name a = uc_file_name b /\
   Text.le (uc_class_name a) (uc_class_name b)).
End ReportOrder.

(** What "used / total * 100 rounded to one decimal" asks of a rate, on the
    exact value of the double. *)
Module RateSpec.
(** The exact value [m * 2 ^ e] of a finite double. *)
Definition exact_value (x : float) : option (Z * Z) :=
  match Prim2SF x with
  | S754_zero _ => Some (0, 0)
  | S754_finite s m e => Some ((if s then Z.neg m else Z.pos m), e)
  | _ => None
  end.

(** [x] is no further than half a tenth from the exact percentage
    [100 * used / total]; [2 ^ -40] is left for the tenths, which are not
    doubles. *)
Definition near_percentage (used total : Z) (x : float) : bool :=
  match exact_value x with
  | Some (m, e) =>
      let k := Z.max 0 (- e) in
      let j := Z.max 0 e in
      Z.abs (m * 2 ^ j * total - 100 * used * 2 ^ k) * 20 * 2 ^ 40
      <=? (2 ^ 40 + 20) * total * 2 ^ k
  | None => false
  end.

(** [x] is a whole number of tenths, up to [2 ^ -40]. *)
Definition one_decimal (x : float) : bool :=
  match exact_value x with
  | Some (m, e) =>
      let k := Z.max 0 (- e) in
      let j := Z.max 0 e in
      let n := (20 * m * 2 ^ j + 2 ^ k) / (2 * 2 ^ k) in
      Z.abs (10 * m * 2 ^ j - n * 2 ^ k) * 2 ^ 40 <=? 2 ^ k
  | None => false
  end.

Definition rounded_percentage (used total : Z) (x : float) : bool :=
  near_percentage used total x && one_decimal x.

(** The rates of all the counts [0 <= used <= total], for [total] from 1 to
    [n]. *)
Definition rates_checked (rate : Z -> Z -> float) (n : nat) : bool :=
  forallb (fun t =>
    forallb (fun u =>
      rounded_percentage (Z.of_nat u) (Z.of_nat t)
                         (rate (Z.of_nat u) (Z.of_nat t)))
      (seq 0 (S t)))
    (seq 1 n).
End RateSpec.

(** A small store used to run the queries: one file, two classes, four
    unreferenced methods of complexities 3, 9, 9 and 1, and a lifecycle
    method, an annotated method and a referenced method. *)
Module Sample.
Import Schema.

Definition meth (id cls : Z) (name : string) (annot cc : Z) : method_row :=
  {| method_id := id; m_class_id := cls; method_name := name;
     return_type := "void"; param_count := 0; is_async := 1; is_static := 0;
     has_annotation := annot; cyclomatic_complexity := cc;
     cognitive_complexity := cc |}.

Definition cls (id file : Z) (name : string) : class_row :=
  {| class_id := id; c_file_id := file; class_name := name;
     class_type := "class"; widget_type := None; framework_type := None;
     import_count := 2 |}.

Definition db : database :=
  {| source_files := [ {| file_id := 1; file_path := "lib/a.dart" |} ];
     classes := [ cls 1 1 "Alpha"; cls 2 1 "Beta" ];
     class_methods :=
       [ meth 1 1 "low" 0 3; meth 2 2 "run" 0 9; meth 3 1 "run" 0 9;
         meth 4 1 "tiny" 0 1; meth 5 1 "build" 0 20; meth 6 1 "hook" 1 20;
         meth 7 2 "used" 0 20 ];
     class_usage_references := [ {| referenced_class_id := 2 |} ];
     method_usage_references := [ {| referenced_method_id := 7 |} ] |}.

(** The store before the producer has written anything. *)
Definition empty_db : database :=
  {| source_files := []; classes := []; class_methods := [];
     class_usage_references := []; method_usage_references := [] |}.

(** A store with one class and no method. *)
Definition no_method_db : database :=
  {| source_files := [ {| file_id := 1; file_path := "lib/a.dart" |} ];
     classes := [ cls 1 1 "Alpha" ];
     class_methods := [];
     class_usage_references := [];
     method_usage_references := [] |}.

(** A store whose only class names a source file that is not there. *)
Definition orphan_db : database :=
  {| source_files := [ {| file_id := 1; file_path := "lib/a.dart" |} ];
     classes := [ cls 1 99 "Alpha" ];
     class_methods := [];
     class_usage_references := [];
     method_usage_references := [] |}.
End Sample.

(* ================================================================== *)
(** * config.py *)
(* ================================================================== *)

(** What [yaml.safe_load] returns.  A mapping is the list of the items of the
    loaded dict (one item per key). *)
Module Yaml.
Inductive value :=
| Null
| Bool (b : bool)
| Int (z : Z)
| Real (f : float)
| Str (s : string)
| Seq (items : list value)
| Map (items : list (value * value)).

(** [d[key]] for a str key: the value of the item whose key is that str. *)
Fixpoint lookup (items : list (value * value)) (key : string) : option value :=
  match items with
  | [] => None
  | (Str k, v) :: rest => if String.eqb k key then Some v else lookup rest key
  | _ :: rest => lookup rest key
  end.

(** [v[key]]: KeyError on a dict without the key, TypeError on anything that
    is not a dict (a list or a str takes integer indices, the rest is not
    subscriptable); [None] stands for the exception. *)
Definition getitem (v : value) (key : string) : option value :=
  match v with
  | Map items => lookup items key
  | _ => None
  end.

(** [v.get(key, default)]: AttributeError on anything that is not a dict. *)
Definition get (v : value) (key : string) (default : value) : option value :=
  match v with
  | Map items =>
      match lookup items key with
      | Some x => Some x
      | None => Some default
      end
  | _ => None
  end.
End Yaml.

Module Config.
Import Yaml.

(** The attributes of an [AnalyzerConfig]; Python stores whatever the
    document holds under the key. *)
Record AnalyzerConfig := {
  app_name : value;
  lib_dir : value;
  excluded_dirs : value;
  excluded_files : value;
  db_dir : value;
  db_name : value;
  cleanup_on_start : value;
  output_doc_dir : value;
  output_reports_dir : value;
  output_temp_dir : value;
  log_level : value;
  log_file : value;
  log_to_console : value }.

(** The attribute values [__init__] assigns before loading. *)
Definition defaults : AnalyzerConfig :=
  {| app_name := Str "minssalor";
     lib_dir := Str "lib";
     excluded_dirs := Seq [Str "lib/generated"];
     excluded_files := Seq [Str ".freezed.dart"; Str ".g.dart"; Str "_test.dart"];
     db_dir := Str "pmlutils/database";
     db_name := Str "analysis.db";
     cleanup_on_start := Bool true;
     output_doc_dir := Str "pmlutils/output/doc";
     output_reports_dir := Str "pmlutils/output/reports";
     output_temp_dir := Str "pmlutils/output/temp";
     log_level := Str "info";
     log_file := Str "pmlutils/logs/analysis.log";
     log_to_console := Bool true |}.

(** A statement of the [try] body: it runs on the object and either yields a
    value or raises ([None]); the object keeps what was assigned so far. *)
Definition stmt (A : Type) : Type := AnalyzerConfig -> AnalyzerConfig * option A.

Definition ret {A} (a : A) : stmt A := fun self => (self, Some a).

Definition bind {A B} (c : stmt A) (k : A -> stmt B) : stmt B :=
  fun self =>
    match c self with
    | (self', Some a) => k a self'
    | (self', None) => (self', None)
    end.

Notation "x <- c ;; k" := (bind c (fun x => k))
  (at level 61, c at next level, right associativity).
Notation "c ;;; k" := (bind c (fun _ => k))
  (at level 61, right associativity).

(** An expression that may raise. *)
Definition eval {A} (r : option A) : stmt A := fun self => (self, r).

(** An assignment [self.field = v]. *)
Definition assign (f : AnalyzerConfig -> AnalyzerConfig) : stmt unit :=
  fun self => (f self, Some tt).

Definition set_app_name v self :=
  {| app_name := v; lib_dir := lib_dir self;
     excluded_dirs := excluded_dirs self; excluded_files := excluded_files self;
     db_dir := db_dir self; db_name := db_name self;
     cleanup_on_start := cleanup_on_start self;
     output_doc_dir := output_doc_dir self;
     output_reports_dir := output_reports_dir self;
     output_temp_dir := output_temp_dir self;
     log_level := log_level self; log_file := log_file self;
     log_to_console := log_to_console self |}.
Definition set_lib_dir v self :=
  {| app_name := app_name self; lib_dir := v;
     excluded_dirs := excluded_dirs self; excluded_files := excluded_files self;
     db_dir := db_dir self; db_name := db_name self;
     cleanup_on_start := cleanup_on_start self;
     output_doc_dir := output_doc_dir self;
     output_reports_dir := output_reports_dir self;
     output_temp_dir := output_temp_dir self;
     log_level := log_level self; log_file := log_file self;
     log_to_console := log_to_console self |}.
Definition set_excluded_dirs v self :=
  {| app_name := app_name self; lib_dir := lib_dir self;
     excluded_dirs := v; excluded_files := excluded_files self;
     db_dir := db_dir self; db_name := db_name self;
     cleanup_on_start := cleanup_on_start self;
     output_doc_dir := output_doc_dir self;
     output_reports_dir := output_reports_dir self;
     output_temp_dir := output_temp_dir self;
     log_level := log_level self; log_file := log_file self;
     log_to_console := log_to_console self |}.
Definition set_excluded_files v self :=
  {| app_name := app_name self; lib_dir := lib_dir self;
     excluded_dirs := excluded_dirs self; excluded_files := v;
     db_dir := db_dir self; db_name := db_name self;
     cleanup_on_start := cleanup_on_start self;
     output_doc_dir := output_doc_dir self;
     output_reports_dir := output_reports_dir self;
     output_temp_dir := output_temp_dir self;
     log_level := log_level self; log_file := log_file self;
     log_to_console := log_to_console self |}.
Definition set_db_dir v self :=
  {| app_name := app_name self; lib_dir := lib_dir self;
     excluded_dirs := excluded_dirs self; excluded_files := excluded_files self;
     db_dir := v; db_name := db_name self;
     cleanup_on_start := cleanup_on_start self;
     output_doc_dir := output_doc_dir self;
     output_reports_dir := output_reports_dir self;
     output_temp_dir := output_temp_dir self;
     log_level := log_level self; log_file := log_file self;
     log_to_console := log_to_console self |}.
Definition set_db_name v self :=
  {| app_name := app_name self; lib_dir := lib_dir self;
     excluded_dirs := excluded_dirs self; excluded_files := excluded_files self;
     db_dir := db_dir self; db_name := v;
     cleanup_on_start := cleanup_on_start self;
     output_doc_dir := output_doc_dir self;
     output_reports_dir := output_reports_dir self;
     output_temp_dir := output_temp_dir self;
     log_level := log_level self; log_file := log_file self;
     log_to_console := log_to_console self |}.
Definition set_cleanup_on_start v self :=
  {| app_name := app_name self; lib_dir := lib_dir self;
     excluded_dirs := excluded_dirs self; excluded_files := excluded_files self;
     db_dir := db_dir self; db_name := db_name self;
     cleanup_on_start := v;
     output_doc_dir := output_doc_dir self;
     output_reports_dir := output_reports_dir self;
     output_temp_dir := output_temp_dir self;
     log_level := log_level self; log_file := log_file self;
     log_to_console := log_to_console self |}.
Definition set_output_doc_dir v self :=
  {| app_name := app_name self; lib_dir := lib_dir self;
     excluded_dirs := excluded_dirs self; excluded_files := excluded_files self;
     db_dir := db_dir self; db_name := db_name self;
     cleanup_on_start := cleanup_on_start self;
     output_doc_dir := v;
     output_reports_dir := output_reports_dir self;
     output_temp_dir := output_temp_dir self;
     log_level := log_level self; log_file := log_file self;
     log_to_console := log_to_console self |}.
Definition set_output_reports_dir v self :=
  {| app_name := app_name self; lib_dir := lib_dir self;
     excluded_dirs := excluded_dirs self; excluded_files := excluded_files self;
     db_dir := db_dir self; db_name := db_name self;
     cleanup_on_start := cleanup_on_start self;
     output_doc_dir := output_doc_dir self;
     output_reports_dir := v;
     output_temp_dir := output_temp_dir self;
     log_level := log_level self; log_file := log_file self;
     log_to_console := log_to_console self |}.
Definition set_output_temp_dir v self :=
  {| app_name := app_name self; lib_dir := lib_dir self;
     excluded_dirs := excluded_dirs self; excluded_files := excluded_files self;
     db_dir := db_dir self; db_name := db_name self;
     cleanup_on_start := cleanup_on_start self;
     output_doc_dir := output_doc_dir self;
     output_reports_dir := output_reports_dir self;
     output_temp_dir := v;
     log_level := log_level self; log_file := log_file self;
     log_to_console := log_to_console self |}.
Definition set_log_level v self :=
  {| app_name := app_name self; lib_dir := lib_dir self;
     excluded_dirs := excluded_dirs self; excluded_files := excluded_files self;
     db_dir := db_dir self; db_name := db_name self;
     cleanup_on_start := cleanup_on_start self;
     output_doc_dir := output_doc_dir self;
     output_reports_dir := output_reports_dir self;
     output_temp_dir := output_temp_dir self;
     log_level := v; log_file := log_file self;
     log_to_console := log_to_console self |}.
Definition set_log_file v self :=
  {| app_name := app_name self; lib_dir := lib_dir self;
     excluded_dirs := excluded_dirs self; excluded_files := excluded_files self;
     db_dir := db_dir self; db_name := db_name self;
     cleanup_on_start := cleanup_on_start self;
     output_doc_dir := output_doc_dir self;
     output_reports_dir := output_reports_dir self;
     output_temp_dir := output_temp_dir self;
     log_level := log_level self; log_file := v;
     log_to_console := log_to_console self |}.
Definition set_log_to_console v self :=
  {| app_name := app_name self; lib_dir := lib_dir self;
     excluded_dirs := excluded_dirs self; excluded_files := excluded_files self;
     db_dir := db_dir self; db_name := db_name self;
     cleanup_on_start := cleanup_on_start self;
     output_doc_dir := output_doc_dir self;
     output_reports_dir := output_reports_dir self;
     output_temp_dir := output_temp_dir self;
     log_level := log_level self; log_file := log_file self;
     log_to_console := v |}.

(** The body of the [try] of [_load_pml_config].  [document] is what
    [open] and [yaml.safe_load] produce: [None] when the file is missing or
    unreadable or is not YAML (the call raises), else the loaded value. *)
Definition load_body (document : option value) : stmt unit :=
  config <- eval document ;;
  app <- eval (getitem config "app") ;;
  name <- eval (getitem app "name") ;;
  assign (set_app_name name) ;;;
  app <- eval (getitem config "app") ;;
  dir <- eval (getitem app "lib_dir") ;;
  assign (set_lib_dir dir) ;;;
  analyzer_config <- eval (getitem config "analyzer") ;;
  excluded <- eval (getitem analyzer_config "excluded") ;;
  dirs <- eval (getitem excluded "dirs") ;;
  assign (set_excluded_dirs dirs) ;;;
  excluded <- eval (getitem analyzer_config "excluded") ;;
  files <- eval (getitem excluded "files") ;;
  assign (set_excluded_files files) ;;;
  db_config <- eval (getitem analyzer_config "database") ;;
  v <- eval (getitem db_config "dir") ;;
  assign (set_db_dir v) ;;;
  v <- eval (getitem db_config "name") ;;
  assign (set_db_name v) ;;;
  v <- eval (getitem db_config "cleanup_on_start") ;;
  assign (set_cleanup_on_start v) ;;;
  output_config <- eval (getitem config "output") ;;
  v <- eval (getitem output_config "doc_dir") ;;
  assign (set_output_doc_dir v) ;;;
  v <- eval (getitem output_config "reports_dir") ;;
  assign (set_output_reports_dir v) ;;;
  v <- eval (getitem output_config "temp_dir") ;;
  assign (set_output_temp_dir v) ;;;
  log_config <- eval (getitem config "logging") ;;
  v <- eval (getitem log_config "level") ;;
  assign (set_log_level v) ;;;
  v <- eval (getitem log_config "file") ;;
  assign (set_log_file v) ;;;
  v <- eval (get log_config "console" (Bool true)) ;;
  assign (set_log_to_console v).

(** How [_load_pml_config] ends: the body ran to its end, or [except
    Exception] caught a failure and printed "Erreur lors du chargement de
    pml.yaml" and "Utilisation de la configuration par défaut". *)
Inductive outcome := Loaded | DefaultsAnnounced.

(** [_load_pml_config]: never raises; returns the object as the body left it. *)
Definition _load_pml_config (document : option value) (self : AnalyzerConfig)
  : AnalyzerConfig * outcome :=
  match load_body document self with
  | (self', Some _) => (self', Loaded)
  | (self', None) => (self', DefaultsAnnounced)
  end.

(** [AnalyzerConfig()] *)
Definition __init__ (document : option value) : AnalyzerConfig :=
  fst (_load_pml_config document defaults).

(** A complete document, without the optional [logging.console]. *)
Definition complete : value :=
  Map [ (Str "app", Map [(Str "name", Str "shop"); (Str "lib_dir", Str "src")]);
        (Str "analyzer",
         Map [ (Str "excluded",
                Map [(Str "dirs", Seq [Str "src/gen"]);
                     (Str "files", Seq [Str ".g.dart"])]);
               (Str "database",
                Map [(Str "dir", Str "db"); (Str "name", Str "a.db");
                     (Str "cleanup_on_start", Bool false)]) ]);
        (Str "output",
         Map [(Str "doc_dir", Str "out/doc"); (Str "reports_dir", Str "out/rep");
              (Str "temp_dir", Str "out/tmp")]);
        (Str "logging", Map [(Str "level", Str "debug"); (Str "file", Str "a.log")]) ].

(** A document that holds the [app] section only. *)
Definition app_only : value :=
  Map [(Str "app", Map [(Str "name", Str "shop"); (Str "lib_dir", Str "src")])].
End Config.

(* ================================================================== *)
(** * doc_analyzer.py *)
(* ================================================================== *)

(** [re.search] on the patterns the analyzer uses: literal characters,
    a greedy starred class and a lazy starred class that is group 1, matched
    by backtracking. *)
Module Re.
Import Python.

Inductive item :=
| Chr (c : N)
| Star (cls : N -> bool)
| LazyGroup (cls : N -> bool).

Section Backtracking.
Context {R : Type}.

(** [cls*]: take one more character first, give it back when the rest of the
    pattern fails. *)
Fixpoint greedy (cls : N -> bool) (k : pystr -> option R) (s : pystr)
  : option R :=
  match s with
  | c :: rest =>
      if cls c then
        match greedy cls k rest with
        | Some r => Some r
        | None => k s
        end
      else k s
  | [] => k s
  end.

(** [(cls*?)]: try the rest of the pattern first, take one more character
    when it fails.  [taken] is the group so far, last character first. *)
Fixpoint lazy (cls : N -> bool) (k : pystr -> pystr -> option R)
         (taken : pystr) (s : pystr) : option R :=
  match k (rev taken) s with
  | Some r => Some r
  | None =>
      match s with
      | c :: rest => if cls c then lazy cls k (c :: taken) rest else None
      | [] => None
      end
  end.
End Backtracking.

(** A match of the pattern at the start of [s]: group 1 of the match. *)
Fixpoint match_here (p : list item) (group1 : pystr) (s : pystr)
  : option pystr :=
  match p with
  | [] => Some group1
  | Chr c :: p' =>
      match s with
      | x :: rest => if (x =? c)%N then match_here p' group1 rest else None
      | [] => None
      end
  | Star cls :: p' => greedy cls (match_here p' group1) s
  | LazyGroup cls :: p' => lazy cls (fun g rest => match_here p' g rest) [] s
  end.

(** [re.search(p, s)]: the match at the leftmost position that has one. *)
Fixpoint search (p : list item) (s : pystr) : option pystr :=
  match match_here p [] s with
  | Some g => Some g
  | None =>
      match s with
      | _ :: rest => search p rest
      | [] => None
      end
  end.

Definition lits (s : string) : list item := map Chr (py s).

(** [.] under [re.DOTALL] *)
Definition any (c : N) : bool := true.
End Re.

Module DocAnalyzer.
Import Python Re.

(** [r'///\s*<claude>(.*?)///\s*</claude>'], compiled with [re.DOTALL]:
    the opening marker, group 1, the closing marker. *)
Definition closing : list item :=
  (lits "///" ++ [Star isspace] ++ lits "</claude>")%list.

Definition pattern : list item :=
  (lits "///" ++ [Star isspace] ++ lits "<claude>" ++ [LazyGroup any]
   ++ closing)%list.

Definition extract_claude_doc (content : pystr) : option pystr :=
  match search pattern content with
  | Some group1 => Some (strip group1)
  | None => None
  end.

Record doc_record := {
  path : string;
  doc : pystr }.

(** The directory tree under the source root: the files of a directory and
    its sub-directories, in the order [os.walk] lists them. *)
Inductive tree :=
| Dir (files : list string) (subdirs : forest)
with forest :=
| NoDir
| SubDir (name : string) (sub : tree) (rest : forest).

Scheme tree_forest_ind := Induction for tree Sort Prop
  with forest_tree_ind := Induction for forest Sort Prop.

Section Analyzer.
(** [config.lib_dir], [config.excluded_dirs], [config.excluded_files] *)
Variable lib_path : string.
Variable excluded_dirs : list string.
Variable excluded_files : list string.
(** [os.path.relpath], and [open(...).read()] by path ([None] when it raises). *)
Variable relpath : string -> string -> string.
Variable read : string -> option pystr.

(** [process_file]: [self.docs] after the call.  [if doc:] is false for
    [None] and for the empty string. *)
Definition process_file (file_path : string) (docs : list doc_record)
  : list doc_record :=
  match read file_path with
  | None => docs
  | Some content =>
      match extract_claude_doc content with
      | Some (c :: d) =>
          (docs ++ [ {| path := relpath file_path lib_path; doc := c :: d |} ])%list
      | Some [] => docs
      | None => docs
      end
  end.

(** [not any(os.path.join(root, d).startswith(exc_dir) for exc_dir in ...)] *)
Definition dir_excluded (dir_path : string) : bool :=
  existsb (fun exc_dir => startswith dir_path exc_dir) excluded_dirs.

(** [file.endswith('.dart') and not any(file.endswith(ext) for ext in ...)] *)
Definition file_wanted (file : string) : bool :=
  endswith file ".dart"
  && negb (existsb (fun ext => endswith file ext) excluded_files).

(** The paths [process_file] is called with, in order: [os.walk] top-down,
    with the excluded sub-directories removed from [dirs] in place. *)
Fixpoint walk (root : string) (t : tree) : list string :=
  match t with
  | Dir files subdirs =>
      (map (join root) (filter file_wanted files) ++ walk_dirs root subdirs)%list
  end
with walk_dirs (root : string) (f : forest) : list string :=
  match f with
  | NoDir => []
  | SubDir d sub rest =>
      ((if dir_excluded (join root d) then [] else walk (join root d) sub)
       ++ walk_dirs root rest)%list
  end.

(** [scan_directory]: [self.docs] after the walk of the tree under
    [lib_path]. *)
Definition scan_directory (t : tree) : list doc_record :=
  fold_left (fun docs file => process_file file docs) (walk lib_path t) [].
End Analyzer.
End DocAnalyzer.

(** The documentation block and the place of a file in the tree, in the
    words of the spec. *)
Module DocSpec.
Import Python DocAnalyzer.

(** [content] holds a block: a line-comment-prefixed [<claude>] marker after
    [before], the text [inner], and a line-comment-prefixed [</claude>]
    marker; white space may separate the comment prefix from the marker. *)
Definition block (content before inner : pystr) : Prop :=
  exists ws1 ws2 after,
    content = (before ++ py "///" ++ ws1 ++ py "<claude>" ++ inner
               ++ py "///" ++ ws2 ++ py "</claude>" ++ after)%list /\
    forallb isspace ws1 = true /\ forallb isspace ws2 = true.

Definition has_block (content : pystr) : Prop :=
  exists before inner, block content before inner.

(** The first block: none starts earlier, and none that starts at the same
    place closes earlier. *)
Definition first_block (content inner : pystr) : Prop :=
  exists before,
    block content before inner /\
    forall before' inner', block content before' inner' ->
      (List.length before <= List.length before')%nat /\
      (List.length before' = List.length before ->
       (List.length inner <= List.length inner')%nat).

(** [t] is [s] without its leading and trailing white space. *)
Definition trimmed (s t : pystr) : Prop :=
  exists l r, s = (l ++ t ++ r)%list /\
    forallb isspace l = true /\ forallb isspace r = true /\
    (forall c rest, t = c :: rest -> isspace c = false) /\
    (forall c front, t = (front ++ [c])%list -> isspace c = false).

(** [name] is a file of the tree under [root]; [dirs] are the paths of the
    directories below [root] that lead to it, outermost first. *)
Inductive file_in : string -> tree -> list string -> string -> Prop :=
| file_here root files subdirs name :
    In name files -> file_in root (Dir files subdirs) [] name
| file_below root files subdirs dirs name :
    file_in_dirs root subdirs dirs name ->
    file_in root (Dir files subdirs) dirs name
with file_in_dirs : string -> forest -> list string -> string -> Prop :=
| file_in_first root d sub rest dirs name :
    file_in (join root d) sub dirs name ->
    file_in_dirs root (SubDir d sub rest) (join root d :: dirs) name
| file_in_rest root d sub rest dirs name :
    file_in_dirs root rest dirs name ->
    file_in_dirs root (SubDir d sub rest) dirs name.

(** The path of the directory that holds the file. *)
Definition holder (root : string) (dirs : list string) : string :=
  last dirs root.

(** Two files: one with two blocks, one whose only block is empty. *)
Definition two_blocks : pystr :=
  py "/// <claude> first /// </claude> class A {} ///<claude>second///</claude>".

Definition empty_block : pystr := py "///<claude>///</claude>".
End DocSpec.

(* ================================================================== *)
(** * dart_analyzer.py *)
(* ================================================================== *)

(** A pandas DataFrame with the dtype of each column. *)
Module Frame.
(** A cell of an object column. *)
Inductive object :=
| OBool (b : bool)
| OInt (z : Z)
| OFloat (f : float)
| OStr (s : string)
| ONone.

(** A column: a numpy array of one dtype, or an array of objects. *)
Inductive series :=
| BoolSeries (cells : list bool)
| Int64Series (cells : list Z)
| Float64Series (cells : list float)
| ObjectSeries (cells : list object).

Definition dataframe := list (string * series).

(** A missing value: [None] or NaN. *)
Definition isna (o : object) : bool :=
  match o with
  | ONone => true
  | OFloat f => PrimFloat.is_nan f
  | _ => false
  end.

(** The cells of a column as objects. *)
Definition cells_of (s : series) : list object :=
  match s with
  | BoolSeries l => map OBool l
  | Int64Series l => map OInt l
  | Float64Series l => map OFloat l
  | ObjectSeries l => l
  end.

(** [df.fillna('')] on one column: a column that holds a missing value
    becomes an object column with [''] in its place. *)
Definition fillna_empty (s : series) : series :=
  if existsb isna (cells_of s)
  then ObjectSeries (map (fun o => if isna o then OStr "" else o) (cells_of s))
  else s.

(** [df[col].map({True: 'Yes', False: 'No'})] for the columns of
    [df.select_dtypes(include=['bool'])]: the columns of dtype bool. *)
Definition yes_no (s : series) : series :=
  match s with
  | BoolSeries l =>
      ObjectSeries (map (fun b : bool => OStr (if b then "Yes" else "No")) l)
  | _ => s
  end.

(** What [pd.read_sql_query] makes of a column of SQLite INTEGER or TEXT
    values; a result without rows has object columns. *)
Definition integer_column (l : list Z) : series :=
  match l with
  | [] => ObjectSeries []
  | _ => Int64Series l
  end.

Definition text_column (l : list string) : series :=
  ObjectSeries (map OStr l).

Fixpoint column (df : dataframe) (name : string) : option series :=
  match df with
  | [] => None
  | (n, s) :: rest => if String.eqb n name then Some s else column rest name
  end.
End Frame.

Module DartCodeAnalyzer.
Import Schema Sql Frame.

(** ** analyze_methods *)

Definition methods_where (t : method_row * class_row * source_file) : bool :=
  let '(m, _, _) := t in
  negb (AuditAnalyzer.name_in AuditAnalyzer.lifecycle_methods (method_name m))
  && (has_annotation m =? 0).

(** [ORDER BY m.cyclomatic_complexity DESC, m.cognitive_complexity DESC,
     sf.file_path, c.class_name, m.method_name] *)
Definition methods_order (a b : method_row * class_row * source_file)
  : comparison :=
  let '(ma, ca, fa) := a in
  let '(mb, cb, fb) := b in
  then_by (Z.compare (cyclomatic_complexity mb) (cyclomatic_complexity ma))
 (then_by (Z.compare (cognitive_complexity mb) (cognitive_complexity ma))
 (then_by (String.compare (file_path fa) (file_path fb))
 (then_by (String.compare (class_name ca) (class_name cb))
          (String.compare (method_name ma) (method_name mb))))).

Definition methods_selection (db : database)
  : list (method_row * class_row * source_file) :=
  OrderBy.order_by (no_later methods_order)
                   (filter methods_where (AuditAnalyzer.methods_join db)).

(** The DataFrame of the query: [m.is_async] and [m.is_static] are selected
    as stored, SQLite integers. *)
Definition analyze_methods (db : database) : dataframe :=
  let rows := methods_selection db in
  let m := fun t : method_row * class_row * source_file => fst (fst t) in
  [ ("file_name", text_column (map (fun t => file_path (snd t)) rows));
    ("class_name", text_column (map (fun t => class_name (snd (fst t))) rows));
    ("method_name", text_column (map (fun t => method_name (m t)) rows));
    ("return_type", text_column (map (fun t => return_type (m t)) rows));
    ("param_count", integer_column (map (fun t => param_count (m t)) rows));
    ("cyclomatic_complexity",
       integer_column (map (fun t => cyclomatic_complexity (m t)) rows));
    ("cognitive_complexity",
       integer_column (map (fun t => cognitive_complexity (m t)) rows));
    ("is_async", integer_column (map (fun t => is_async (m t)) rows));
    ("is_static", integer_column (map (fun t => is_static (m t)) rows)) ].

(** ** export_to_excel *)

(** The pre-processing of one DataFrame:
<<
    df = df.fillna('')
    for col in df.select_dtypes(include=['bool']).columns:
        df[col] = df[col].map({True: 'Yes', False: 'No'})
>> *)
Definition preprocess (df : dataframe) : dataframe :=
  map (fun c => (fst c, yes_no (fillna_empty (snd c)))) df.

(** The sheets handed to the writer: the name, a [str], cut to its first 31
    characters ([sheet_name[:31]]) and the pre-processed DataFrame.  (The
    widths are then set by [_format_excel_sheet].) *)
Definition export_to_excel (dataframes : list (Python.pystr * dataframe))
  : list (Python.pystr * dataframe) :=
  map (fun e => (firstn 31 (fst e), preprocess (snd e))) dataframes.

Definition _format_excel_sheet := Sheet.format_excel_sheet.

(** The first sheet of [run_all_analyses]. *)
Definition methods_sheet (db : database) : option dataframe :=
  match export_to_excel [(Python.py "Methods", analyze_methods db)] with
  | (_, df) :: _ => Some df
  | [] => None
  end.
End DartCodeAnalyzer.

Module SchemaDocAnalyzer.
(** The loop at the end of [export_documentation]. *)
Definition format_columns := Sheet.format_excel_sheet.
End SchemaDocAnalyzer.

(* ================================================================== *)
(** * Further parts of the analyzers *)
(* ================================================================== *)

(** The store's keys, as the schema declares them, and the producer's
    insertion of a method usage row. *)
Module Store.
Import Schema.

(** [file_id] and [class_id] are primary keys; every class row references a
    source file and every method row a class. *)
Definition keys_hold (db : database) : Prop :=
  NoDup (map file_id (source_files db)) /\
  NoDup (map class_id (classes db)) /\
  (forall c, In c (classes db) ->
     exists sf, In sf (source_files db) /\ file_id sf = c_file_id c) /\
  (forall m, In m (class_methods db) ->
     exists c, In c (classes db) /\ class_id c = m_class_id m).

Definition insert_method_usage (r : method_usage_reference) (db : database)
  : database :=
  {| source_files := source_files db;
     classes := classes db;
     class_methods := class_methods db;
     class_usage_references := class_usage_references db;
     method_usage_references := method_usage_references db ++ [r] |}.
End Store.

(** [DartCodeAnalyzer.analyze_class_hierarchy]: the full listing, file by
    class by method, without exclusions. *)
Module Hierarchy.
Import Schema Sql.

(** [FROM source_files sf INNER JOIN classes c ON sf.file_id = c.file_id
     INNER JOIN class_methods m ON c.class_id = m.class_id].  SQLite scans
    [class_methods] and finds the class and the file of each method by their
    keys, as in the other joins of the three tables. *)
Definition hierarchy_join (db : database)
  : list (source_file * class_row * method_row) :=
  flat_map (fun m =>
    flat_map (fun c =>
      if class_id c =? m_class_id m then
        flat_map (fun sf =>
          if file_id sf =? c_file_id c then [(sf, c, m)] else [])
          (source_files db)
      else [])
      (classes db))
    (class_methods db).

(** [ORDER BY sf.file_path, c.class_name, m.method_name] *)
Definition hierarchy_order (a b : source_file * class_row * method_row)
  : comparison :=
  let '(fa, ca, ma) := a in
  let '(fb, cb, mb) := b in
  then_by (String.compare (file_path fa) (file_path fb))
 (then_by (String.compare (class_name ca) (class_name cb))
          (String.compare (method_name ma) (method_name mb))).

Definition hierarchy_selection (db : database)
  : list (source_file * class_row * method_row) :=
  OrderBy.order_by (no_later hierarchy_order) (hierarchy_join db).

Record hierarchy_row := {
  h_file_name : string;
  h_class_name : string;
  h_class_type : string;
  h_widget_type : option string;
  h_framework_type : option string;
  h_method_name : string;
  h_return_type : string;
  h_is_async : string;
  h_is_static : string;
  h_param_count : Z;
  h_cyclomatic_complexity : Z;
  h_cognitive_complexity : Z }.

Definition select_hierarchy (t : source_file * class_row * method_row)
  : hierarchy_row :=
  let '(sf, c, m) := t in
  {| h_file_name := file_path sf;
     h_class_name := class_name c;
     h_class_type := class_type c;
     h_widget_type := widget_type c;
     h_framework_type := framework_type c;
     h_method_name := method_name m;
     h_return_type := return_type m;
     h_is_async := case_is_one (is_async m) "async" "";
     h_is_static := case_is_one (is_static m) "static" "";
     h_param_count := param_count m;
     h_cyclomatic_complexity := cyclomatic_complexity m;
     h_cognitive_complexity := cognitive_complexity m |}.

Definition analyze_class_hierarchy (db : database) : list hierarchy_row :=
  map select_hierarchy (hierarchy_selection db).

(** The order of the listing, key by key. *)
Definition hierarchy_le (a b : hierarchy_row) : Prop :=
  Text.lt (h_file_name a) (h_file_name b) \/
  (h_file_name a = h_file_name b /\
   (Text.lt (h_class_name a) (h_class_name b) \/
    (h_class_name a = h_class_name b /\
     Text.le (h_method_name a) (h_method_name b)))).

(** The order of the Methods listing of [analyze_methods], key by key:
    cyclomatic then cognitive complexity descending, then file path, class
    name and method name ascending. *)
Definition methods_le (a b : method_row * class_row * source_file) : Prop :=
  let '(ma, ca, fa) := a in
  let '(mb, cb, fb) := b in
  cyclomatic_complexity ma > cyclomatic_complexity mb \/
  (cyclomatic_complexity ma = cyclomatic_complexity mb /\
   (cognitive_complexity ma > cognitive_complexity mb \/
    (cognitive_complexity ma = cognitive_complexity mb /\
     (Text.lt (file_path fa) (file_path fb) \/
      (file_path fa = file_path fb /\
       (Text.lt (class_name ca) (class_name cb) \/
        (class_name ca = class_name cb /\
         Text.le (method_name ma) (method_name mb)))))))).
End Hierarchy.

(** A DataFrame read by rows. *)
Module Listing.
Import Frame.

(** [len(df)]: the number of rows. *)
Definition height (df : dataframe) : nat :=
  match df with
  | [] => 0%nat
  | (_, s) :: _ => List.length (cells_of s)
  end.

(** [df[name].iloc[i]] *)
Definition cell (df : dataframe) (name : string) (i : nat) : option object :=
  match column df name with
  | Some s => nth_error (cells_of s) i
  | None => None
  end.
End Listing.

(** The attributes of the configuration in the order [_load_pml_config]
    assigns them, and the document entry each one is loaded from. *)
Module ConfigKeys.
Import Yaml Config.

Definition attributes (self : AnalyzerConfig) : list value :=
  [ app_name self; lib_dir self; excluded_dirs self; excluded_files self;
    db_dir self; db_name self; cleanup_on_start self;
    output_doc_dir self; output_reports_dir self; output_temp_dir self;
    log_level self; log_file self; log_to_console self ].

Definition sub (v : option value) (key : string) : option value :=
  match v with
  | Some x => getitem x key
  | None => None
  end.

(** The entry of each attribute, [None] when a key on the way to it is
    missing; [logging.console] is optional. *)
Definition entries (document : option value) : list (option value) :=
  let app := sub document "app" in
  let analyzer := sub document "analyzer" in
  let excluded := sub analyzer "excluded" in
  let database := sub analyzer "database" in
  let output := sub document "output" in
  let logging := sub document "logging" in
  [ sub app "name"; sub app "lib_dir";
    sub excluded "dirs"; sub excluded "files";
    sub database "dir"; sub database "name"; sub database "cleanup_on_start";
    sub output "doc_dir"; sub output "reports_dir"; sub output "temp_dir";
    sub logging "level"; sub logging "file";
    match logging with
    | Some l => get l "console" (Bool true)
    | None => None
    end ].
End ConfigKeys.

(** [os.path.dirname] and [os.path.basename] of posixpath. *)
Module PosixPath.
(** [(p[:i], p[i:])] for [i = p.rfind('/') + 1]. *)
Fixpoint split_last (p : string) : string * string :=
  match p with
  | EmptyString => ("", "")
  | String c rest =>
      let (head, tail) := split_last rest in
      match head with
      | EmptyString =>
          if Ascii.eqb c "/" then (String c "", rest) else ("", String c rest)
      | _ => (String c head, tail)
      end
  end.

(** [head != sep * len(head)] is the negation of this. *)
Fixpoint all_slashes (s : string) : bool :=
  match s with
  | EmptyString => true
  | String c rest => Ascii.eqb c "/" && all_slashes rest
  end.

(** [head.rstrip('/')] *)
Fixpoint rstrip_slashes (s : string) : string :=
  match s with
  | EmptyString => ""
  | String c rest =>
      match rstrip_slashes rest with
      | EmptyString => if Ascii.eqb c "/" then "" else String c ""
      | kept => String c kept
      end
  end.

(** A path component: a name without a slash. *)
Fixpoint no_slash (s : string) : bool :=
  match s with
  | EmptyString => true
  | String c rest => negb (Ascii.eqb c "/") && no_slash rest
  end.

Definition basename (p : string) : string := snd (split_last p).

Definition dirname (p : string) : string :=
  let head := fst (split_last p) in
  if negb (String.eqb head "") && negb (all_slashes head)
  then rstrip_slashes head
  else head.
End PosixPath.

(** The derived names and paths of [AnalyzerConfig]. *)
Module ConfigPaths.
Import Yaml Config Python.

Section Names.
(** What an f-string makes of the attribute [app_name]. *)
Variable format : value -> string.

Definition documentation_file (self : AnalyzerConfig) : string :=
  format (app_name self) ++ "_documentation.xlsx".

Definition markdown_documentation_file (self : AnalyzerConfig) : string :=
  format (app_name self) ++ "_documentation.md".

Definition dart_analysis_file (self : AnalyzerConfig) : string :=
  format (app_name self) ++ "_dart_analysis.xlsx".

Definition audit_report_file (self : AnalyzerConfig) : string :=
  format (app_name self) ++ "_audit.xlsx".
End Names.

(** [os.path.join(self.db_dir, self.db_name)]: TypeError ([None]) unless both
    are str. *)
Definition db_path (self : AnalyzerConfig) : option string :=
  match db_dir self, db_name self with
  | Str dir, Str name => Some (join dir name)
  | _, _ => None
  end.

(** [os.path.join(os.path.dirname(os.path.dirname(self.log_file)))] *)
Definition log_path (self : AnalyzerConfig) : option string :=
  match log_file self with
  | Str file => Some (PosixPath.dirname (PosixPath.dirname file))
  | _ => None
  end.
End ConfigPaths.

(** [DocAnalyzer.generate_summary] *)
Module DocSummary.
Import Python DocAnalyzer PosixPath.

(** [folders[folder].append(doc)], with [folders[folder] = []] first when
    the key is new; the dict keeps its keys in insertion order. *)
Fixpoint add_to_folder (folder : string) (d : doc_record)
         (folders : list (string * list doc_record))
  : list (string * list doc_record) :=
  match folders with
  | [] => [(folder, [d])]
  | (f, ds) :: rest =>
      if String.eqb f folder then (f, (ds ++ [d])%list) :: rest
      else (f, ds) :: add_to_folder folder d rest
  end.

Definition group (docs : list doc_record) : list (string * list doc_record) :=
  fold_left (fun folders d => add_to_folder (dirname (path d)) d folders)
            docs [].

(** [sorted(folders.items())] compares the keys, which differ, and
    [sorted(docs, key=lambda x: x['path'])] the paths. *)
Definition folder_leb (a b : string * list doc_record) : bool :=
  String.leb (fst a) (fst b).

Definition path_leb (a b : doc_record) : bool := String.leb (path a) (path b).

(** The folders in the order of the second loop, each with its records in
    the order of the inner loop. *)
Definition sections (docs : list doc_record)
  : list (string * list doc_record) :=
  map (fun s => (fst s, OrderBy.order_by path_leb (snd s)))
      (OrderBy.order_by folder_leb (group docs)).

(** The pieces the summary is concatenated from. *)
Inductive piece :=
| Header
| FolderHeading (label : string)
| FileHeading (name : string)
| DocText (text : pystr).

(** [folder if folder else 'Root'] *)
Definition folder_label (folder : string) : string :=
  if String.eqb folder "" then "Root" else folder.

(** What a folder of the summary is to hold: at least one record, and only
    records of that directory. *)
Definition folder_ok (s : string * list doc_record) : Prop :=
  snd s <> [] /\ Forall (fun d => dirname (path d) = fst s) (snd s).

(** The texts of the summary, in order. *)
Fixpoint texts (pieces : list piece) : list pystr :=
  match pieces with
  | [] => []
  | DocText t :: rest => t :: texts rest
  | _ :: rest => texts rest
  end.

Definition generate_summary (docs : list doc_record) : list piece :=
  Header ::
  flat_map (fun s =>
    FolderHeading (folder_label (fst s)) ::
    flat_map (fun d => [FileHeading (basename (path d)); DocText (doc d)])
             (snd s))
    (sections docs).
End DocSummary.

(* ================================================================== *)
(** * schema_doc_analyzer.py *)
(* ================================================================== *)

Module SchemaTables.
(** A row of [sqlite_master]. *)
Record master_row := {
  m_type : string;
  m_name : string;
  m_sql : option string }.

(** The letter case SQLite's LIKE ignores: ASCII upper case is read as lower
    case. *)
Definition lower (c : ascii) : ascii :=
  let n := nat_of_ascii c in
  if (65 <=? n)%nat && (n <=? 90)%nat then ascii_of_nat (n + 32) else c.

(** [s LIKE pat]: [%] matches any run of characters, [_] one character, any
    other character itself without regard to ASCII letter case.  ([_] takes
    one byte here; before a [%], as in the analyzer's pattern, that is the
    same as taking one character.) *)
Fixpoint like (pat s : list ascii) {struct pat} : bool :=
  match pat with
  | [] => match s with [] => true | _ => false end
  | c :: pat' =>
      if Ascii.eqb c "%" then
        (fix any (s : list ascii) : bool :=
           like pat' s || match s with [] => false | _ :: s' => any s' end) s
      else if Ascii.eqb c "_" then
        match s with
        | _ :: s' => like pat' s'
        | [] => false
        end
      else
        match s with
        | x :: s' => Ascii.eqb (lower x) (lower c) && like pat' s'
        | [] => false
        end
  end.

(** [type = 'table' AND name NOT LIKE 'sqlite_%'] *)
Definition is_listed (r : master_row) : bool :=
  String.eqb (m_type r) "table"
  && negb (like (list_ascii_of_string "sqlite_%")
                (list_ascii_of_string (m_name r))).

Definition descriptions : list (string * string) :=
  [ ("source_files", "Stores Dart source file information");
    ("file_imports", "Records import statements used in files");
    ("file_import_relations", "Maps files to their imports");
    ("classes", "Defines classes, interfaces, and mixins");
    ("class_methods", "Contains methods and their metrics");
    ("class_documentations", "Auto-generated class documentation");
    ("class_usage_references", "Track class usage and references");
    ("method_usage_references", "Track method calls and usage") ].

(** [Series.map(descriptions)]: a name that is not a key gives a missing
    value. *)
Fixpoint describe (d : list (string * string)) (name : string) : option string :=
  match d with
  | [] => None
  | (k, v) :: rest => if String.eqb k name then Some v else describe rest name
  end.

Record table_info := {
  table_name : string;
  create_statement : option string;
  description : option string }.

(** [get_tables_info], from the rows of the catalog in their order. *)
Definition get_tables_info (master : list master_row) : list table_info :=
  map (fun r => {| table_name := m_name r;
                   create_statement := m_sql r;
                   description := describe descriptions (m_name r) |})
      (filter is_listed master).
End SchemaTables.

(** [SchemaDocAnalyzer.get_file_contents] *)
Module CodeStructure.
Import Schema Sql.

(** A row of [source_files sf LEFT JOIN classes c LEFT JOIN class_methods m]:
    the columns of [c], and with them those of [m], are NULL for a file
    without a class, those of [m] for a class without a method. *)
Record joined := {
  j_file : source_file;
  j_class : option class_row;
  j_method : option method_row }.

(** [LEFT JOIN class_methods m ON c.class_id = m.class_id] *)
Definition join_methods (db : database) (sf : source_file) (c : class_row)
  : list joined :=
  match filter (fun m => class_id c =? m_class_id m) (class_methods db) with
  | [] => [ {| j_file := sf; j_class := Some c; j_method := None |} ]
  | ms => map (fun m => {| j_file := sf; j_class := Some c; j_method := Some m |})
              ms
  end.

(** [LEFT JOIN classes c ON sf.file_id = c.file_id] *)
Definition left_join (db : database) : list joined :=
  flat_map (fun sf =>
    match filter (fun c => file_id sf =? c_file_id c) (classes db) with
    | [] => [ {| j_file := sf; j_class := None; j_method := None |} ]
    | cs => flat_map (join_methods db sf) cs
    end)
    (source_files db).

(** [GROUP BY sf.file_path, c.class_name, c.type] *)
Definition group_key : Type := string * option string * option string.

Definition key_of (j : joined) : group_key :=
  (file_path (j_file j),
   option_map class_name (j_class j),
   option_map class_type (j_class j)).

(** Grouping takes two NULLs for the same value. *)
Definition null_eqb (a b : option string) : bool :=
  match a, b with
  | None, None => true
  | Some x, Some y => String.eqb x y
  | _, _ => false
  end.

Definition key_eqb (a b : group_key) : bool :=
  let '(f, c, t) := a in
  let '(f', c', t') := b in
  String.eqb f f' && null_eqb c c' && null_eqb t t'.

(** The groups: the keys of the joined rows, each once. *)
Fixpoint distinct (keys : list group_key) : list group_key :=
  match keys with
  | [] => []
  | k :: rest => k :: filter (fun k' => negb (key_eqb k k')) (distinct rest)
  end.

(** The values [m.method_name] of a group that are not NULL. *)
Definition method_names (db : database) (k : group_key) : list string :=
  flat_map (fun j =>
    if key_eqb (key_of j) k then
      match j_method j with
      | Some m => [method_name m]
      | None => []
      end
    else [])
    (left_join db).

(** [GROUP_CONCAT(x)]: the values joined by commas, NULL when there is
    none. *)
Definition group_concat (names : list string) : option string :=
  match names with
  | [] => None
  | _ => Some (String.concat "," names)
  end.

Record content_row := {
  cs_file : string;
  cs_class : option string;
  cs_type : option string;
  cs_methods : option string }.

(** NULL sorts before every value. *)
Definition compare_null (a b : option string) : comparison :=
  match a, b with
  | None, None => Eq
  | None, Some _ => Lt
  | Some _, None => Gt
  | Some x, Some y => String.compare x y
  end.

(** [ORDER BY sf.file_path, c.class_name] names the first two of the three
    grouping columns, on which SQLite sorts the groups. *)
Definition contents_compare (a b : content_row) : comparison :=
  then_by (String.compare (cs_file a) (cs_file b))
    (then_by (compare_null (cs_class a) (cs_class b))
             (compare_null (cs_type a) (cs_type b))).

Definition contents_order (a b : content_row) : bool :=
  no_later contents_compare a b.

(** The order the query asks for: file path, then class name, a NULL class
    name first. *)
Definition contents_le (a b : content_row) : Prop :=
  Text.lt (cs_file a) (cs_file b) \/
  (cs_file a = cs_file b /\ compare_null (cs_class a) (cs_class b) <> Gt).

(** The order of the groups, on the three grouping columns. *)
Definition null_lt (a b : option string) : Prop := compare_null a b = Lt.

Definition contents_le3 (a b : content_row) : Prop :=
  Text.lt (cs_file a) (cs_file b) \/
  (cs_file a = cs_file b /\
   (null_lt (cs_class a) (cs_class b) \/
    (cs_class a = cs_class b /\
     (null_lt (cs_type a) (cs_type b) \/ cs_type a = cs_type b)))).

(** The three grouping columns of a row. *)
Definition columns_of (r : content_row) : group_key :=
  (cs_file r, cs_class r, cs_type r).

Section Arrange.
(** SQLite leaves open the order in which GROUP_CONCAT takes the rows of a
    group. *)
Variable arrange : list string -> list string.

Definition content_of (db : database) (k : group_key) : content_row :=
  {| cs_file := fst (fst k);
     cs_class := snd (fst k);
     cs_type := snd k;
     cs_methods := group_concat (arrange (method_names db k)) |}.

Definition get_file_contents (db : database) : list content_row :=
  OrderBy.order_by contents_order
    (map (content_of db) (distinct (map key_of (left_join db)))).
End Arrange.
End CodeStructure.

(* ================================================================== *)
(** * viewmermaid.py *)
(* ================================================================== *)

Module MermaidRenderer.
Import Python.

Section Render.
(** [config.output_temp_dir], a str, and what an f-string makes of
    [config.app_name]. *)
Variable output_dir : string.
Variable app : string.

(** [f"_{title}.html" if title else ".html"]: a title that is [None] or
    empty gives the bare extension. *)
Definition suffix (title : option string) : string :=
  match title with
  | None => ".html"
  | Some EmptyString => ".html"
  | Some t => "_" ++ t ++ ".html"
  end.

(** [os.path.join(self.output_dir, f"mermaid_{config.app_name}{suffix}")] *)
Definition temp_file_path (title : option string) : string :=
  join output_dir ("mermaid_" ++ app ++ suffix title).
End Render.
End MermaidRenderer.

(* ================================================================== *)
(** * Facts about ORDER BY *)
(* ================================================================== *)

Module OrderByFacts.
Import OrderBy.
Section Sort.
Context {A : Type}.
Variable leb : A -> A -> bool.

Lemma insert_row_perm x l : Permutation (x :: l) (insert_row leb x l).
Proof.
  induction l as [|y l IH]; simpl; [reflexivity|].
  destruct (leb x y); [reflexivity|].
  rewrite perm_swap. now constructor.
Qed.

Lemma order_by_perm l : Permutation l (order_by leb l).
Proof.
  induction l as [|x l IH]; simpl; [constructor|].
  rewrite <- insert_row_perm. now constructor.
Qed.

Lemma order_by_In l x : In x (order_by leb l) <-> In x l.
Proof.
  split; intro H.
  - eapply Permutation_in; [symmetry; apply order_by_perm | exact H].
  - eapply Permutation_in; [apply order_by_perm | exact H].
Qed.

Variable R : A -> A -> Prop.
Hypothesis leb_R : forall a b, leb a b = true -> R a b.
Hypothesis nleb_R : forall a b, leb a b = false -> R b a.
Hypothesis R_trans : forall a b c, R a b -> R b c -> R a c.

Lemma insert_row_hd x y l :
  R y x -> HdRel R y l -> HdRel R y (insert_row leb x l).
Proof.
  intros Hyx Hl. destruct l as [|z l]; simpl.
  - now constructor.
  - destruct (leb x z); constructor; auto.
    now inversion Hl.
Qed.

Lemma insert_row_sorted x l : Sorted R l -> Sorted R (insert_row leb x l).
Proof.
  induction 1 as [|y l Hs IH Hhd]; simpl.
  - repeat constructor.
  - destruct (leb x y) eqn:E.
    + constructor; [now constructor|]. constructor. now apply leb_R.
    + constructor; [exact IH|].
      apply insert_row_hd; [now apply nleb_R | exact Hhd].
Qed.

Lemma order_by_sorted l : Sorted R (order_by leb l).
Proof.
  induction l as [|x l IH]; simpl; [constructor|].
  now apply insert_row_sorted.
Qed.

Lemma order_by_strongly_sorted l : StronglySorted R (order_by leb l).
Proof.
  apply Sorted_StronglySorted; [exact R_trans | apply order_by_sorted].
Qed.
End Sort.

(** Sortedness survives the SELECT list when the order can be read off the
    selected columns. *)
Lemma StronglySorted_map {A B} (f : A -> B) (R : A -> A -> Prop)
      (S : B -> B -> Prop) (l : list A) :
  (forall a b, R a b -> S (f a) (f b)) ->
  StronglySorted R l -> StronglySorted S (map f l).
Proof.
  intros HRS. induction 1 as [|a l Hs IH Hall]; simpl; constructor; auto.
  rewrite Forall_forall in *. intros y Hy.
  apply in_map_iff in Hy as [x [<- Hx]]. auto.
Qed.

(** A WHERE clause selects the same rows before and after the sort. *)
Lemma filter_perm {A} (p : A -> bool) (l l' : list A) :
  Permutation l l' -> Permutation (filter p l) (filter p l').
Proof.
  induction 1 as [|x l l' _ IH|x y l|l l' l'' _ IH1 _ IH2]; cbn [filter].
  - constructor.
  - destruct (p x); [now constructor | exact IH].
  - destruct (p x), (p y); try reflexivity. apply perm_swap.
  - now transitivity (filter p l').
Qed.

Lemma filter_and {A} (f g : A -> bool) (l : list A) :
  filter (fun x => f x && g x) l = filter g (filter f l).
Proof.
  induction l as [|x l IH]; [reflexivity|]. cbn [filter].
  destruct (f x); cbn [andb filter]; [|exact IH].
  destruct (g x); now rewrite IH.
Qed.

(** In a strongly sorted list, an earlier row is related to every later one. *)
Lemma StronglySorted_nth {A} (R : A -> A -> Prop) (l : list A) :
  StronglySorted R l ->
  forall i j a b, (i < j)%nat ->
    nth_error l i = Some a -> nth_error l j = Some b -> R a b.
Proof.
  induction 1 as [|x l Hs IH Hall]; intros i j a b Hij Ha Hb.
  - destruct i; discriminate.
  - destruct j as [|j]; [lia|]. simpl in Hb.
    destruct i as [|i]; simpl in Ha.
    + injection Ha as <-. rewrite Forall_forall in Hall.
      apply Hall. eapply nth_error_In; eauto.
    + apply (IH i j a b); [lia | assumption | assumption].
Qed.
End OrderByFacts.


(* ================================================================== *)
(** * Facts about the bytewise order of TEXT values *)
(* ================================================================== *)

Module TextFacts.
Import Text.

Lemma compare_refl s : String.compare s s = Eq.
Proof.
  induction s as [|c s IH]; simpl; [reflexivity|].
  unfold Ascii.compare. now rewrite N.compare_refl.
Qed.

Lemma compare_eq a b : String.compare a b = Eq <-> a = b.
Proof.
  split; [apply String.compare_eq_iff | intros ->; apply compare_refl].
Qed.

Lemma compare_gt_lt a b : String.compare a b = Gt -> String.compare b a = Lt.
Proof. intro H. rewrite String.compare_antisym, H. reflexivity. Qed.

Lemma lt_trans a b c : lt a b -> lt b c -> lt a c.
Proof.
  unfold lt. revert b c.
  induction a as [|x a IH]; intros [|y b] [|z c]; simpl; try discriminate; auto.
  unfold Ascii.compare.
  destruct (N.compare_spec (N_of_ascii x) (N_of_ascii y)) as [E1|L1|G1];
    try discriminate;
    destruct (N.compare_spec (N_of_ascii y) (N_of_ascii z)) as [E2|L2|G2];
    try discriminate; intros H1 H2.
  - rewrite E1, E2, N.compare_refl. eauto.
  - rewrite E1. now apply N.compare_lt_iff in L2 as ->.
  - rewrite <- E2. now apply N.compare_lt_iff in L1 as ->.
  - assert (L : (N_of_ascii x < N_of_ascii z)%N) by lia.
    now apply N.compare_lt_iff in L as ->.
Qed.

Lemma lt_irrefl a : ~ lt a a.
Proof. unfold lt. now rewrite compare_refl. Qed.

Lemma le_trans a b c : le a b -> le b c -> le a c.
Proof.
  intros [H1| ->] [H2| ->]; unfold le; auto.
  left. eapply lt_trans; eauto.
Qed.
End TextFacts.

(* ================================================================== *)
(** * audit_analyzer.py: the unused-code reports *)
(* ================================================================== *)

Module AuditFacts.
Import Schema Sql AuditAnalyzer ReportOrder.

Lemma methods_join_In db m c sf :
  In (m, c, sf) (methods_join db) <->
  In m (class_methods db) /\ In c (classes db) /\ In sf (source_files db) /\
  m_class_id m = class_id c /\ c_file_id c = file_id sf.
Proof.
  unfold methods_join. rewrite in_flat_map. split.
  - intros [m' [Hm H]]. apply in_flat_map in H as [c' [Hc H]].
    destruct (Z.eqb_spec (m_class_id m') (class_id c')) as [E1|]; [|easy].
    apply in_flat_map in H as [sf' [Hsf H]].
    destruct (Z.eqb_spec (c_file_id c') (file_id sf')) as [E2|]; [|easy].
    destruct H as [H|[]]. injection H as -> -> ->. auto.
  - intros (Hm & Hc & Hsf & E1 & E2). exists m. split; [exact Hm|].
    apply in_flat_map. exists c. split; [exact Hc|].
    rewrite E1, Z.eqb_refl. apply in_flat_map. exists sf. split; [exact Hsf|].
    rewrite E2, Z.eqb_refl. now left.
Qed.

Lemma classes_join_In db c sf :
  In (c, sf) (classes_join db) <->
  In c (classes db) /\ In sf (source_files db) /\ c_file_id c = file_id sf.
Proof.
  unfold classes_join. rewrite in_flat_map. split.
  - intros [c' [Hc H]]. apply in_flat_map in H as [sf' [Hsf H]].
    destruct (Z.eqb_spec (c_file_id c') (file_id sf')) as [E|]; [|easy].
    destruct H as [H|[]]. injection H as -> ->. auto.
  - intros (Hc & Hsf & E). exists c. split; [exact Hc|].
    apply in_flat_map. exists sf. split; [exact Hsf|].
    rewrite E, Z.eqb_refl. now left.
Qed.

Lemma method_is_referenced_false db m :
  method_is_referenced db m = false <->
  forall mur, In mur (method_usage_references db) ->
              referenced_method_id mur <> method_id m.
Proof.
  unfold method_is_referenced. split.
  - intros H mur Hin E.
    assert (T : existsb (fun r => referenced_method_id r =? method_id m)
                        (method_usage_references db) = true).
    { apply existsb_exists. exists mur. split; [exact Hin|]. now apply Z.eqb_eq. }
    congruence.
  - intros H. apply not_true_is_false. intros T.
    apply existsb_exists in T as [mur [Hin E]]. apply Z.eqb_eq in E.
    exact (H mur Hin E).
Qed.

Lemma class_is_referenced_false db c :
  class_is_referenced db c = false <->
  forall cur, In cur (class_usage_references db) ->
              referenced_class_id cur <> class_id c.
Proof.
  unfold class_is_referenced. split.
  - intros H cur Hin E.
    assert (T : existsb (fun r => referenced_class_id r =? class_id c)
                        (class_usage_references db) = true).
    { apply existsb_exists. exists cur. split; [exact Hin|]. now apply Z.eqb_eq. }
    congruence.
  - intros H. apply not_true_is_false. intros T.
    apply existsb_exists in T as [cur [Hin E]]. apply Z.eqb_eq in E.
    exact (H cur Hin E).
Qed.

Lemma name_in_true names n : name_in names n = true <-> In n names.
Proof.
  unfold name_in. rewrite existsb_exists. split.
  - intros [x [Hin E]]. apply String.eqb_eq in E. now subst.
  - intros Hin. exists n. split; [exact Hin | apply String.eqb_refl].
Qed.

Lemma unused_method_where_true db m c sf :
  unused_method_where db (m, c, sf) = true <->
  (forall mur, In mur (method_usage_references db) ->
               referenced_method_id mur <> method_id m) /\
  ~ In (method_name m) lifecycle_methods /\
  has_annotation m = 0.
Proof.
  unfold unused_method_where.
  rewrite !andb_true_iff, !negb_true_iff, Z.eqb_eq.
  rewrite method_is_referenced_false.
  rewrite <- name_in_true, not_true_iff_false. tauto.
Qed.

Lemma unused_methods_selection_In db t :
  In t (unused_methods_selection db) <->
  In t (methods_join db) /\ unused_method_where db t = true.
Proof.
  unfold unused_methods_selection.
  rewrite OrderByFacts.order_by_In. apply filter_In.
Qed.

Lemma unused_classes_selection_In db t :
  In t (unused_classes_selection db) <->
  In t (classes_join db) /\ class_is_referenced db (fst t) = false.
Proof.
  unfold unused_classes_selection.
  rewrite OrderByFacts.order_by_In, filter_In.
  unfold unused_class_where. now rewrite negb_true_iff.
Qed.

(** C1. A method row, joined to its class and source file (a row of
    [class_methods], the row of [classes] with its [class_id] and the row of
    [source_files] with that class's [file_id]), is in the unused-methods
    report exactly when no usage reference points at its [method_id], its
    name is none of build, initState, dispose, createState, and its
    [has_annotation] flag is 0.  The report is the SELECT list applied to
    these rows, so it never shows a lifecycle-named or annotated method. *)
Theorem unused_methods_membership (db : database) :
  (forall m c sf,
     In (m, c, sf) (unused_methods_selection db) <->
     (In m (class_methods db) /\ In c (classes db) /\ In sf (source_files db) /\
      m_class_id m = class_id c /\ c_file_id c = file_id sf) /\
     (forall mur, In mur (method_usage_references db) ->
                  referenced_method_id mur <> method_id m) /\
     ~ In (method_name m) ["build"; "initState"; "dispose"; "createState"] /\
     has_annotation m = 0) /\
  (forall row,
     In row (analyze_unused_methods db) <->
     exists m c sf, In (m, c, sf) (unused_methods_selection db) /\
                    row = select_unused_method (m, c, sf)) /\
  (forall row,
     In row (analyze_unused_methods db) ->
     ~ In (um_method_name row) ["build"; "initState"; "dispose"; "createState"]).
Proof.
  assert (Hrows : forall row,
     In row (analyze_unused_methods db) <->
     exists m c sf, In (m, c, sf) (unused_methods_selection db) /\
                    row = select_unused_method (m, c, sf)).
  { intro row. unfold analyze_unused_methods. rewrite in_map_iff. split.
    - intros [[[m c] sf] [E H]]. exists m, c, sf. auto.
    - intros (m & c & sf & H & E). exists (m, c, sf). auto. }
  split; [|split; [exact Hrows|]].
  - intros m c sf. rewrite unused_methods_selection_In.
    rewrite unused_method_where_true, methods_join_In. reflexivity.
  - intros row Hrow. apply Hrows in Hrow as (m & c & sf & Hsel & ->).
    apply unused_methods_selection_In in Hsel as [_ Hw].
    apply unused_method_where_true in Hw as (_ & Hn & _). exact Hn.
Qed.
Lemma class_reported_iff db c :
  class_reported db c <->
  In c (classes db) /\
  (exists sf, In sf (source_files db) /\ file_id sf = c_file_id c) /\
  (forall cur, In cur (class_usage_references db) ->
               referenced_class_id cur <> class_id c).
Proof.
  unfold class_reported. split.
  - intros [sf H]. apply unused_classes_selection_In in H as [Hj Hr].
    apply classes_join_In in Hj as (Hc & Hsf & E). simpl in Hr.
    pose proof (proj1 (class_is_referenced_false db c) Hr) as Hr'.
    split; [exact Hc|]. split; [|exact Hr']. exists sf. auto.
  - intros (Hc & [sf [Hsf E]] & Hr). exists sf.
    apply unused_classes_selection_In. split.
    + apply classes_join_In. auto.
    + simpl. now apply class_is_referenced_false.
Qed.

Lemma analyze_unused_classes_In db row :
  In row (analyze_unused_classes db) <->
  exists c sf,
    In c (classes db) /\ In sf (source_files db) /\ c_file_id c = file_id sf /\
    (forall cur, In cur (class_usage_references db) ->
                 referenced_class_id cur <> class_id c) /\
    row = select_unused_class db (c, sf).
Proof.
  unfold analyze_unused_classes. rewrite in_map_iff. split.
  - intros [[c sf] [E H]]. apply unused_classes_selection_In in H as [Hj Hr].
    apply classes_join_In in Hj as (Hc & Hsf & Ef). cbn [fst] in Hr.
    exists c, sf. repeat (split; [assumption|]).
    split; [now apply class_is_referenced_false | now symmetry].
  - intros (c & sf & Hc & Hsf & Ef & Hr & ->). exists (c, sf).
    split; [reflexivity|]. apply unused_classes_selection_In. split.
    + apply classes_join_In. auto.
    + cbn [fst]. now apply class_is_referenced_false.
Qed.

(** The rows selected after a usage row is inserted are the rows selected
    before, without those of the class the new row points at. *)
Lemma unused_classes_after_usage db cur :
  Permutation
    (unused_classes_selection (insert_class_usage cur db))
    (filter (fun t => negb (class_id (fst t) =? referenced_class_id cur))
            (unused_classes_selection db)).
Proof.
  unfold unused_classes_selection.
  change (classes_join (insert_class_usage cur db)) with (classes_join db).
  rewrite (filter_ext (unused_class_where (insert_class_usage cur db))
             (fun t => unused_class_where db t
                       && negb (class_id (fst t) =? referenced_class_id cur))).
  - rewrite OrderByFacts.filter_and.
    etransitivity; [symmetry; apply OrderByFacts.order_by_perm|].
    apply OrderByFacts.filter_perm, OrderByFacts.order_by_perm.
  - intros [c sf]. unfold unused_class_where, class_is_referenced.
    cbn [insert_class_usage class_usage_references fst].
    rewrite existsb_app. cbn [existsb].
    rewrite orb_false_r, negb_orb, (Z.eqb_sym (referenced_class_id cur)).
    reflexivity.
Qed.

(** C2, as stated, fails for a class whose [file_id] is not the [file_id]
    of a source file: the query joins [source_files], so the class is left
    out of the report although no usage row points at it. *)
Lemma orphan_class_is_not_reported :
  In (Sample.cls 1 99 "Alpha") (classes Sample.orphan_db) /\
  (forall cur, In cur (class_usage_references Sample.orphan_db) ->
               referenced_class_id cur <> class_id (Sample.cls 1 99 "Alpha")) /\
  analyze_unused_classes Sample.orphan_db = [] /\
  ~ class_reported Sample.orphan_db (Sample.cls 1 99 "Alpha").
Proof.
  split; [now left|]. split; [intros cur []|]. split; [reflexivity|].
  intros [sf H]. exact H.
Qed.

(** C2, amended.  A row of the classes table is in the unused-classes
    report exactly when its source file exists and no usage reference points
    at its [class_id]; the rows of the report are the SELECT list applied to
    exactly these classes.  After a usage row is inserted, the next report
    holds the rows of the previous one without those of the class the new
    row points at.  So a class with [class_id] 1, an existing source file and
    no usage row is in the report, and once a usage row with
    [referenced_class_id] 1 is inserted no class with [class_id] 1 is in the
    next report; on the sample store the report shows Alpha before and
    nothing after. *)
Theorem unused_classes_membership (db : database) :
  (forall c,
     class_reported db c <->
     In c (classes db) /\
     (exists sf, In sf (source_files db) /\ file_id sf = c_file_id c) /\
     (forall cur, In cur (class_usage_references db) ->
                  referenced_class_id cur <> class_id c)) /\
  (forall row,
     In row (analyze_unused_classes db) <->
     exists c sf,
       In c (classes db) /\ In sf (source_files db) /\
       c_file_id c = file_id sf /\
       (forall cur, In cur (class_usage_references db) ->
                    referenced_class_id cur <> class_id c) /\
       row = select_unused_class db (c, sf)) /\
  (forall cur,
     Permutation
       (analyze_unused_classes (insert_class_usage cur db))
       (map (select_unused_class db)
            (filter (fun t => negb (class_id (fst t) =? referenced_class_id cur))
                    (unused_classes_selection db)))) /\
  (forall c sf,
     In c (classes db) -> In sf (source_files db) ->
     c_file_id c = file_id sf -> class_id c = 1 ->
     (forall cur, In cur (class_usage_references db) ->
                  referenced_class_id cur <> 1) ->
     In (select_unused_class db (c, sf)) (analyze_unused_classes db) /\
     forall cur, referenced_class_id cur = 1 ->
       ~ class_reported (insert_class_usage cur db) c /\
       forall c' sf',
         In (c', sf') (unused_classes_selection (insert_class_usage cur db)) ->
         class_id c' <> 1) /\
  map uc_class_name (analyze_unused_classes Sample.db) = ["Alpha"] /\
  analyze_unused_classes
    (insert_class_usage {| referenced_class_id := 1 |} Sample.db) = [].
Proof.
  split; [exact (class_reported_iff db)|].
  split; [exact (analyze_unused_classes_In db)|].
  split; [|split; [|split; reflexivity]].
  - intro cur. unfold analyze_unused_classes.
    change (select_unused_class (insert_class_usage cur db))
      with (select_unused_class db).
    apply Permutation_map, unused_classes_after_usage.
  - intros c sf Hc Hsf Ef E1 Hnone. split.
    + apply analyze_unused_classes_In. exists c, sf.
      repeat (split; [assumption|]). split; [|reflexivity]. now rewrite E1.
    + intros cur Ecur.
      assert (Hlast : In cur (class_usage_references (insert_class_usage cur db))).
      { cbn [insert_class_usage class_usage_references].
        apply in_or_app. right. now left. }
      split.
      * intro Hrep. apply class_reported_iff in Hrep as (_ & _ & Hr).
        apply (Hr cur Hlast). congruence.
      * intros c' sf' Hsel E'.
        apply unused_classes_selection_In in Hsel as [_ Hr]. cbn [fst] in Hr.
        apply (proj1 (class_is_referenced_false _ c') Hr cur Hlast). congruence.
Qed.
(** ** The ORDER BY clauses *)

Lemma unused_methods_le_trans a b c :
  unused_methods_le a b -> unused_methods_le b c -> unused_methods_le a c.
Proof.
  unfold unused_methods_le, Text.le.
  intros [H1|[E1 [F1|[G1 [C1|[D1 [M1|M1]]]]]]] [H2|[E2 [F2|[G2 [C2|[D2 [M2|M2]]]]]]];
    try (left; lia);
    right; (split; [congruence|]);
    try (left; first [ eapply TextFacts.lt_trans; eassumption
                     | rewrite G1; assumption
                     | rewrite <- G2; assumption ]);
    right; (split; [congruence|]);
    try (left; first [ eapply TextFacts.lt_trans; eassumption
                     | rewrite D1; assumption
                     | rewrite <- D2; assumption ]);
    right; (split; [congruence|]);
    first [ left; eapply TextFacts.lt_trans; eassumption
          | left; rewrite M1; assumption
          | left; rewrite <- M2; assumption
          | right; congruence ].
Qed.

Lemma unused_classes_le_trans a b c :
  unused_classes_le a b -> unused_classes_le b c -> unused_classes_le a c.
Proof.
  unfold unused_classes_le.
  intros [F1|[E1 L1]] [F2|[E2 L2]].
  - left. eapply TextFacts.lt_trans; eassumption.
  - left. now rewrite <- E2.
  - left. now rewrite E1.
  - right. split; [congruence|]. eapply TextFacts.le_trans; eassumption.
Qed.

(** What one key of an ORDER BY clause tells about two TEXT values. *)
Lemma text_compare_cases a b :
  (String.compare a b = Lt /\ Text.lt a b) \/
  (String.compare a b = Eq /\ a = b) \/
  (String.compare a b = Gt /\ Text.lt b a).
Proof.
  destruct (String.compare a b) eqn:E.
  - right. left. split; [reflexivity | now apply TextFacts.compare_eq].
  - left. split; [reflexivity | exact E].
  - right. right. split; [reflexivity | now apply TextFacts.compare_gt_lt].
Qed.

Ltac order_key a b :=
  let K := fresh "K" in
  destruct (text_compare_cases a b) as [[-> K]|[[-> K]|[-> K]]]; simpl.

Ltac key_decides := intros _; left; assumption.
Ltac key_ties := let Hn := fresh "Hn" in
  intros Hn; right; split; [first [assumption | symmetry; assumption]|];
  revert Hn.

Lemma unused_methods_order_le a b :
  no_later unused_methods_order a b = true ->
  unused_methods_le (select_unused_method a) (select_unused_method b).
Proof.
  destruct a as [[ma ca] fa], b as [[mb cb] fb].
  unfold no_later, unused_methods_order, unused_methods_le, then_by, Text.le.
  simpl.
  destruct (Z.compare_spec (cyclomatic_complexity mb) (cyclomatic_complexity ma))
    as [K|K|K]; [key_ties|left; lia|discriminate].
  order_key (file_path fa) (file_path fb); [key_decides|key_ties|discriminate].
  order_key (class_name ca) (class_name cb); [key_decides|key_ties|discriminate].
  order_key (method_name ma) (method_name mb);
    [key_decides|intros _; right; assumption|discriminate].
Qed.

Lemma unused_methods_order_ge a b :
  no_later unused_methods_order a b = false ->
  unused_methods_le (select_unused_method b) (select_unused_method a).
Proof.
  destruct a as [[ma ca] fa], b as [[mb cb] fb].
  unfold no_later, unused_methods_order, unused_methods_le, then_by, Text.le.
  simpl.
  destruct (Z.compare_spec (cyclomatic_complexity mb) (cyclomatic_complexity ma))
    as [K|K|K]; [key_ties|discriminate|left; lia].
  order_key (file_path fa) (file_path fb); [discriminate|key_ties|key_decides].
  order_key (class_name ca) (class_name cb); [discriminate|key_ties|key_decides].
  order_key (method_name ma) (method_name mb);
    [discriminate|discriminate|key_decides].
Qed.

Lemma unused_classes_order_le db a b :
  no_later unused_classes_order a b = true ->
  unused_classes_le (select_unused_class db a) (select_unused_class db b).
Proof.
  destruct a as [ca fa], b as [cb fb].
  unfold no_later, unused_classes_order, unused_classes_le, then_by, Text.le.
  simpl.
  order_key (file_path fa) (file_path fb); [key_decides|key_ties|discriminate].
  order_key (class_name ca) (class_name cb);
    [key_decides|intros _; right; assumption|discriminate].
Qed.

Lemma unused_classes_order_ge db a b :
  no_later unused_classes_order a b = false ->
  unused_classes_le (select_unused_class db b) (select_unused_class db a).
Proof.
  destruct a as [ca fa], b as [cb fb].
  unfold no_later, unused_classes_order, unused_classes_le, then_by, Text.le.
  simpl.
  order_key (file_path fa) (file_path fb); [discriminate|key_ties|key_decides].
  order_key (class_name ca) (class_name cb);
    [discriminate|discriminate|key_decides].
Qed.

Lemma analyze_unused_methods_sorted db :
  StronglySorted unused_methods_le (analyze_unused_methods db).
Proof.
  unfold analyze_unused_methods, unused_methods_selection.
  apply OrderByFacts.StronglySorted_map
    with (R := fun a b => unused_methods_le (select_unused_method a)
                                            (select_unused_method b));
    [auto|].
  apply OrderByFacts.order_by_strongly_sorted.
  - apply unused_methods_order_le.
  - apply unused_methods_order_ge.
  - intros a b c. apply unused_methods_le_trans.
Qed.

Lemma analyze_unused_classes_sorted db :
  StronglySorted unused_classes_le (analyze_unused_classes db).
Proof.
  unfold analyze_unused_classes, unused_classes_selection.
  apply OrderByFacts.StronglySorted_map
    with (R := fun a b => unused_classes_le (select_unused_class db a)
                                            (select_unused_class db b));
    [auto|].
  apply OrderByFacts.order_by_strongly_sorted.
  - apply unused_classes_order_le.
  - apply unused_classes_order_ge.
  - intros a b c. apply unused_classes_le_trans.
Qed.

(** C5. Whatever the store holds, the unused-methods report is ordered by
    cyclomatic complexity descending, then file path, class name and method
    name ascending: every row is in that order with every later row, so a row
    never follows one of lower complexity, and the unreferenced methods of
    complexities 3, 9, 9, 1 of the sample store come out as 9, 9, 3, 1 with
    the two 9s in path, class, method order.  The unused-classes report is
    ordered by file path then class name ascending. *)
Theorem reports_are_ordered (db : database) :
  StronglySorted unused_methods_le (analyze_unused_methods db) /\
  (forall i j a b,
     nth_error (analyze_unused_methods db) i = Some a ->
     nth_error (analyze_unused_methods db) j = Some b ->
     um_cyclomatic_complexity a > um_cyclomatic_complexity b ->
     (i < j)%nat) /\
  map (fun r => (um_cyclomatic_complexity r, um_class_name r, um_method_name r))
      (analyze_unused_methods Sample.db)
  = [(9, "Alpha", "run"); (9, "Beta", "run"); (3, "Alpha", "low");
     (1, "Alpha", "tiny")] /\
  StronglySorted unused_classes_le (analyze_unused_classes db).
Proof.
  split; [apply analyze_unused_methods_sorted|].
  split; [|split; [vm_compute; reflexivity | apply analyze_unused_classes_sorted]].
  intros i j a b Ha Hb Hgt.
  destruct (Nat.lt_trichotomy i j) as [L|[E|G]]; [exact L| |].
  - subst j. rewrite Ha in Hb. injection Hb as ->. lia.
  - pose proof (OrderByFacts.StronglySorted_nth _ _
                  (analyze_unused_methods_sorted db) j i b a G Hb Ha) as H.
    unfold unused_methods_le in H. lia.
Qed.
End AuditFacts.

(* ================================================================== *)
(** * audit_analyzer.py: the usage statistics *)
(* ================================================================== *)

Module UsageFacts.
Import Schema Sql AuditAnalyzer.

Lemma sum_one_if_bounds {A} (p : A -> bool) (l : list A) :
  0 <= sum_Z (map (fun x => one_if (p x)) l) <= Z.of_nat (List.length l).
Proof.
  induction l as [|x l IH]; simpl List.length; simpl map; simpl sum_Z; [lia|].
  unfold one_if at 1 3. destruct (p x); lia.
Qed.

(** The SUM column counts the referenced rows. *)
Lemma sum_one_if_count {A} (p : A -> bool) (l : list A) :
  sum_Z (map (fun x => one_if (p x)) l) = Z.of_nat (List.length (filter p l)).
Proof.
  induction l as [|x l IH]; [reflexivity|].
  simpl map. simpl sum_Z. simpl filter. unfold one_if at 1.
  destruct (p x); simpl List.length; lia.
Qed.

Lemma sql_sum_counts {A} (p : A -> bool) (l : list A) :
  (Z.of_nat (List.length l) > 0 ->
   exists u, sql_sum (map (fun x => one_if (p x)) l) = Some u /\
             0 <= u <= Z.of_nat (List.length l)) /\
  (Z.of_nat (List.length l) = 0 ->
   sql_sum (map (fun x => one_if (p x)) l) = None).
Proof.
  destruct l as [|x l].
  - split; [simpl; lia | reflexivity].
  - split; [|simpl List.length; lia]. intros _.
    exists (sum_Z (map (fun x => one_if (p x)) (x :: l))).
    split; [reflexivity | apply sum_one_if_bounds].
Qed.

(** The usage rates of the sample store: one class of two and one method of
    seven are referenced. *)
Example usage_rates_sample :
  map (fun r => (us_total r, us_used r, us_usage_rate r))
      (get_usage_statistics Sample.db)
  = [(2, Some 1, 50%float); (7, Some 1, 0x1.c99999999999ap+3%float)].
Proof. vm_compute. reflexivity. Qed.

(** numpy rounds [x * 10] to the nearest integer, ties to even: one of 2000
    is 0.05 per cent and comes out as 0.0; one of 3 comes out as 33.3. *)
Example usage_rate_rounding :
  usage_rate (Some 1) 2000 = 0%float /\
  usage_rate (Some 1) 3 = 0x1.0a66666666666p+5%float /\
  usage_rate (Some 1) 8 = 12.5%float.
Proof. repeat split; vm_compute; reflexivity. Qed.

(** On a store without classes and without methods both sums are NULL and
    both rates NaN. *)
Example usage_statistics_empty_db :
  map (fun r => (us_total r, us_used r, us_usage_rate r))
      (get_usage_statistics Sample.empty_db)
  = [(0, None, PrimFloat.nan); (0, None, PrimFloat.nan)].
Proof. vm_compute. reflexivity. Qed.

(** C3, as stated, fails on a store whose classes have no method: for the
    Methods row COUNT is 0 and SUM over no row is NULL, so the row has no
    [used] that is at most [total]. *)
Lemma usage_statistics_no_method :
  map (fun r => (us_category r, us_total r, us_used r))
      (get_usage_statistics Sample.no_method_db)
  = [("Classes"%string, 1, Some 0); ("Methods"%string, 0, None)] /\
  ~ Forall (fun row => exists u, us_used row = Some u /\ u <= us_total row)
           (get_usage_statistics Sample.no_method_db).
Proof.
  split; [reflexivity|].
  intro H. inversion H as [|r1 rs1 _ H1]. subst.
  inversion H1 as [|r2 rs2 [u [Hu _]] _]. discriminate Hu.
Qed.

Lemma usage_query_rows (db : database) :
  Forall (fun r =>
    0 <= total r /\
    (total r > 0 -> exists u, used r = Some u /\ 0 <= u <= total r) /\
    (total r = 0 -> used r = None))
    (usage_query db).
Proof.
  unfold usage_query. repeat constructor; simpl; try lia;
    first [ apply (sql_sum_counts (class_is_referenced db) (classes db))
          | apply (sql_sum_counts (method_is_referenced db) (class_methods db)) ].
Qed.

(** The SUM column of a table with rows is the number of its referenced
    rows. *)
Lemma sql_sum_referenced {A} (p : A -> bool) (l : list A) :
  l <> [] ->
  sql_sum (map (fun x => one_if (p x)) l)
  = Some (Z.of_nat (List.length (filter p l))).
Proof.
  intro Hne. rewrite <- sum_one_if_count.
  destruct l; [congruence | reflexivity].
Qed.

Lemma rates_checked_spec (rate : Z -> Z -> float) (n : nat) :
  RateSpec.rates_checked rate n = true ->
  forall u t, 0 <= u <= t -> 0 < t <= Z.of_nat n ->
    RateSpec.rounded_percentage u t (rate u t) = true.
Proof.
  unfold RateSpec.rates_checked. intros H u t Hu Ht.
  rewrite forallb_forall in H.
  specialize (H (Z.to_nat t)). rewrite forallb_forall in H.
  specialize (fun Hin => H Hin (Z.to_nat u)). cbv beta in H.
  rewrite !Z2Nat.id in H by lia. apply H; apply in_seq; lia.
Qed.

Lemma rates_checked_100 :
  RateSpec.rates_checked (fun u t => usage_rate (Some u) t) 100 = true.
Proof. vm_compute. reflexivity. Qed.

Lemma rate_is_rounded_percentage (u t : Z) :
  0 <= u <= t -> 0 < t <= 100 ->
  RateSpec.rounded_percentage u t (usage_rate (Some u) t) = true.
Proof.
  intros Hu Ht.
  apply (rates_checked_spec (fun u t => usage_rate (Some u) t) 100
                            rates_checked_100 u t Hu).
  lia.
Qed.

(** C3, amended.  The method returns the two rows of the query, Classes and
    Methods, whose totals are the sizes of the two tables and whose [used],
    for a table with rows, is the number of its rows that a usage row points
    at.  Every row has [total >= 0].  When [total > 0], [used] is a number
    with [0 <= used <= total] and the usage rate is
    [round(used / total * 100, 1)], computed on doubles as pandas does;
    when [total = 0], [used] is NULL and the rate NaN.  For every table of up
    to 100 rows that rate is a whole number of tenths no further than half a
    tenth from the exact percentage. *)
Theorem usage_statistics_rows (db : database) :
  (exists r1 r2,
     get_usage_statistics db = [r1; r2] /\
     us_category r1 = "Classes"%string /\
     us_total r1 = Z.of_nat (List.length (classes db)) /\
     (classes db <> [] ->
      us_used r1 = Some (Z.of_nat (List.length
                           (filter (class_is_referenced db) (classes db))))) /\
     us_category r2 = "Methods"%string /\
     us_total r2 = Z.of_nat (List.length (class_methods db)) /\
     (class_methods db <> [] ->
      us_used r2 = Some (Z.of_nat (List.length
                           (filter (method_is_referenced db)
                                   (class_methods db)))))) /\
  Forall (fun row =>
     0 <= us_total row /\
     (us_total row > 0 ->
      exists u, us_used row = Some u /\ 0 <= u <= us_total row /\
        us_usage_rate row =
        Pandas.round1
          (PrimFloat.mul
             (PrimFloat.div (float_of_Z u) (float_of_Z (us_total row)))
             100%float) /\
        (us_total row <= 100 ->
         RateSpec.rounded_percentage u (us_total row) (us_usage_rate row)
         = true)) /\
     (us_total row = 0 ->
      us_used row = None /\ us_usage_rate row = PrimFloat.nan))
    (get_usage_statistics db).
Proof.
  split.
  - eexists. eexists. split; [reflexivity|]. cbn.
    split; [reflexivity|]. split; [reflexivity|].
    split; [apply sql_sum_referenced|].
    split; [reflexivity|]. split; [reflexivity|]. apply sql_sum_referenced.
  - unfold get_usage_statistics. apply Forall_forall. intros row Hin.
    apply in_map_iff in Hin as (r & <- & Hr).
    pose proof (usage_query_rows db) as Hq. rewrite Forall_forall in Hq.
    destruct (Hq r Hr) as (H0 & Hpos & Hzero). cbn.
    split; [exact H0|]. split.
    + intro Ht. destruct (Hpos Ht) as (u & Hu & Hb). exists u.
      split; [exact Hu|]. split; [exact Hb|]. rewrite Hu.
      split; [reflexivity|]. intro H100.
      apply rate_is_rounded_percentage; lia.
    + intro Ht. rewrite (Hzero Ht), Ht. split; reflexivity.
Qed.
End UsageFacts.

(* ================================================================== *)
(** * The column-width loop of the three report writers *)
(* ================================================================== *)

Module SheetFacts.
Import Python Sheet.

Lemma fold_left_max_ge (l : list Z) (x : Z) :
  x <= fold_left Z.max l x /\ forall y, In y l -> y <= fold_left Z.max l x.
Proof.
  revert x. induction l as [|z l IH]; intro x; simpl.
  - split; [lia | intros y []].
  - destruct (IH (Z.max x z)) as [H1 H2]. split; [lia|].
    intros y [<-|Hy]; [lia | auto].
Qed.

Lemma fold_left_max_In (l : list Z) (x : Z) :
  fold_left Z.max l x = x \/ In (fold_left Z.max l x) l.
Proof.
  revert x. induction l as [|z l IH]; intro x; simpl; [now left|].
  destruct (IH (Z.max x z)) as [E|Hin]; [|now right; right].
  rewrite E. destruct (Z.max_spec x z) as [[_ ->]|[_ ->]]; auto.
Qed.

(** [Series.max()] of a column with rows is its greatest value. *)
Lemma series_max_spec (l : list Z) :
  l <> [] ->
  exists m, series_max l = Some m /\ In m l /\ forall y, In y l -> y <= m.
Proof.
  destruct l as [|x l]; [congruence|]. intros _.
  exists (fold_left Z.max l x). split; [reflexivity|].
  destruct (fold_left_max_ge l x) as [H1 H2].
  split.
  - destruct (fold_left_max_In l x) as [->|Hin]; [now left | now right].
  - intros y [<-|Hy]; auto.
Qed.

Lemma max_length_longest (col : column) :
  values col <> [] ->
  exists n, max_length col = Some n /\ longest col n.
Proof.
  intro Hne. unfold max_length.
  destruct (series_max_spec (map len (values col))) as (m & -> & Hin & Hmax).
  { destruct (values col); [congruence | discriminate]. }
  simpl. apply in_map_iff in Hin as [v [Ev Hv]].
  assert (Hall : forall v', In v' (values col) -> len v' <= m).
  { intros v' Hv'. apply Hmax. now apply in_map. }
  unfold longest.
  destruct (Z.gtb_spec (len (label col)) m) as [G|G]; eexists; split;
    try reflexivity.
  - split; [now left|]. split; [lia|]. intros v' Hv'. specialize (Hall v' Hv'). lia.
  - split; [right; exists v; auto|]. split; [lia | exact Hall].
Qed.

Lemma longest_unique (col : column) (n n' : Z) :
  longest col n -> longest col n' -> n = n'.
Proof.
  intros ([->|[v [Hv ->]]] & H1 & H2) ([->|[v' [Hv' ->]]] & H1' & H2').
  - reflexivity.
  - specialize (H2 v' Hv'). lia.
  - specialize (H2' v Hv). lia.
  - specialize (H2 v' Hv'). specialize (H2' v Hv). lia.
Qed.

Lemma column_width_spec (col : column) :
  (values col <> [] ->
   exists n, longest col n /\ column_width col = Some (Z.min (n + 2) 50)) /\
  (values col = [] -> column_width col = None) /\
  (forall w, column_width col = Some w -> w <= 50).
Proof.
  split; [|split].
  - intro Hne. destruct (max_length_longest col Hne) as [n [E L]].
    exists n. split; [exact L|]. unfold column_width. rewrite E. simpl.
    destruct (Z.ltb_spec 50 (n + 2)); f_equal; lia.
  - intro E. unfold column_width, max_length. now rewrite E.
  - intros w. unfold column_width.
    destruct (add (max_length col) 2) as [x|]; simpl; [|discriminate].
    intros [= <-]. destruct (Z.ltb_spec 50 x); lia.
Qed.

Lemma chr_letter (idx : Z) :
  0 <= idx <= 1114046 ->
  chr (65 + idx) = Some (Z.to_N (65 + idx)).
Proof.
  intro H. unfold chr.
  destruct (Z.leb_spec 0 (65 + idx)); [|lia].
  destruct (Z.leb_spec (65 + idx) 1114111); [reflexivity | lia].
Qed.

Lemma format_from_total (df : dataframe) (idx : Z) :
  0 <= idx -> idx + Z.of_nat (List.length df) <= 1114047 ->
  exists done, format_from idx df = Some done /\
               map snd done = map column_width df.
Proof.
  revert idx. induction df as [|col df IH]; intros idx H0 Hn.
  - exists []. auto.
  - simpl List.length in Hn. cbn [format_from].
    rewrite chr_letter by lia.
    destruct (IH (idx + 1)) as [done [-> E]]; [lia | lia |].
    eexists. split; [reflexivity|]. simpl. now rewrite E.
Qed.

Lemma format_from_nth (df : dataframe) :
  forall idx done, 0 <= idx -> format_from idx df = Some done ->
  List.length done = List.length df /\
  forall i key w, nth_error done i = Some (key, w) ->
    Z.of_N key = 65 + idx + Z.of_nat i /\
    exists col, nth_error df i = Some col /\ w = column_width col.
Proof.
  induction df as [|col df IH]; intros idx done H0; cbn [format_from].
  - intros [= <-]. split; [reflexivity|]. intros [|i] key w; discriminate.
  - unfold chr.
    destruct ((0 <=? 65 + idx) && (65 + idx <=? 1114111)) eqn:E; [|discriminate].
    destruct (format_from (idx + 1) df) as [rest|] eqn:F; [|discriminate].
    intro Hd.
    assert (Ed : done = (Z.to_N (65 + idx), column_width col) :: rest)
      by congruence.
    clear Hd. subst done.
    destruct (IH (idx + 1) rest) as [Hlen Hnth]; [lia | exact F |].
    split; [cbn [List.length]; now rewrite Hlen|].
    intros [|i] key w; cbn [nth_error].
    + intro Heq.
      assert (Hk : key = Z.to_N (65 + idx)) by congruence.
      assert (Hw : w = column_width col) by congruence.
      split; [rewrite Hk, Z2N.id; lia | eauto].
    + intro Hi. destruct (Hnth i key w Hi) as [Hk Hc]. split; [lia | exact Hc].
Qed.
(** C9, as stated, fails: the width is not the longer of the two lengths
    but two units more.  A column headed "ab" whose only cell is "abc" has 3
    as the longer length and gets width 5. *)
Lemma column_width_is_padded :
  longest sample_column 3 /\
  AuditAnalyzer._format_excel_sheet [sample_column] = Some [(65%N, Some 5)] /\
  ~ (forall col n, longest col n -> column_width col = Some n).
Proof.
  assert (L : longest sample_column 3).
  { unfold longest, sample_column. simpl. split; [|split].
    - right. exists (py "abc"). split; [now left | reflexivity].
    - vm_compute. discriminate.
    - intros v [<-|[]]. vm_compute. discriminate. }
  split; [exact L|]. split; [reflexivity|].
  intro H. specialize (H sample_column 3 L). vm_compute in H. discriminate H.
Qed.

(** C9, amended.  The loop assigns one width per column, in column order.
    For a column with at least one row the width is the longer of the header
    length and the maximum stringified cell length, plus 2, capped at 50; no
    width exceeds 50.  (Over a sheet without rows [Series.max()] is NaN and
    so is the width.) *)
Theorem column_widths (df : dataframe) :
  (Z.of_nat (List.length df) <= 26 ->
   exists done, AuditAnalyzer._format_excel_sheet df = Some done /\
                map snd done = map column_width df) /\
  Forall (fun col =>
    (values col <> [] ->
     exists n, longest col n /\ column_width col = Some (Z.min (n + 2) 50)) /\
    (values col = [] -> column_width col = None) /\
    (forall w, column_width col = Some w -> w <= 50)) df.
Proof.
  split.
  - intro H. apply format_from_total; lia.
  - apply Forall_forall. intros col _. apply column_width_spec.
Qed.

(** C10.  The three sheet-formatting helpers run the same loop, which
    addresses column [idx] by the single character [chr(65 + idx)].  With at most 26 columns every assignment targets a
    letter 'A' to 'Z'.  In any run, the assignment for column [idx] targets
    the code point [65 + idx], which is a letter exactly when [idx < 26]; and
    with more than 26 columns the loop does run and its assignment for column
    26 targets a character outside 'A' to 'Z'. *)
Theorem column_keys (df : dataframe) :
  (AuditAnalyzer._format_excel_sheet df = format_excel_sheet df /\
   DartCodeAnalyzer._format_excel_sheet df = format_excel_sheet df /\
   SchemaDocAnalyzer.format_columns df = format_excel_sheet df) /\
  (Z.of_nat (List.length df) <= 26 ->
   exists done, format_excel_sheet df = Some done /\
                List.length done = List.length df /\
                Forall (fun a => is_column_letter (fst a)) done) /\
  (forall done, format_excel_sheet df = Some done ->
   forall i key w, nth_error done i = Some (key, w) ->
     Z.of_N key = 65 + Z.of_nat i /\
     (is_column_letter key <-> (i < 26)%nat)) /\
  (26 < Z.of_nat (List.length df) <= 1114047 ->
   exists done key w, format_excel_sheet df = Some done /\
                      nth_error done 26 = Some (key, w) /\
                      ~ is_column_letter key).
Proof.
  assert (Hnth : forall done, format_excel_sheet df = Some done ->
    List.length done = List.length df /\
    forall i key w, nth_error done i = Some (key, w) ->
      Z.of_N key = 65 + Z.of_nat i /\
      (is_column_letter key <-> (i < 26)%nat)).
  { intros done Hd. destruct (format_from_nth df 0 done) as [Hlen H]; [lia | exact Hd |].
    split; [exact Hlen|]. intros i key w Hi.
    destruct (H i key w Hi) as [Hk _]. split; [lia|].
    unfold is_column_letter. lia. }
  split; [repeat split|]. split; [|split].
  - intro Hn. destruct (format_from_total df 0) as [done [Hd _]]; [lia | lia |].
    exists done. split; [exact Hd|]. destruct (Hnth done Hd) as [Hlen H].
    split; [exact Hlen|]. apply Forall_forall. intros [key w] Hin.
    apply In_nth_error in Hin as [i Hi]. simpl.
    apply (H i key w Hi).
    assert (i < List.length done)%nat by (apply nth_error_Some; congruence). lia.
  - intros done Hd. apply (Hnth done Hd).
  - intros [Hlo Hhi]. destruct (format_from_total df 0) as [done [Hd _]]; [lia | lia |].
    destruct (Hnth done Hd) as [Hlen H].
    destruct (nth_error done 26) as [[key w]|] eqn:E.
    + exists done, key, w. split; [exact Hd|]. split; [exact E|].
      intro L. apply (H 26%nat key w E) in L. lia.
    + apply nth_error_None in E. lia.
Qed.
End SheetFacts.

(* ================================================================== *)
(** * config.py: loading pml.yaml *)
(* ================================================================== *)

Module ConfigFacts.
Import Yaml Config.

(** A missing, unreadable or unparsable file leaves every attribute at its
    default. *)
Lemma missing_document_keeps_defaults :
  _load_pml_config None defaults = (defaults, DefaultsAnnounced) /\
  __init__ None = defaults.
Proof. split; reflexivity. Qed.

(** So does a document without an [app] mapping or without [app.name]: the
    failure comes before the first assignment. *)
Lemma failure_before_first_assignment (config : value) :
  (forall app, getitem config "app" = Some app -> getitem app "name" = None) ->
  _load_pml_config (Some config) defaults = (defaults, DefaultsAnnounced).
Proof.
  intro H. unfold _load_pml_config, load_body, bind, eval.
  destruct (getitem config "app") as [app|] eqn:E; [|reflexivity].
  now rewrite (H app eq_refl).
Qed.

(** A complete document is loaded into every attribute; [log_to_console]
    takes its default when the key is absent. *)
Example complete_document_loads :
  _load_pml_config (Some complete) defaults
  = ({| app_name := Str "shop";
        lib_dir := Str "src";
        excluded_dirs := Seq [Str "src/gen"];
        excluded_files := Seq [Str ".g.dart"];
        db_dir := Str "db";
        db_name := Str "a.db";
        cleanup_on_start := Bool false;
        output_doc_dir := Str "out/doc";
        output_reports_dir := Str "out/rep";
        output_temp_dir := Str "out/tmp";
        log_level := Str "debug";
        log_file := Str "a.log";
        log_to_console := Bool true |}, Loaded).
Proof. reflexivity. Qed.

(** The constructor returns an object for every document: the [except]
    clause covers the whole body. *)
Lemma init_total (document : option value) :
  exists self, __init__ document = self.
Proof. eexists. reflexivity. Qed.

(** C4 at a document that holds the [app] section only.  The lookup of
    [analyzer] raises after [app_name] and [lib_dir] were assigned: the
    handler announces the default configuration, but the object keeps "shop"
    and "src" where the defaults are "minssalor" and "lib". *)
Theorem load_failure_keeps_assignments :
  _load_pml_config (Some app_only) defaults
  = (set_lib_dir (Str "src") (set_app_name (Str "shop") defaults),
     DefaultsAnnounced) /\
  app_name (__init__ (Some app_only)) = Str "shop" /\
  lib_dir (__init__ (Some app_only)) = Str "src" /\
  app_name defaults = Str "minssalor" /\
  lib_dir defaults = Str "lib" /\
  __init__ (Some app_only) <> defaults.
Proof.
  repeat split; try reflexivity.
  intro H. apply (f_equal app_name) in H. discriminate H.
Qed.
End ConfigFacts.

(* ================================================================== *)
(** * doc_analyzer.py: the search for the documentation block *)
(* ================================================================== *)

Module ReFacts.
Import Python Re.
Local Open Scope list_scope.

(** Literal characters match the text they spell, and nothing else. *)
Lemma match_here_lits (l : pystr) (p : list item) (g s r : pystr) :
  match_here (map Chr l ++ p) g s = Some r <->
  exists rest, s = l ++ rest /\ match_here p g rest = Some r.
Proof.
  revert s. induction l as [|c l IH]; intro s; simpl.
  - split; [eauto | now intros [rest [-> H]]].
  - destruct s as [|x s].
    + split; [discriminate | intros [rest [E _]]; discriminate E].
    + destruct (N.eqb_spec x c) as [->|Hne].
      * rewrite IH. split.
        -- intros [rest [-> H]]. eauto.
        -- intros [rest [E H]]. injection E as ->. eauto.
      * split; [discriminate | intros [rest [E _]]; congruence].
Qed.

(** What a greedy star has taken is a run of the class. *)
Lemma greedy_sound {R} cls (k : pystr -> option R) s r :
  greedy cls k s = Some r ->
  exists ws rest, s = ws ++ rest /\ forallb cls ws = true /\ k rest = Some r.
Proof.
  induction s as [|c s IH]; simpl.
  - intro H. exists [], []. auto.
  - destruct (cls c) eqn:Ec.
    + destruct (greedy cls k s) as [r'|] eqn:G.
      * intros [= <-]. destruct (IH eq_refl) as (ws & rest & -> & Hws & Hk).
        exists (c :: ws), rest. simpl. rewrite Ec. auto.
      * intro H. exists [], (c :: s). auto.
    + intro H. exists [], (c :: s). auto.
Qed.

(** When the rest of the pattern cannot start on a character of the class,
    the star takes the whole run and the match is the rest's. *)
Lemma greedy_complete {R} cls (k : pystr -> option R) ws rest r :
  (forall c t, cls c = true -> k (c :: t) = None) ->
  forallb cls ws = true -> k rest = Some r ->
  greedy cls k (ws ++ rest) = Some r.
Proof.
  intros Hk. induction ws as [|c ws IH]; simpl.
  - intros _ H. destruct rest as [|c t]; simpl; [exact H|].
    destruct (cls c) eqn:Ec; [|exact H].
    rewrite (Hk c t Ec) in H. discriminate H.
  - intros Hws H. apply andb_true_iff in Hws as [-> Hws].
    now rewrite (IH Hws H).
Qed.

(** A lazy star over every character stops at the first split of the text
    on which the rest of the pattern matches. *)
Lemma lazy_any_some {R} (k : pystr -> pystr -> option R) s :
  forall taken r, lazy any k taken s = Some r ->
  exists inner rest,
    s = inner ++ rest /\ k (rev taken ++ inner) rest = Some r /\
    forall inner' rest', s = inner' ++ rest' ->
      (List.length inner' < List.length inner)%nat ->
      k (rev taken ++ inner') rest' = None.
Proof.
  induction s as [|c s IH]; intros taken r; simpl.
  - destruct (k (rev taken) []) as [r'|] eqn:K; [|discriminate].
    intros [= <-]. exists [], [].
    split; [reflexivity|]. split; [now rewrite app_nil_r|].
    intros inner' rest' _ Hlt. simpl in Hlt. lia.
  - destruct (k (rev taken) (c :: s)) as [r'|] eqn:K.
    + intros [= <-]. exists [], (c :: s).
      split; [reflexivity|]. split; [now rewrite app_nil_r|].
      intros inner' rest' _ Hlt. simpl in Hlt. lia.
    + intro H. destruct (IH (c :: taken) r H) as (inner & rest & -> & Hk & Hmin).
      exists (c :: inner), rest. simpl in Hk. rewrite <- app_assoc in Hk.
      split; [reflexivity|]. split; [exact Hk|].
      intros inner' rest' E Hlt. destruct inner' as [|c' inner'].
      * simpl in E. subst rest'. now rewrite app_nil_r.
      * simpl in E. injection E as <- E. simpl in Hlt.
        specialize (Hmin inner' rest' E). simpl in Hmin.
        rewrite <- app_assoc in Hmin. apply Hmin. lia.
Qed.

Lemma lazy_any_none {R} (k : pystr -> pystr -> option R) s :
  forall taken, lazy any k taken s = None ->
  forall inner rest, s = inner ++ rest -> k (rev taken ++ inner) rest = None.
Proof.
  induction s as [|c s IH]; intros taken; simpl.
  - destruct (k (rev taken) []) eqn:K; [discriminate|].
    intros _ inner rest E. symmetry in E. apply app_eq_nil in E as [-> ->].
    now rewrite app_nil_r.
  - destruct (k (rev taken) (c :: s)) eqn:K; [discriminate|].
    intros H [|c' inner] rest E.
    + simpl in E. subst rest. now rewrite app_nil_r.
    + simpl in E. injection E as <- E.
      specialize (IH (c :: taken) H inner rest E). simpl in IH.
      now rewrite <- app_assoc in IH.
Qed.

(** [search] returns the match at the first position that has one. *)
Lemma search_some p s r :
  search p s = Some r ->
  exists before rest,
    s = before ++ rest /\ match_here p [] rest = Some r /\
    forall before' rest', s = before' ++ rest' ->
      (List.length before' < List.length before)%nat ->
      match_here p [] rest' = None.
Proof.
  induction s as [|c s IH]; simpl.
  - destruct (match_here p [] []) as [g|] eqn:M; [|discriminate].
    intros [= <-]. exists [], []. split; [reflexivity|]. split; [exact M|].
    intros b' r' _ Hlt. simpl in Hlt. lia.
  - destruct (match_here p [] (c :: s)) as [g|] eqn:M.
    + intros [= <-]. exists [], (c :: s). split; [reflexivity|]. split; [exact M|].
      intros b' r' _ Hlt. simpl in Hlt. lia.
    + intro H. destruct (IH H) as (before & rest & -> & Hm & Hmin).
      exists (c :: before), rest. split; [reflexivity|]. split; [exact Hm|].
      intros [|c' b'] r' E Hlt.
      * simpl in E. now subst r'.
      * simpl in E. injection E as <- E. apply (Hmin b' r' E). simpl in Hlt. lia.
Qed.

Lemma search_none p s :
  search p s = None ->
  forall before rest, s = before ++ rest -> match_here p [] rest = None.
Proof.
  induction s as [|c s IH]; simpl.
  - destruct (match_here p [] []) eqn:M; [discriminate|].
    intros _ before rest E. symmetry in E. now apply app_eq_nil in E as [-> ->].
  - destruct (match_here p [] (c :: s)) eqn:M; [discriminate|].
    intros H [|c' before] rest E.
    + simpl in E. now subst rest.
    + simpl in E. injection E as <- E. now apply (IH H before).
Qed.
End ReFacts.

Module DocFacts.
Import Python Re DocAnalyzer DocSpec.
Local Open Scope list_scope.

Lemma space_is_not_lt (c : N) : isspace c = true -> (c =? 60)%N = false.
Proof.
  intro H. destruct (N.eqb_spec c 60) as [->|]; [|reflexivity].
  vm_compute in H. discriminate H.
Qed.

(** The closing marker matches exactly the texts that start with it, and
    leaves group 1 as it is. *)
Lemma closing_match (g rest r : pystr) :
  match_here closing g rest = Some r <->
  r = g /\
  exists ws2 after,
    rest = py "///" ++ ws2 ++ py "</claude>" ++ after /\
    forallb isspace ws2 = true.
Proof.
  unfold closing, lits. rewrite ReFacts.match_here_lits. split.
  - intros (rest0 & -> & H). cbn [app match_here] in H.
    apply ReFacts.greedy_sound in H as (ws & rest1 & -> & Hws & H).
    rewrite <- (app_nil_r (map Chr (py "</claude>"))) in H.
    apply ReFacts.match_here_lits in H as (after & -> & H).
    simpl in H. injection H as <-. split; [reflexivity|]. eauto.
  - intros (-> & ws2 & after & -> & Hws). eexists. split; [reflexivity|].
    cbn [app match_here]. apply ReFacts.greedy_complete; [|exact Hws|].
    + intros c t Hc. simpl. now rewrite (space_is_not_lt c Hc).
    + rewrite <- (app_nil_r (map Chr (py "</claude>"))).
      apply ReFacts.match_here_lits. eauto.
Qed.

Lemma closing_no_match (g g' rest : pystr) :
  match_here closing g rest = None -> match_here closing g' rest = None.
Proof.
  intro H. destruct (match_here closing g' rest) as [r|] eqn:E; [|reflexivity].
  apply closing_match in E as [_ Hc].
  assert (H' : match_here closing g rest = Some g) by (apply closing_match; auto).
  congruence.
Qed.

(** The whole pattern at the start of [s]. *)
Lemma pattern_match (s r : pystr) :
  match_here pattern [] s = Some r <->
  exists ws1 rest1,
    s = py "///" ++ ws1 ++ py "<claude>" ++ rest1 /\
    forallb isspace ws1 = true /\
    lazy any (fun g rest => match_here closing g rest) [] rest1 = Some r.
Proof.
  unfold pattern, lits. rewrite ReFacts.match_here_lits. split.
  - intros (rest0 & -> & H). cbn [app match_here] in H.
    apply ReFacts.greedy_sound in H as (ws & rest1 & -> & Hws & H).
    apply ReFacts.match_here_lits in H as (rest2 & -> & H).
    cbn [app match_here] in H. eauto 6.
  - intros (ws1 & rest1 & -> & Hws & H). eexists. split; [reflexivity|].
    cbn [app match_here]. apply ReFacts.greedy_complete; [|exact Hws|].
    + intros c t Hc. simpl. now rewrite (space_is_not_lt c Hc).
    + apply ReFacts.match_here_lits. eexists. split; [reflexivity|].
      cbn [app match_here]. exact H.
Qed.
Lemma app_same_length {A} (a a' b b' : list A) :
  a ++ b = a' ++ b' -> List.length a = List.length a' -> a = a' /\ b = b'.
Proof.
  revert a'. induction a as [|x a IH]; intros [|x' a'] E L; try discriminate.
  - auto.
  - simpl in E. injection E as -> E. simpl in L.
    destruct (IH a' E) as [-> ->]; [lia|]. auto.
Qed.

(** A run of a class is determined by the text when a character outside the
    class follows it. *)
Lemma run_unique {A} (cls : A -> bool) (ws ws' : list A) x x' r r' :
  ws ++ x :: r = ws' ++ x' :: r' ->
  forallb cls ws = true -> forallb cls ws' = true ->
  cls x = false -> cls x' = false ->
  ws = ws' /\ r = r'.
Proof.
  revert ws'. induction ws as [|c ws IH]; intros [|c' ws'] E H H' Hx Hx';
    simpl in *.
  - injection E as _ E. auto.
  - injection E as -> _. apply andb_true_iff in H' as [H' _]. congruence.
  - injection E as -> _. apply andb_true_iff in H as [H _]. congruence.
  - injection E as -> E.
    apply andb_true_iff in H as [_ H]. apply andb_true_iff in H' as [_ H'].
    destruct (IH ws' E H H' Hx Hx') as [-> ->]. auto.
Qed.

(** A match of the pattern at [rest] is a block that starts there. *)
Lemma match_is_block (before rest r : pystr) :
  match_here pattern [] rest = Some r -> block (before ++ rest) before r.
Proof.
  intro H. apply pattern_match in H as (ws1 & rest1 & -> & Hws1 & H).
  apply ReFacts.lazy_any_some in H as (inner & tail & -> & Hk & _).
  simpl in Hk. apply closing_match in Hk as (-> & ws2 & after & -> & Hws2).
  exists ws1, ws2, after. repeat split; auto.
Qed.

(** A block that starts at [rest] makes the pattern match there, with a
    group 1 no longer than the block's text. *)
Lemma block_is_match (before rest inner : pystr) :
  block (before ++ rest) before inner ->
  exists r, match_here pattern [] rest = Some r /\
            (List.length r <= List.length inner)%nat.
Proof.
  intros (ws1 & ws2 & after & E & Hws1 & Hws2).
  apply app_inv_head in E. subst rest.
  set (k := fun g t => match_here closing g t).
  set (rest1 := inner ++ py "///" ++ ws2 ++ py "</claude>" ++ after).
  assert (Hk : k inner (py "///" ++ ws2 ++ py "</claude>" ++ after) = Some inner).
  { apply closing_match. split; [reflexivity|]. eauto. }
  destruct (lazy any k [] rest1) as [r|] eqn:L.
  - exists r. split.
    + apply pattern_match. exists ws1, rest1. auto.
    + apply ReFacts.lazy_any_some in L as (inner0 & tail & E0 & Hk0 & Hmin).
      simpl in Hk0. apply closing_match in Hk0 as [-> _].
      destruct (Nat.le_gt_cases (List.length inner0) (List.length inner))
        as [Hle|Hgt]; [exact Hle|].
      specialize (Hmin inner _ eq_refl Hgt).
      change (rev [] ++ inner) with inner in Hmin.
      rewrite Hmin in Hk. discriminate Hk.
  - pose proof (ReFacts.lazy_any_none k rest1 [] L inner _ eq_refl) as Hn.
    change (rev [] ++ inner) with inner in Hn.
    rewrite Hn in Hk. discriminate Hk.
Qed.

(** Two blocks that start at the same place have the same text after the
    opening marker. *)
Lemma block_opening_unique (ws1 ws1' rest1 rest1' : pystr) :
  py "///" ++ ws1 ++ py "<claude>" ++ rest1
  = py "///" ++ ws1' ++ py "<claude>" ++ rest1' ->
  forallb isspace ws1 = true -> forallb isspace ws1' = true ->
  rest1 = rest1'.
Proof.
  intros E H H'. apply app_inv_head in E.
  change (py "<claude>") with (60%N :: py "claude>") in E. simpl app in E.
  destruct (run_unique isspace ws1 ws1' 60%N 60%N _ _ E H H') as [_ E'];
    try reflexivity.
  congruence.
Qed.

(** What [re.search] returns is the text of the first block. *)
Lemma search_first_block (content r : pystr) :
  search pattern content = Some r -> first_block content r.
Proof.
  intro H. apply ReFacts.search_some in H as (before & rest & -> & Hm & Hmin).
  exists before. split; [now apply match_is_block|].
  intros before' inner' Hb.
  assert (Hsplit : exists rest', before ++ rest = before' ++ rest').
  { destruct Hb as (ws1 & ws2 & after & E & _). eauto. }
  destruct Hsplit as [rest' E].
  assert (Hle : (List.length before <= List.length before')%nat).
  { destruct (Nat.le_gt_cases (List.length before) (List.length before'))
      as [Hle|Hgt]; [exact Hle|].
    rewrite E in Hb. apply block_is_match in Hb as [r' [Hr' _]].
    rewrite (Hmin before' rest' E Hgt) in Hr'. discriminate Hr'. }
  split; [exact Hle|]. intro Hlen.
  symmetry in Hlen. destruct (app_same_length _ _ _ _ E Hlen) as [-> ->].
  apply pattern_match in Hm as (ws1 & rest1 & Er & Hws1 & HL).
  apply ReFacts.lazy_any_some in HL as (inner & tail & -> & Hk & Hlazy).
  simpl in Hk. apply closing_match in Hk as [-> _].
  destruct Hb as (ws1' & ws2' & after' & E' & Hws1' & Hws2').
  apply app_inv_head in E'. rewrite Er in E'.
  apply block_opening_unique in E'; [|assumption|assumption].
  destruct (Nat.le_gt_cases (List.length inner) (List.length inner'))
    as [Hok|Hgt]; [exact Hok|].
  specialize (Hlazy inner' _ E' Hgt).
  change (rev [] ++ inner') with inner' in Hlazy.
  assert (Hc : match_here closing inner'
                 (py "///" ++ ws2' ++ py "</claude>" ++ after') = Some inner').
  { apply closing_match. split; [reflexivity|]. eauto. }
  rewrite Hlazy in Hc. discriminate Hc.
Qed.

Lemma search_no_block (content : pystr) :
  search pattern content = None -> ~ has_block content.
Proof.
  intros H (before & inner & Hb).
  assert (Hsplit : exists rest, content = before ++ rest).
  { destruct Hb as (ws1 & ws2 & after & E & _). eauto. }
  destruct Hsplit as [rest ->].
  apply block_is_match in Hb as [r [Hr _]].
  rewrite (ReFacts.search_none _ _ H before rest eq_refl) in Hr. discriminate Hr.
Qed.
(** ** [strip] *)

Lemma lstrip_spec (s : pystr) :
  exists l, s = l ++ lstrip s /\ forallb isspace l = true /\
            forall c rest, lstrip s = c :: rest -> isspace c = false.
Proof.
  induction s as [|x s (l & E & Hl & Hc)]; simpl.
  - exists []. repeat split; auto. discriminate.
  - destruct (isspace x) eqn:Ex.
    + exists (x :: l). simpl. rewrite Ex, <- E. auto.
    + exists []. repeat split; auto. now intros c rest [= <- _].
Qed.

Lemma forallb_rev {A} (f : A -> bool) (l : list A) :
  forallb f l = true -> forallb f (rev l) = true.
Proof.
  rewrite !forallb_forall. intros H x Hx. apply H. now apply in_rev.
Qed.

Lemma rstrip_spec (s : pystr) :
  exists r, s = rstrip s ++ r /\ forallb isspace r = true /\
            forall c front, rstrip s = front ++ [c] -> isspace c = false.
Proof.
  unfold rstrip. destruct (lstrip_spec (rev s)) as (l & E & Hl & Hc).
  exists (rev l). split; [|split].
  - rewrite <- rev_app_distr, <- E. now rewrite rev_involutive.
  - now apply forallb_rev.
  - intros c front Ef. apply (f_equal (@rev N)) in Ef.
    rewrite rev_involutive, rev_app_distr in Ef. simpl in Ef. eauto.
Qed.

(** [strip] removes the leading and trailing white space, and only that. *)
Lemma strip_trimmed (s : pystr) : trimmed s (strip s).
Proof.
  unfold trimmed, strip.
  destruct (lstrip_spec s) as (l & El & Hl & Hfirst).
  destruct (rstrip_spec (lstrip s)) as (r & Er & Hr & Hlast).
  exists l, r. split; [now rewrite <- Er|]. split; [exact Hl|].
  split; [exact Hr|]. split; [|exact Hlast].
  intros c rest Ec. rewrite Ec in Er. simpl in Er. eauto.
Qed.

(** The first block is well defined. *)
Lemma first_block_unique (content inner inner' : pystr) :
  first_block content inner -> first_block content inner' -> inner = inner'.
Proof.
  intros (b & Hb & Hmin) (b' & Hb' & Hmin').
  destruct (Hmin b' inner' Hb') as [L1 M1].
  destruct (Hmin' b inner Hb) as [L2 M2].
  assert (Hlen : List.length b = List.length b') by lia.
  specialize (M1 (eq_sym Hlen)). specialize (M2 Hlen).
  destruct Hb as (ws1 & ws2 & after & E & Hws1 & Hws2).
  destruct Hb' as (ws1' & ws2' & after' & E' & Hws1' & Hws2').
  rewrite E in E'. destruct (app_same_length _ _ _ _ E' Hlen) as [_ Er].
  apply block_opening_unique in Er; [|assumption|assumption].
  apply app_same_length in Er; [tauto | lia].
Qed.
(** A file with two blocks yields the text of the first one, trimmed. *)
Example extract_two_blocks :
  extract_claude_doc two_blocks = Some (py "first").
Proof. vm_compute. reflexivity. Qed.

(** White space of any kind may follow the comment prefix, and is trimmed
    from the text: here U+001C, U+00A0, U+3000, U+001F and U+0085. *)
Example extract_unicode_space :
  extract_claude_doc
    (py "///" ++ [28; 160; 32]%N ++ py "<claude>" ++ [12288; 120; 31]%N
     ++ py "///" ++ [133]%N ++ py "</claude>")
  = Some [120%N].
Proof. vm_compute. reflexivity. Qed.

(** A fourth slash before the marker moves the match one character on; a
    marker that is not closed gives no match. *)
Example extract_shifted :
  extract_claude_doc (py "////<claude>a///</claude>") = Some (py "a") /\
  extract_claude_doc (py "////<claude> a ///</claude") = None.
Proof. split; vm_compute; reflexivity. Qed.

(** C6, as stated, fails on a block without text: the block exists,
    [extract_claude_doc] returns the empty string, and [process_file], which
    tests [if doc:], appends no record. *)
Lemma empty_block_is_not_recorded :
  has_block empty_block /\
  extract_claude_doc empty_block = Some [] /\
  process_file "lib" (fun p _ => p) (fun _ => Some empty_block) "lib/a.dart" []
  = [].
Proof.
  split; [|split; reflexivity].
  exists [], []. exists [], [], []. repeat split.
Qed.

(** C6, amended.  When the content of a file holds a block,
    [extract_claude_doc] returns the text of the first block without its
    leading and trailing white space, and [process_file] appends exactly one
    record, the relative path with that text, unless the text is empty, in
    which case it appends none.  When the content holds no block,
    [extract_claude_doc] returns [None] and [process_file] appends nothing. *)
Theorem extract_and_record
        (lib_path : string) (relpath : string -> string -> string)
        (read : string -> option pystr) (file_path : string)
        (docs : list doc_record) (content : pystr) :
  read file_path = Some content ->
  (has_block content ->
   exists inner,
     first_block content inner /\ trimmed inner (strip inner) /\
     extract_claude_doc content = Some (strip inner) /\
     (strip inner <> [] ->
      process_file lib_path relpath read file_path docs
      = docs ++ [ {| path := relpath file_path lib_path;
                     doc := strip inner |} ]) /\
     (strip inner = [] ->
      process_file lib_path relpath read file_path docs = docs)) /\
  (~ has_block content ->
   extract_claude_doc content = None /\
   process_file lib_path relpath read file_path docs = docs).
Proof.
  intro Hread. unfold process_file, extract_claude_doc. rewrite Hread.
  destruct (search pattern content) as [g|] eqn:S.
  - pose proof (search_first_block content g S) as Hfirst. split.
    + intros _. exists g. split; [exact Hfirst|].
      split; [apply strip_trimmed|]. split; [reflexivity|].
      destruct (strip g) as [|c d]; split; congruence.
    + intro Hno. exfalso. apply Hno.
      destruct Hfirst as (before & Hb & _). now exists before, g.
  - pose proof (search_no_block content S) as Hno. split.
    + intro Hb. contradiction.
    + intros _. split; reflexivity.
Qed.

(** C6 at a file that holds two blocks. *)
Lemma extract_and_record_witness :
  (has_block two_blocks ->
   exists inner,
     first_block two_blocks inner /\ trimmed inner (strip inner) /\
     extract_claude_doc two_blocks = Some (strip inner) /\
     (strip inner <> [] ->
      process_file "lib" (fun _ _ => "a.dart") (fun _ => Some two_blocks)
                   "lib/a.dart" []
      = [] ++ [ {| path := "a.dart"; doc := strip inner |} ]) /\
     (strip inner = [] ->
      process_file "lib" (fun _ _ => "a.dart") (fun _ => Some two_blocks)
                   "lib/a.dart" [] = [])) /\
  (~ has_block two_blocks ->
   extract_claude_doc two_blocks = None /\
   process_file "lib" (fun _ _ => "a.dart") (fun _ => Some two_blocks)
                "lib/a.dart" [] = []).
Proof.
  apply (extract_and_record "lib" (fun _ _ => "a.dart")
           (fun _ => Some two_blocks) "lib/a.dart" [] two_blocks).
  reflexivity.
Defined.
End DocFacts.

(* ================================================================== *)
(** * doc_analyzer.py: the walk of the source tree *)
(* ================================================================== *)

Module ScanFacts.
Import Python DocAnalyzer DocSpec.
Local Open Scope list_scope.

Section Walk.
Variable excluded_dirs : list string.
Variable excluded_files : list string.

Lemma existsb_false {A} (f : A -> bool) (l : list A) :
  existsb f l = false <-> forall x, In x l -> f x = false.
Proof.
  induction l as [|y l IH]; simpl.
  - split; [intros _ x [] | reflexivity].
  - rewrite orb_false_iff, IH. split.
    + intros [Hy Hl] x [<-|Hx]; auto.
    + intro H. split; [apply H; now left | intros x Hx; apply H; now right].
Qed.

Lemma file_wanted_true (name : string) :
  file_wanted excluded_files name = true <->
  endswith name ".dart" = true /\
  forall ext, In ext excluded_files -> endswith name ext = false.
Proof.
  unfold file_wanted. now rewrite andb_true_iff, negb_true_iff, existsb_false.
Qed.

Lemma dir_excluded_false (dir_path : string) :
  dir_excluded excluded_dirs dir_path = false <->
  forall exc, In exc excluded_dirs -> startswith dir_path exc = false.
Proof. unfold dir_excluded. apply existsb_false. Qed.

Lemma last_cons {A} (l : list A) (x d : A) : last (x :: l) d = last l x.
Proof.
  revert x d. induction l as [|y l IH]; intros x d; [reflexivity|].
  change (last (x :: y :: l) d) with (last (y :: l) d).
  now rewrite !IH.
Qed.

(** The walk hands a file to [process_file] exactly when its name is wanted
    and no directory entered on the way to it is excluded. *)
Lemma walk_spec :
  forall t root p,
    In p (walk excluded_dirs excluded_files root t) <->
    exists dirs name,
      file_in root t dirs name /\ p = join (holder root dirs) name /\
      endswith name ".dart" = true /\
      (forall ext, In ext excluded_files -> endswith name ext = false) /\
      (forall d' exc, In d' dirs -> In exc excluded_dirs ->
                      startswith d' exc = false).
Proof.
  apply (tree_forest_ind
    (fun t => forall root p,
       In p (walk excluded_dirs excluded_files root t) <->
       exists dirs name,
         file_in root t dirs name /\ p = join (holder root dirs) name /\
         endswith name ".dart" = true /\
         (forall ext, In ext excluded_files -> endswith name ext = false) /\
         (forall d' exc, In d' dirs -> In exc excluded_dirs ->
                         startswith d' exc = false))
    (fun f => forall root p,
       In p (walk_dirs excluded_dirs excluded_files root f) <->
       exists dirs name,
         file_in_dirs root f dirs name /\ p = join (holder root dirs) name /\
         endswith name ".dart" = true /\
         (forall ext, In ext excluded_files -> endswith name ext = false) /\
         (forall d' exc, In d' dirs -> In exc excluded_dirs ->
                         startswith d' exc = false))).
  - (* Dir *)
    intros files subdirs IH root p. cbn [walk]. rewrite in_app_iff. split.
    + intros [H|H].
      * apply in_map_iff in H as (name & <- & Hn).
        apply filter_In in Hn as [Hin Hw].
        apply file_wanted_true in Hw as [Hd He].
        exists [], name. split; [now constructor|]. split; [reflexivity|].
        split; [exact Hd|]. split; [exact He|]. intros d exc [].
      * apply IH in H as (dirs & name & Hf & Hp & Hv).
        exists dirs, name. split; [now apply file_below|]. auto.
    + intros (dirs & name & Hf & Hp & Hv). inversion Hf; subst.
      * left. apply in_map_iff. exists name. split; [reflexivity|].
        apply filter_In. split; [assumption|].
        apply file_wanted_true. destruct Hv as (Hd & He & _). auto.
      * right. apply IH. eauto.
  - (* NoDir *)
    intros root p. cbn [walk_dirs]. split; [intros [] |].
    intros (dirs & name & Hf & _). inversion Hf.
  - (* SubDir *)
    intros d sub IHt rest IHf root p. cbn [walk_dirs]. rewrite in_app_iff. split.
    + intros [H|H].
      * destruct (dir_excluded excluded_dirs (join root d)) eqn:Ex; [destruct H|].
        apply IHt in H as (dirs & name & Hf & Hp & Hd & He & Hdirs).
        exists (join root d :: dirs), name.
        split; [now constructor|]. split.
        { rewrite Hp. unfold holder. now rewrite last_cons. }
        split; [exact Hd|]. split; [exact He|].
        intros d' exc [<-|Hd'] Hexc; [|eauto].
        now apply (proj1 (dir_excluded_false (join root d)) Ex).
      * apply IHf in H as (dirs & name & Hf & Hp & Hv).
        exists dirs, name. split; [now apply file_in_rest|]. auto.
    + intros (dirs & name & Hf & Hp & Hd & He & Hdirs). inversion Hf; subst.
      * left.
        assert (Ex : dir_excluded excluded_dirs (join root d) = false).
        { apply dir_excluded_false. intros exc Hexc.
          apply (Hdirs (join root d) exc); [now left | exact Hexc]. }
        rewrite Ex. apply IHt. exists dirs0, name. split; [assumption|].
        split.
        { unfold holder. now rewrite last_cons. }
        split; [exact Hd|]. split; [exact He|].
        intros d' exc Hd' Hexc. apply (Hdirs d' exc); [now right | exact Hexc].
      * right. apply IHf. exists dirs, name. repeat split; auto.
Qed.
End Walk.



(** The walk of a tree with a generated directory, a nested directory and
    files of every kind, under the default exclusions. *)
Example walk_sample :
  walk ["lib/generated"] [".freezed.dart"; ".g.dart"; "_test.dart"] "lib"
    (Dir ["a.dart"; "b.g.dart"; "c.txt"]
       (SubDir "generated" (Dir ["x.dart"] NoDir)
       (SubDir "ui" (Dir ["w.dart"; "w_test.dart"]
                       (SubDir "deep" (Dir ["z.dart"] NoDir) NoDir))
        NoDir)))
  = ["lib/a.dart"; "lib/ui/w.dart"; "lib/ui/deep/z.dart"].
Proof. vm_compute. reflexivity. Qed.
End ScanFacts.

(* ================================================================== *)
(** * dart_analyzer.py: the pre-processing before the export *)
(* ================================================================== *)

Module DartFacts.
Import Schema Sql Frame DartCodeAnalyzer.
Local Open Scope list_scope.

Lemma existsb_isna_filled (l : list object) :
  existsb isna (map (fun o => if isna o then OStr "" else o) l) = false.
Proof.
  induction l as [|o l IH]; [reflexivity|]. simpl. rewrite IH.
  destruct (isna o) eqn:E; simpl; [reflexivity | now rewrite E].
Qed.

Lemma existsb_isna_bool (l : list bool) : existsb isna (map OBool l) = false.
Proof. induction l; auto. Qed.

Lemma existsb_isna_int (l : list Z) : existsb isna (map OInt l) = false.
Proof. induction l; auto. Qed.

Lemma existsb_isna_str (l : list string) : existsb isna (map OStr l) = false.
Proof. induction l; auto. Qed.

(** The part of C8 that holds for every DataFrame: after the pre-processing
    no cell is missing, a cell that was missing is the empty string, and a
    column of dtype bool holds 'Yes' for True and 'No' for False. *)
Lemma preprocess_normalizes (df : dataframe) :
  Forall (fun c => existsb isna (cells_of (snd c)) = false) (preprocess df) /\
  forall name l, In (name, BoolSeries l) df ->
    In (name, ObjectSeries (map (fun b : bool => OStr (if b then "Yes" else "No")) l))
       (preprocess df).
Proof.
  split.
  - unfold preprocess. apply Forall_forall. intros c Hc.
    apply in_map_iff in Hc as [[name s] [<- _]]. simpl.
    unfold fillna_empty. destruct (existsb isna (cells_of s)) eqn:E.
    + simpl. apply existsb_isna_filled.
    + destruct s as [l|l|l|l]; simpl in *; try exact E.
      clear E. induction l as [|b l IH]; [reflexivity|]. simpl. exact IH.
  - intros name l Hin. unfold preprocess.
    apply in_map_iff. exists (name, BoolSeries l). split; [|exact Hin].
    simpl. unfold fillna_empty. simpl. now rewrite existsb_isna_bool.
Qed.

(** A column of SQLite integers goes through the pre-processing unchanged:
    its dtype is int64 (or object, without rows), never bool. *)
Lemma preprocess_integer_column (l : list Z) :
  yes_no (fillna_empty (integer_column l)) = integer_column l.
Proof.
  destruct l as [|z l]; [reflexivity|].
  unfold integer_column, fillna_empty. cbn [cells_of].
  now rewrite existsb_isna_int.
Qed.

(** C8 on the Methods sheet.  [analyze_methods] selects [m.is_async] and
    [m.is_static] as SQLite stores them, so pandas reads int64 columns and
    the mapping of the bool columns leaves them alone: the sheet shows the
    integers, 1 and 0, not 'Yes' and 'No'. *)
Theorem methods_sheet_keeps_integers (db : database) :
  exists df,
    methods_sheet db = Some df /\
    column df "is_async"
    = Some (integer_column
              (map (fun t => is_async (fst (fst t))) (methods_selection db))) /\
    column df "is_static"
    = Some (integer_column
              (map (fun t => is_static (fst (fst t))) (methods_selection db))) /\
    column (match methods_sheet Sample.db with Some s => s | None => [] end)
           "is_async"
    = Some (Int64Series [1; 1; 1; 1; 1]) /\
    column (match methods_sheet Sample.db with Some s => s | None => [] end)
           "is_static"
    = Some (Int64Series [0; 0; 0; 0; 0]).
Proof.
  eexists. split; [reflexivity|].
  cbn [preprocess analyze_methods map fst snd column String.eqb Ascii.eqb
       Bool.eqb].
  rewrite !preprocess_integer_column.
  repeat split; vm_compute; reflexivity.
Qed.
End DartFacts.

(* ================================================================== *)
(** * How the reports relate to each other *)
(* ================================================================== *)

Module ReportFacts.
Import Schema Sql AuditAnalyzer Store.
Local Open Scope list_scope.

(** Under a primary key, a key value selects one row. *)
Lemma select_by_key {A B} (key : A -> Z) (f : A -> list B) (l : list A) (a : A) :
  NoDup (map key l) -> In a l ->
  flat_map (fun x => if key a =? key x then f x else []) l = f a.
Proof.
  induction l as [|x l IH]; intros Hnd Hin; [destruct Hin|].
  simpl in Hnd. inversion Hnd as [|? ? Hx Hl]; subst.
  cbn [flat_map]. destruct Hin as [->|Hin].
  - rewrite Z.eqb_refl.
    assert (E : forall l', ~ In (key a) (map key l') ->
              flat_map (fun x => if key a =? key x then f x else []) l' = []).
    { induction l' as [|y l' IH']; intro Hn; [reflexivity|].
      cbn [flat_map]. destruct (Z.eqb_spec (key a) (key y)) as [E|_].
      - exfalso. apply Hn. left. now symmetry.
      - apply IH'. intro H. apply Hn. now right. }
    rewrite (E l Hx). apply app_nil_r.
  - destruct (Z.eqb_spec (key a) (key x)) as [E|_].
    + exfalso. apply Hx. rewrite <- E. now apply in_map.
    + simpl. now apply IH.
Qed.

Lemma select_by_value {A B} (key : A -> Z) (f : A -> list B) (l : list A) (k : Z) :
  NoDup (map key l) -> (exists a, In a l /\ key a = k) ->
  exists a, In a l /\ key a = k /\
    flat_map (fun x => if k =? key x then f x else []) l = f a.
Proof.
  intros Hnd [a [Hin <-]]. exists a. split; [exact Hin|]. split; [reflexivity|].
  now apply select_by_key.
Qed.

Lemma filter_length_split {A} (p : A -> bool) (l : list A) :
  (List.length (filter p l) + List.length (filter (fun x => negb (p x)) l)
   = List.length l)%nat.
Proof.
  induction l as [|x l IH]; [reflexivity|]. simpl.
  destruct (p x); simpl; lia.
Qed.

Lemma filter_length_bound {A} (p : A -> bool) (l : list A) :
  (List.length (filter p l) <= List.length l)%nat.
Proof.
  induction l as [|x l IH]; [constructor|]. simpl.
  destruct (p x); simpl; lia.
Qed.

Lemma filter_length_le {A} (p q : A -> bool) (l : list A) :
  (forall x, p x = true -> q x = true) ->
  (List.length (filter p l) <= List.length (filter q l))%nat.
Proof.
  intro H. induction l as [|x l IH]; [constructor|]. simpl.
  destruct (p x) eqn:P.
  - rewrite (H x P). simpl. lia.
  - destruct (q x); simpl; lia.
Qed.

(** With the keys in place, the join of the classes with their files has one
    row per class, so the report has one row per unreferenced class. *)
Lemma unused_classes_length (db : database) :
  keys_hold db ->
  List.length (analyze_unused_classes db)
  = List.length (filter (fun c => negb (class_is_referenced db c)) (classes db)).
Proof.
  intros (Hf & _ & Hfk & _).
  unfold analyze_unused_classes, unused_classes_selection.
  rewrite length_map.
  rewrite <- (Permutation_length (OrderByFacts.order_by_perm _ _)).
  unfold classes_join. revert Hfk.
  induction (classes db) as [|c cs IH]; intro Hfk; [reflexivity|].
  cbn [flat_map]. rewrite filter_app, length_app.
  rewrite IH by (intros c' Hc'; apply Hfk; now right).
  destruct (select_by_value file_id (fun sf => [(c, sf)]) (source_files db)
              (c_file_id c) Hf (Hfk c (or_introl eq_refl)))
    as (sf & _ & _ & ->).
  cbn [filter]. unfold unused_class_where at 1. cbn [fst].
  destruct (class_is_referenced db c); reflexivity.
Qed.
Lemma unused_methods_length (db : database) :
  keys_hold db ->
  List.length (analyze_unused_methods db)
  = List.length
      (filter (fun m => negb (method_is_referenced db m)
                        && negb (name_in lifecycle_methods (method_name m))
                        && (has_annotation m =? 0))
              (class_methods db)).
Proof.
  intros (Hf & Hc & Hfk & Hmk).
  unfold analyze_unused_methods, unused_methods_selection.
  rewrite length_map.
  rewrite <- (Permutation_length (OrderByFacts.order_by_perm _ _)).
  unfold methods_join. revert Hmk.
  induction (class_methods db) as [|m ms IH]; intro Hmk; [reflexivity|].
  cbn [flat_map]. rewrite filter_app, length_app.
  rewrite IH by (intros m' Hm'; apply Hmk; now right).
  destruct (select_by_value class_id
              (fun c => flat_map (fun sf =>
                 if c_file_id c =? file_id sf then [(m, c, sf)] else [])
                 (source_files db))
              (classes db) (m_class_id m) Hc (Hmk m (or_introl eq_refl)))
    as (c & Hcin & _ & ->).
  destruct (select_by_value file_id (fun sf => [(m, c, sf)]) (source_files db)
              (c_file_id c) Hf (Hfk c Hcin))
    as (sf & _ & _ & ->).
  cbn [filter]. unfold unused_method_where at 1.
  destruct (negb (method_is_referenced db m)
            && negb (name_in lifecycle_methods (method_name m))
            && (has_annotation m =? 0)); reflexivity.
Qed.
(** With the store's keys in place, the usage statistics and the two
    unused-code reports agree: the classes that are not counted as used are
    exactly the rows of the unused-classes report, and the unused-methods
    report, which leaves out lifecycle and annotated methods, has at most as
    many rows as there are methods not counted as used.  A [used] that is
    NULL goes with an empty report. *)
Theorem statistics_match_reports (db : database) :
  keys_hold db ->
  exists cls_row meth_row,
    get_usage_statistics db = [cls_row; meth_row] /\
    us_category cls_row = "Classes" /\ us_category meth_row = "Methods" /\
    (forall u, us_used cls_row = Some u ->
       Z.of_nat (List.length (analyze_unused_classes db)) = us_total cls_row - u) /\
    (us_used cls_row = None -> analyze_unused_classes db = []) /\
    (forall u, us_used meth_row = Some u ->
       Z.of_nat (List.length (analyze_unused_methods db)) <= us_total meth_row - u) /\
    (us_used meth_row = None -> analyze_unused_methods db = []).
Proof.
  intros Hkeys.
  pose proof (unused_classes_length db Hkeys) as Lc.
  pose proof (unused_methods_length db Hkeys) as Lm.
  unfold get_usage_statistics, usage_query. cbn [map category total used].
  do 2 eexists. split; [reflexivity|].
  cbn [us_category us_used us_total]. split; [reflexivity|]. split; [reflexivity|].
  pose proof (filter_length_split (class_is_referenced db) (classes db)) as Sc.
  pose proof (filter_length_split (method_is_referenced db) (class_methods db)) as Sm.
  assert (Lm' : (List.length (analyze_unused_methods db)
                 <= List.length (filter (fun m => negb (method_is_referenced db m))
                                        (class_methods db)))%nat).
  { rewrite Lm. apply filter_length_le. intros m H.
    apply andb_true_iff in H as [H _]. now apply andb_true_iff in H as [H _]. }
  repeat split.
  - intros u Hu. destruct (classes db) as [|c cs] eqn:Ec; [discriminate|].
    rewrite <- Ec in *. unfold sql_sum in Hu.
    destruct (map _ (classes db)) eqn:Em in Hu.
    + rewrite Ec in Em. discriminate Em.
    + rewrite <- Em in Hu. injection Hu as <-.
      rewrite UsageFacts.sum_one_if_count. lia.
  - intros Hn. destruct (classes db) as [|c cs] eqn:Ec; [|discriminate].
    unfold analyze_unused_classes, unused_classes_selection, classes_join.
    now rewrite Ec.
  - intros u Hu. destruct (class_methods db) as [|m ms] eqn:Ec; [discriminate|].
    rewrite <- Ec in *. unfold sql_sum in Hu.
    destruct (map _ (class_methods db)) eqn:Em in Hu.
    + rewrite Ec in Em. discriminate Em.
    + rewrite <- Em in Hu. injection Hu as <-.
      rewrite UsageFacts.sum_one_if_count. lia.
  - intros Hn. destruct (class_methods db) as [|m ms] eqn:Ec; [|discriminate].
    unfold analyze_unused_methods, unused_methods_selection, methods_join.
    now rewrite Ec.
Qed.

Lemma sample_keys_hold : keys_hold Sample.db.
Proof.
  unfold keys_hold. split; [|split; [|split]].
  - repeat constructor; simpl; intuition discriminate.
  - repeat constructor; simpl; intuition discriminate.
  - intros c Hc. exists {| file_id := 1; file_path := "lib/a.dart" |}.
    split; [now left|].
    simpl in Hc. decompose [or] Hc; subst; try reflexivity; contradiction.
  - intros m Hm. simpl in Hm.
    decompose [or] Hm; subst; try contradiction;
      first [ exists (Sample.cls 1 1 "Alpha"); split; [now left | reflexivity]
            | exists (Sample.cls 2 1 "Beta"); split; [right; now left | reflexivity] ].
Qed.

(** The agreement at the sample store: two classes of which one is used and
    one reported, seven methods of which one is used and four reported. *)
Lemma statistics_match_reports_witness :
  exists cls_row meth_row,
    get_usage_statistics Sample.db = [cls_row; meth_row] /\
    us_category cls_row = "Classes" /\ us_category meth_row = "Methods" /\
    (forall u, us_used cls_row = Some u ->
       Z.of_nat (List.length (analyze_unused_classes Sample.db))
       = us_total cls_row - u) /\
    (us_used cls_row = None -> analyze_unused_classes Sample.db = []) /\
    (forall u, us_used meth_row = Some u ->
       Z.of_nat (List.length (analyze_unused_methods Sample.db))
       <= us_total meth_row - u) /\
    (us_used meth_row = None -> analyze_unused_methods Sample.db = []).
Proof.
  exact (statistics_match_reports Sample.db sample_keys_hold).
Defined.

(** ** The report and the Methods listing *)

Lemma text_cell (l : list string) (i : nat) :
  nth_error (Frame.cells_of (Frame.text_column l)) i
  = option_map Frame.OStr (nth_error l i).
Proof. unfold Frame.text_column. cbn [Frame.cells_of]. apply nth_error_map. Qed.

Lemma integer_cell (l : list Z) (i : nat) :
  nth_error (Frame.cells_of (Frame.integer_column l)) i
  = option_map Frame.OInt (nth_error l i).
Proof.
  destruct l as [|z l]; [now destruct i|].
  unfold Frame.integer_column. cbn [Frame.cells_of]. apply nth_error_map.
Qed.

Lemma unused_methods_selected (db : database) t :
  In t (unused_methods_selection db) ->
  In t (DartCodeAnalyzer.methods_selection db).
Proof.
  intro Ht. apply AuditFacts.unused_methods_selection_In in Ht as [Hj Hw].
  unfold DartCodeAnalyzer.methods_selection.
  apply OrderByFacts.order_by_In. apply filter_In. split; [exact Hj|].
  destruct t as [[m c] sf].
  unfold unused_method_where in Hw. unfold DartCodeAnalyzer.methods_where.
  rewrite !andb_true_iff in *. tauto.
Qed.

(** Every row of the unused-methods report shows a method that the Methods
    listing of the Dart analyzer shows too, in one of its rows, with the same
    file, class, name, return type, parameter count and complexities, and
    with the integer flag that the report renders as Yes or No.  The listing
    applies the same lifecycle and annotation exclusions but does not look
    at the usage rows, so it never has fewer rows than the report. *)
Theorem unused_methods_are_listed (db : database) :
  let listing := DartCodeAnalyzer.analyze_methods db in
  (forall row, In row (analyze_unused_methods db) ->
     exists i a s,
       Listing.cell listing "file_name" i
       = Some (Frame.OStr (um_file_name row)) /\
       Listing.cell listing "class_name" i
       = Some (Frame.OStr (um_class_name row)) /\
       Listing.cell listing "method_name" i
       = Some (Frame.OStr (um_method_name row)) /\
       Listing.cell listing "return_type" i
       = Some (Frame.OStr (um_return_type row)) /\
       Listing.cell listing "param_count" i
       = Some (Frame.OInt (um_param_count row)) /\
       Listing.cell listing "cyclomatic_complexity" i
       = Some (Frame.OInt (um_cyclomatic_complexity row)) /\
       Listing.cell listing "cognitive_complexity" i
       = Some (Frame.OInt (um_cognitive_complexity row)) /\
       Listing.cell listing "is_async" i = Some (Frame.OInt a) /\
       um_is_async row = case_is_one a "Yes" "No" /\
       Listing.cell listing "is_static" i = Some (Frame.OInt s) /\
       um_is_static row = case_is_one s "Yes" "No") /\
  (List.length (analyze_unused_methods db) <= Listing.height listing)%nat /\
  (forall t, In t (unused_methods_selection db) ->
             In t (DartCodeAnalyzer.methods_selection db)).
Proof.
  intro listing. subst listing. split; [|split].
  - intros row Hrow. unfold analyze_unused_methods in Hrow.
    apply in_map_iff in Hrow as ([[m c] sf] & <- & Ht).
    apply unused_methods_selected, In_nth_error in Ht as [i Hi].
    exists i, (is_async m), (is_static m).
    unfold Listing.cell, DartCodeAnalyzer.analyze_methods.
    cbn [Frame.column String.eqb Ascii.eqb Bool.eqb fst snd].
    rewrite !text_cell, !integer_cell, !nth_error_map, Hi.
    cbn. repeat split.
  - unfold Listing.height, DartCodeAnalyzer.analyze_methods.
    unfold Frame.text_column. cbn [Frame.cells_of].
    rewrite !length_map.
    unfold analyze_unused_methods, unused_methods_selection,
      DartCodeAnalyzer.methods_selection.
    rewrite length_map.
    rewrite <- !(Permutation_length (OrderByFacts.order_by_perm _ _)).
    apply filter_length_le.
    intros [[m c] sf]. unfold unused_method_where, DartCodeAnalyzer.methods_where.
    rewrite !andb_true_iff. tauto.
  - apply unused_methods_selected.
Qed.

(** ** A new usage row *)

(** The rows selected after a usage row is inserted are the rows selected
    before, without those of the method the new row points at. *)
Lemma unused_methods_after_usage db r :
  Permutation
    (unused_methods_selection (insert_method_usage r db))
    (filter (fun t => negb (method_id (fst (fst t)) =? referenced_method_id r))
            (unused_methods_selection db)).
Proof.
  unfold unused_methods_selection.
  change (methods_join (insert_method_usage r db)) with (methods_join db).
  rewrite (filter_ext (unused_method_where (insert_method_usage r db))
             (fun t => unused_method_where db t
                       && negb (method_id (fst (fst t))
                                =? referenced_method_id r))).
  - rewrite OrderByFacts.filter_and.
    etransitivity; [symmetry; apply OrderByFacts.order_by_perm|].
    apply OrderByFacts.filter_perm, OrderByFacts.order_by_perm.
  - intros [[m c] sf]. unfold unused_method_where, method_is_referenced.
    cbn [insert_method_usage method_usage_references fst].
    rewrite existsb_app. cbn [existsb].
    rewrite orb_false_r, negb_orb, (Z.eqb_sym (referenced_method_id r)).
    destruct (existsb _ (method_usage_references db)),
      (method_id m =? referenced_method_id r),
      (name_in lifecycle_methods (method_name m)),
      (has_annotation m =? 0); reflexivity.
Qed.

(** A usage row that the producer adds can only remove rows from the
    unused-methods report: the next report holds the rows of the previous
    one without those of the method the new row points at, so no row enters
    the report and the report does not grow. *)
Theorem method_usage_shrinks_report
        (db : database) (r : method_usage_reference) :
  Permutation
    (analyze_unused_methods (insert_method_usage r db))
    (map select_unused_method
         (filter (fun t => negb (method_id (fst (fst t))
                                 =? referenced_method_id r))
                 (unused_methods_selection db))) /\
  (forall row, In row (analyze_unused_methods (insert_method_usage r db)) ->
               In row (analyze_unused_methods db)) /\
  (List.length (analyze_unused_methods (insert_method_usage r db))
   <= List.length (analyze_unused_methods db))%nat /\
  (forall m c sf, method_id m = referenced_method_id r ->
     ~ In (m, c, sf) (unused_methods_selection (insert_method_usage r db))).
Proof.
  assert (P : Permutation
    (analyze_unused_methods (insert_method_usage r db))
    (map select_unused_method
         (filter (fun t => negb (method_id (fst (fst t))
                                 =? referenced_method_id r))
                 (unused_methods_selection db)))).
  { unfold analyze_unused_methods.
    apply Permutation_map, unused_methods_after_usage. }
  split; [exact P|]. split; [|split].
  - intros row Hrow. apply (Permutation_in _ P) in Hrow.
    apply in_map_iff in Hrow as (t & <- & Ht). apply filter_In in Ht as [Ht _].
    unfold analyze_unused_methods. now apply in_map.
  - rewrite (Permutation_length P). unfold analyze_unused_methods.
    rewrite !length_map. apply filter_length_bound.
  - intros m c sf E Ht.
    apply AuditFacts.unused_methods_selection_In in Ht as [_ Hw].
    apply AuditFacts.unused_method_where_true in Hw as (Hr & _).
    apply (Hr r); [|now symmetry].
    simpl. apply in_or_app. right. now left.
Qed.
End ReportFacts.

(* ================================================================== *)
(** * dart_analyzer.py: the two listings *)
(* ================================================================== *)

Module ListingFacts.
Import Schema Sql Hierarchy.
Local Open Scope list_scope.

Lemma hierarchy_join_In db sf c m :
  In (sf, c, m) (hierarchy_join db) <->
  In (m, c, sf) (AuditAnalyzer.methods_join db).
Proof.
  rewrite AuditFacts.methods_join_In.
  unfold hierarchy_join. rewrite in_flat_map. split.
  - intros [m' [Hm H]]. apply in_flat_map in H as [c' [Hc H]].
    destruct (Z.eqb_spec (class_id c') (m_class_id m')) as [E1|]; [|easy].
    apply in_flat_map in H as [sf' [Hsf H]].
    destruct (Z.eqb_spec (file_id sf') (c_file_id c')) as [E2|]; [|easy].
    destruct H as [H|[]]. injection H as -> -> ->. auto.
  - intros (Hm & Hc & Hsf & E1 & E2). exists m. split; [exact Hm|].
    apply in_flat_map. exists c. split; [exact Hc|].
    rewrite E1, Z.eqb_refl. apply in_flat_map. exists sf. split; [exact Hsf|].
    rewrite E2, Z.eqb_refl. now left.
Qed.

Lemma hierarchy_le_trans a b c :
  hierarchy_le a b -> hierarchy_le b c -> hierarchy_le a c.
Proof.
  unfold hierarchy_le, Text.le.
  intros [F1|[G1 [C1|[D1 [M1|M1]]]]] [F2|[G2 [C2|[D2 [M2|M2]]]]];
    try (left; first [ eapply TextFacts.lt_trans; eassumption
                     | rewrite G1; assumption
                     | rewrite <- G2; assumption ]);
    right; (split; [congruence|]);
    try (left; first [ eapply TextFacts.lt_trans; eassumption
                     | rewrite D1; assumption
                     | rewrite <- D2; assumption ]);
    right; (split; [congruence|]);
    first [ left; eapply TextFacts.lt_trans; eassumption
          | left; rewrite M1; assumption
          | left; rewrite <- M2; assumption
          | right; congruence ].
Qed.

Lemma hierarchy_order_le a b :
  no_later hierarchy_order a b = true ->
  hierarchy_le (select_hierarchy a) (select_hierarchy b).
Proof.
  destruct a as [[fa ca] ma], b as [[fb cb] mb].
  unfold no_later, hierarchy_order, hierarchy_le, then_by, Text.le. simpl.
  AuditFacts.order_key (file_path fa) (file_path fb);
    [AuditFacts.key_decides|AuditFacts.key_ties|discriminate].
  AuditFacts.order_key (class_name ca) (class_name cb);
    [AuditFacts.key_decides|AuditFacts.key_ties|discriminate].
  AuditFacts.order_key (method_name ma) (method_name mb);
    [AuditFacts.key_decides|intros _; right; assumption|discriminate].
Qed.

Lemma hierarchy_order_ge a b :
  no_later hierarchy_order a b = false ->
  hierarchy_le (select_hierarchy b) (select_hierarchy a).
Proof.
  destruct a as [[fa ca] ma], b as [[fb cb] mb].
  unfold no_later, hierarchy_order, hierarchy_le, then_by, Text.le. simpl.
  AuditFacts.order_key (file_path fa) (file_path fb);
    [discriminate|AuditFacts.key_ties|AuditFacts.key_decides].
  AuditFacts.order_key (class_name ca) (class_name cb);
    [discriminate|AuditFacts.key_ties|AuditFacts.key_decides].
  AuditFacts.order_key (method_name ma) (method_name mb);
    [discriminate|discriminate|AuditFacts.key_decides].
Qed.

(** The hierarchy listing holds exactly the methods joined to their class
    and file, lifecycle and annotated methods included (so every row of the
    Methods listing is in it), a class without method has no row, and the
    rows are ordered by file path, class name and method name. *)
Theorem hierarchy_lists_every_method (db : database) :
  (forall sf c m,
     In (sf, c, m) (hierarchy_selection db) <->
     In m (class_methods db) /\ In c (classes db) /\ In sf (source_files db) /\
     m_class_id m = class_id c /\ c_file_id c = file_id sf) /\
  (forall m c sf, In (m, c, sf) (DartCodeAnalyzer.methods_selection db) ->
                  In (sf, c, m) (hierarchy_selection db)) /\
  (forall row, In row (analyze_class_hierarchy db) <->
     exists t, In t (hierarchy_selection db) /\ row = select_hierarchy t) /\
  StronglySorted hierarchy_le (analyze_class_hierarchy db).
Proof.
  assert (Hin : forall sf c m,
     In (sf, c, m) (hierarchy_selection db) <->
     In (m, c, sf) (AuditAnalyzer.methods_join db)).
  { intros. unfold hierarchy_selection.
    rewrite OrderByFacts.order_by_In. apply hierarchy_join_In. }
  split; [|split; [|split]].
  - intros. rewrite Hin. apply AuditFacts.methods_join_In.
  - intros m c sf H. apply Hin. unfold DartCodeAnalyzer.methods_selection in H.
    apply OrderByFacts.order_by_In in H. now apply filter_In in H as [H _].
  - intro row. unfold analyze_class_hierarchy. rewrite in_map_iff. split.
    + intros [t [E H]]. eauto.
    + intros [t [H E]]. eauto.
  - unfold analyze_class_hierarchy, hierarchy_selection.
    apply OrderByFacts.StronglySorted_map
      with (R := fun a b => hierarchy_le (select_hierarchy a) (select_hierarchy b));
      [auto|].
    apply OrderByFacts.order_by_strongly_sorted.
    + apply hierarchy_order_le.
    + apply hierarchy_order_ge.
    + intros a b c. apply hierarchy_le_trans.
Qed.
(** One more key of a lexicographic order keeps it transitive. *)
Lemma lex_trans {A K} (k : A -> K) (ltK : K -> K -> Prop) (R : A -> A -> Prop) :
  (forall x y z, ltK x y -> ltK y z -> ltK x z) ->
  (forall a b c, R a b -> R b c -> R a c) ->
  forall a b c,
    (ltK (k a) (k b) \/ (k a = k b /\ R a b)) ->
    (ltK (k b) (k c) \/ (k b = k c /\ R b c)) ->
    ltK (k a) (k c) \/ (k a = k c /\ R a c).
Proof.
  intros Hlt HR a b c [L1|[E1 R1]] [L2|[E2 R2]].
  - left. eauto.
  - left. now rewrite <- E2.
  - left. now rewrite E1.
  - right. split; [congruence | eauto].
Qed.

Lemma gt_chain (x y z : Z) : x > y -> y > z -> x > z.
Proof. lia. Qed.

Lemma methods_le_trans a b c : methods_le a b -> methods_le b c -> methods_le a c.
Proof.
  destruct a as [[ma ca] fa], b as [[mb cb] fb], c as [[mc cc] fc].
  unfold methods_le.
  apply (lex_trans (fun t : method_row * class_row * source_file =>
                      cyclomatic_complexity (fst (fst t)))
                   (fun x y => x > y)
                   (fun a b =>
                      cognitive_complexity (fst (fst a)) > cognitive_complexity (fst (fst b)) \/
                      (cognitive_complexity (fst (fst a)) = cognitive_complexity (fst (fst b)) /\
                       (Text.lt (file_path (snd a)) (file_path (snd b)) \/
                        (file_path (snd a) = file_path (snd b) /\
                         (Text.lt (class_name (snd (fst a))) (class_name (snd (fst b))) \/
                          (class_name (snd (fst a)) = class_name (snd (fst b)) /\
                           Text.le (method_name (fst (fst a))) (method_name (fst (fst b)))))))))
                   gt_chain) with (a := (ma, ca, fa)) (b := (mb, cb, fb)) (c := (mc, cc, fc)).
  clear. intros a b c.
  apply (lex_trans (fun t : method_row * class_row * source_file =>
                      cognitive_complexity (fst (fst t)))
                   (fun x y => x > y)
                   (fun a b =>
                       (Text.lt (file_path (snd a)) (file_path (snd b)) \/
                        (file_path (snd a) = file_path (snd b) /\
                         (Text.lt (class_name (snd (fst a))) (class_name (snd (fst b))) \/
                          (class_name (snd (fst a)) = class_name (snd (fst b)) /\
                           Text.le (method_name (fst (fst a))) (method_name (fst (fst b))))))))
                   gt_chain).
  clear. intros a b c.
  apply (lex_trans (fun t : method_row * class_row * source_file => file_path (snd t))
                   Text.lt
                   (fun a b =>
                         (Text.lt (class_name (snd (fst a))) (class_name (snd (fst b))) \/
                          (class_name (snd (fst a)) = class_name (snd (fst b)) /\
                           Text.le (method_name (fst (fst a))) (method_name (fst (fst b))))))
                   TextFacts.lt_trans).
  clear. intros a b c.
  apply (lex_trans (fun t : method_row * class_row * source_file =>
                      class_name (snd (fst t)))
                   Text.lt
                   (fun a b => Text.le (method_name (fst (fst a)))
                                       (method_name (fst (fst b))))
                   TextFacts.lt_trans).
  clear. intros a b c. apply TextFacts.le_trans.
Qed.

Lemma methods_order_le a b :
  no_later DartCodeAnalyzer.methods_order a b = true -> methods_le a b.
Proof.
  destruct a as [[ma ca] fa], b as [[mb cb] fb].
  unfold no_later, DartCodeAnalyzer.methods_order, methods_le, then_by, Text.le.
  destruct (Z.compare_spec (cyclomatic_complexity mb) (cyclomatic_complexity ma))
    as [K|K|K]; [AuditFacts.key_ties|left; lia|discriminate].
  destruct (Z.compare_spec (cognitive_complexity mb) (cognitive_complexity ma))
    as [K'|K'|K']; [AuditFacts.key_ties|left; lia|discriminate].
  AuditFacts.order_key (file_path fa) (file_path fb);
    [AuditFacts.key_decides|AuditFacts.key_ties|discriminate].
  AuditFacts.order_key (class_name ca) (class_name cb);
    [AuditFacts.key_decides|AuditFacts.key_ties|discriminate].
  AuditFacts.order_key (method_name ma) (method_name mb);
    [AuditFacts.key_decides|intros _; right; assumption|discriminate].
Qed.

Lemma methods_order_ge a b :
  no_later DartCodeAnalyzer.methods_order a b = false -> methods_le b a.
Proof.
  destruct a as [[ma ca] fa], b as [[mb cb] fb].
  unfold no_later, DartCodeAnalyzer.methods_order, methods_le, then_by, Text.le.
  destruct (Z.compare_spec (cyclomatic_complexity mb) (cyclomatic_complexity ma))
    as [K|K|K]; [AuditFacts.key_ties|discriminate|left; lia].
  destruct (Z.compare_spec (cognitive_complexity mb) (cognitive_complexity ma))
    as [K'|K'|K']; [AuditFacts.key_ties|discriminate|left; lia].
  AuditFacts.order_key (file_path fa) (file_path fb);
    [discriminate|AuditFacts.key_ties|AuditFacts.key_decides].
  AuditFacts.order_key (class_name ca) (class_name cb);
    [discriminate|AuditFacts.key_ties|AuditFacts.key_decides].
  AuditFacts.order_key (method_name ma) (method_name mb);
    [discriminate|discriminate|AuditFacts.key_decides].
Qed.

(** The Methods listing.  The query selects exactly the methods, joined to
    their class and file, that are neither lifecycle methods nor annotated,
    whether referenced or not, ordered by cyclomatic then cognitive
    complexity descending, then file path, class name and method name
    ascending.  The DataFrame that [analyze_methods] returns has the nine
    columns of the SELECT list and one row per selected method, in that
    order: row [i] shows the [i]-th of them, its two flags as integers. *)
Theorem methods_listing_ordered (db : database) :
  let rows := DartCodeAnalyzer.methods_selection db in
  let listing := DartCodeAnalyzer.analyze_methods db in
  (forall m c sf,
     In (m, c, sf) rows <->
     (In m (class_methods db) /\ In c (classes db) /\ In sf (source_files db) /\
      m_class_id m = class_id c /\ c_file_id c = file_id sf) /\
     ~ In (method_name m) ["build"; "initState"; "dispose"; "createState"] /\
     has_annotation m = 0) /\
  StronglySorted methods_le rows /\
  map fst listing
  = ["file_name"; "class_name"; "method_name"; "return_type"; "param_count";
     "cyclomatic_complexity"; "cognitive_complexity"; "is_async";
     "is_static"] /\
  Listing.height listing = List.length rows /\
  (forall i m c sf, nth_error rows i = Some (m, c, sf) ->
     Listing.cell listing "file_name" i = Some (Frame.OStr (file_path sf)) /\
     Listing.cell listing "class_name" i = Some (Frame.OStr (class_name c)) /\
     Listing.cell listing "method_name" i
     = Some (Frame.OStr (method_name m)) /\
     Listing.cell listing "return_type" i
     = Some (Frame.OStr (return_type m)) /\
     Listing.cell listing "param_count" i
     = Some (Frame.OInt (param_count m)) /\
     Listing.cell listing "cyclomatic_complexity" i
     = Some (Frame.OInt (cyclomatic_complexity m)) /\
     Listing.cell listing "cognitive_complexity" i
     = Some (Frame.OInt (cognitive_complexity m)) /\
     Listing.cell listing "is_async" i = Some (Frame.OInt (is_async m)) /\
     Listing.cell listing "is_static" i = Some (Frame.OInt (is_static m))) /\
  (forall i name, (List.length rows <= i)%nat ->
     Listing.cell listing name i = None).
Proof.
  intros rows listing. subst rows listing.
  split; [|split; [|split; [reflexivity|split; [|split]]]].
  - intros m c sf. unfold DartCodeAnalyzer.methods_selection.
    rewrite OrderByFacts.order_by_In, filter_In, AuditFacts.methods_join_In.
    unfold DartCodeAnalyzer.methods_where.
    rewrite andb_true_iff, negb_true_iff, Z.eqb_eq.
    rewrite <- not_true_iff_false, AuditFacts.name_in_true. reflexivity.
  - apply OrderByFacts.order_by_strongly_sorted.
    + apply methods_order_le.
    + apply methods_order_ge.
    + apply methods_le_trans.
  - unfold Listing.height, DartCodeAnalyzer.analyze_methods.
    unfold Frame.text_column. cbn [Frame.cells_of].
    now rewrite !length_map.
  - intros i m c sf Hi.
    unfold Listing.cell, DartCodeAnalyzer.analyze_methods.
    cbn [Frame.column String.eqb Ascii.eqb Bool.eqb fst snd].
    rewrite !ReportFacts.text_cell, !ReportFacts.integer_cell,
      !nth_error_map, Hi.
    cbn. repeat split.
  - intros i name Hi.
    unfold Listing.cell, DartCodeAnalyzer.analyze_methods.
    cbn [Frame.column fst snd].
    repeat match goal with
    | |- context [if String.eqb ?a name then _ else _] =>
        destruct (String.eqb a name)
    end;
    rewrite ?ReportFacts.text_cell, ?ReportFacts.integer_cell, ?nth_error_map;
    try reflexivity;
    match goal with
    | |- context [nth_error ?l i] =>
        replace (nth_error l i) with (@None (method_row * class_row * source_file))
          by (symmetry; apply nth_error_None; exact Hi)
    end; reflexivity.
Qed.
End ListingFacts.

(* ================================================================== *)
(** * dart_analyzer.py: what the export keeps and what it changes *)
(* ================================================================== *)

Module ExportFacts.
Import Frame DartCodeAnalyzer.
Local Open Scope list_scope.



Lemma preprocess_series_fixed (s : series) :
  yes_no (fillna_empty (yes_no (fillna_empty s))) = yes_no (fillna_empty s).
Proof.
  assert (Hfill : forall l,
    fillna_empty (ObjectSeries (map (fun o => if isna o then OStr "" else o) l))
    = ObjectSeries (map (fun o => if isna o then OStr "" else o) l)).
  { intro l. unfold fillna_empty. cbn [cells_of].
    now rewrite DartFacts.existsb_isna_filled. }
  unfold fillna_empty at 2 3. destruct (existsb isna (cells_of s)) eqn:E.
  - cbn [yes_no]. now rewrite Hfill.
  - destruct s as [l|l|l|l]; cbn [yes_no].
    + unfold fillna_empty. cbn [cells_of].
      assert (H : existsb isna (map (fun b : bool => OStr (if b then "Yes" else "No")) l) = false)
        by (clear; induction l; auto).
      now rewrite H.
    + unfold fillna_empty. now rewrite E.
    + unfold fillna_empty. now rewrite E.
    + unfold fillna_empty. now rewrite E.
Qed.

(** Pre-processing a DataFrame that was pre-processed changes nothing. *)
Theorem preprocess_idempotent (df : dataframe) :
  preprocess (preprocess df) = preprocess df.
Proof.
  unfold preprocess. rewrite map_map. apply map_ext.
  intros [name s]. cbn [fst snd]. now rewrite preprocess_series_fixed.
Qed.

Lemma substring_start_all (n : nat) (s : string) :
  (String.length s <= n)%nat -> substring 0 n s = s.
Proof.
  revert s. induction n as [|n IH]; intros [|c s]; simpl; auto.
  - intro H. lia.
  - intro H. f_equal. apply IH. lia.
Qed.

Lemma firstn_prefix {A} (n : nat) (common rest : list A) :
  List.length common = n -> firstn n (common ++ rest) = common.
Proof.
  intros <-. rewrite firstn_app, firstn_all, Nat.sub_diag.
  cbn [firstn]. apply app_nil_r.
Qed.

(** The writer gets one sheet per DataFrame, in the same order.  The name of
    a sheet is the requested name cut after 31 characters: the requested
    name itself when that has at most 31 characters, its first 31 characters
    otherwise; so two requested names that agree on their first 31
    characters get the same sheet name.  Characters are counted, not bytes:
    forty times the letter e with an acute accent is cut to thirty-one of
    them. *)
Theorem export_sheet_names (dataframes : list (Python.pystr * dataframe)) :
  Forall2 (fun requested sheet =>
     snd sheet = preprocess (snd requested) /\
     (List.length (fst sheet) <= 31)%nat /\
     (exists rest, fst requested = fst sheet ++ rest) /\
     ((List.length (fst requested) <= 31)%nat -> fst sheet = fst requested) /\
     ((31 < List.length (fst requested))%nat ->
      List.length (fst sheet) = 31%nat))
    dataframes (export_to_excel dataframes) /\
  (forall common rest1 rest2 df1 df2,
     List.length common = 31%nat ->
     map fst (export_to_excel [(common ++ rest1, df1); (common ++ rest2, df2)])
     = [common; common]) /\
  map fst (export_to_excel [(repeat 233%N 40, [])]) = [repeat 233%N 31].
Proof.
  split; [|split; [|reflexivity]].
  - unfold export_to_excel.
    induction dataframes as [|[name df] rest IH]; constructor; [|exact IH].
    cbn [fst snd]. split; [reflexivity|].
    split; [rewrite length_firstn; lia|].
    split; [exists (skipn 31 name); symmetry; apply firstn_skipn|].
    split; [apply firstn_all2|].
    intro H. rewrite length_firstn. lia.
  - intros common rest1 rest2 df1 df2 H. unfold export_to_excel.
    cbn [map fst]. now rewrite !firstn_prefix.
Qed.
End ExportFacts.

(* ================================================================== *)
(** * config.py: what a load assigns *)
(* ================================================================== *)

Module LoadFacts.
Import Yaml Config.

Ltac step_lookup :=
  match goal with
  | |- context [getitem ?v ?k] =>
      let E := fresh "E" in
      destruct (getitem v k) eqn:E; cbn [bind eval assign fst snd] in *
  | |- context [get ?v ?k ?d] =>
      let E := fresh "E" in
      destruct (get v k d) eqn:E; cbn [bind eval assign fst snd] in *
  end.

(** A load that succeeds has found every key, and has assigned to each
    attribute the value under its key; [log_to_console] is the value under
    [logging.console] or, when the key is absent, True.  Nothing of the
    object as it was before the load is left. *)
Theorem loaded_attributes (config : value) (self self' : AnalyzerConfig) :
  _load_pml_config (Some config) self = (self', Loaded) ->
  exists app analyzer excluded database output logging,
    getitem config "app" = Some app /\
    getitem config "analyzer" = Some analyzer /\
    getitem analyzer "excluded" = Some excluded /\
    getitem analyzer "database" = Some database /\
    getitem config "output" = Some output /\
    getitem config "logging" = Some logging /\
    getitem app "name" = Some (app_name self') /\
    getitem app "lib_dir" = Some (lib_dir self') /\
    getitem excluded "dirs" = Some (excluded_dirs self') /\
    getitem excluded "files" = Some (excluded_files self') /\
    getitem database "dir" = Some (db_dir self') /\
    getitem database "name" = Some (db_name self') /\
    getitem database "cleanup_on_start" = Some (cleanup_on_start self') /\
    getitem output "doc_dir" = Some (output_doc_dir self') /\
    getitem output "reports_dir" = Some (output_reports_dir self') /\
    getitem output "temp_dir" = Some (output_temp_dir self') /\
    getitem logging "level" = Some (log_level self') /\
    getitem logging "file" = Some (log_file self') /\
    get logging "console" (Bool true) = Some (log_to_console self').
Proof.
  unfold _load_pml_config, load_body.
  cbn [bind eval assign fst snd].
  repeat (step_lookup; [|discriminate]).
  intros [= <-]. do 6 eexists. repeat split; eassumption.
Qed.
(** The load of the complete sample document. *)
Lemma loaded_attributes_witness :
  exists app analyzer excluded database output logging,
    getitem complete "app" = Some app /\
    getitem complete "analyzer" = Some analyzer /\
    getitem analyzer "excluded" = Some excluded /\
    getitem analyzer "database" = Some database /\
    getitem complete "output" = Some output /\
    getitem complete "logging" = Some logging /\
    getitem app "name" = Some (app_name (__init__ (Some complete))) /\
    getitem app "lib_dir" = Some (lib_dir (__init__ (Some complete))) /\
    getitem excluded "dirs" = Some (excluded_dirs (__init__ (Some complete))) /\
    getitem excluded "files" = Some (excluded_files (__init__ (Some complete))) /\
    getitem database "dir" = Some (db_dir (__init__ (Some complete))) /\
    getitem database "name" = Some (db_name (__init__ (Some complete))) /\
    getitem database "cleanup_on_start"
    = Some (cleanup_on_start (__init__ (Some complete))) /\
    getitem output "doc_dir" = Some (output_doc_dir (__init__ (Some complete))) /\
    getitem output "reports_dir"
    = Some (output_reports_dir (__init__ (Some complete))) /\
    getitem output "temp_dir" = Some (output_temp_dir (__init__ (Some complete))) /\
    getitem logging "level" = Some (log_level (__init__ (Some complete))) /\
    getitem logging "file" = Some (log_file (__init__ (Some complete))) /\
    get logging "console" (Bool true)
    = Some (log_to_console (__init__ (Some complete))).
Proof.
  apply (loaded_attributes complete defaults (__init__ (Some complete))).
  reflexivity.
Defined.

Ltac stops_at n :=
  exists n; cbn;
  split; [reflexivity|]; split; [reflexivity|]; right; split; reflexivity.

Ltac look k n :=
  match goal with
  | |- context [getitem ?v k] =>
      destruct (getitem v k) eqn:?;
      cbn [bind eval assign fst snd ConfigKeys.sub]; [|stops_at n]
  end.

(** A load assigns the attributes in order and stops at the first one whose
    entry is missing: the attributes before it hold their entries, that one
    and all after it are as they were, whatever the document holds for them.
    The load succeeds exactly when no entry is missing. *)
Theorem load_stops_at_first_missing_entry
        (document : option value) (self : AnalyzerConfig) :
  exists n : nat,
    firstn n (map Some (ConfigKeys.attributes (fst (_load_pml_config document self))))
    = firstn n (ConfigKeys.entries document) /\
    skipn n (ConfigKeys.attributes (fst (_load_pml_config document self)))
    = skipn n (ConfigKeys.attributes self) /\
    ((n = 13%nat /\ snd (_load_pml_config document self) = Loaded) \/
     (nth_error (ConfigKeys.entries document) n = Some None /\
      snd (_load_pml_config document self) = DefaultsAnnounced)).
Proof.
  unfold _load_pml_config, load_body, ConfigKeys.entries.
  destruct document as [config|]; [|stops_at 0%nat].
  cbn [bind eval assign fst snd ConfigKeys.sub].
  look "app" 0%nat. look "name" 0%nat. look "lib_dir" 1%nat.
  look "analyzer" 2%nat. look "excluded" 2%nat.
  look "dirs" 2%nat. look "files" 3%nat.
  look "database" 4%nat.
  look "dir" 4%nat. look "name" 5%nat. look "cleanup_on_start" 6%nat.
  look "output" 7%nat.
  look "doc_dir" 7%nat. look "reports_dir" 8%nat. look "temp_dir" 9%nat.
  look "logging" 10%nat. look "level" 10%nat. look "file" 11%nat.
  match goal with
  | |- context [get ?v ?k ?d] => destruct (get v k d) eqn:?; [|stops_at 12%nat]
  end.
  exists 13%nat. cbn.
  split; [reflexivity|]. split; [reflexivity|]. left. split; reflexivity.
Qed.
End LoadFacts.

(* ================================================================== *)
(** * doc_analyzer.py: the records and the summary *)
(* ================================================================== *)

Module SummaryFacts.
Import Python DocAnalyzer PosixPath DocSummary.
Local Open Scope list_scope.

Lemma leb_le (a b : string) : String.leb a b = true -> Text.le a b.
Proof.
  unfold String.leb, Text.le, Text.lt.
  destruct (String.compare a b) eqn:E; try discriminate; intros _.
  - right. now apply TextFacts.compare_eq.
  - now left.
Qed.

Lemma leb_ge (a b : string) : String.leb a b = false -> Text.le b a.
Proof.
  unfold String.leb, Text.le, Text.lt.
  destruct (String.compare a b) eqn:E; try discriminate; intros _.
  left. now apply TextFacts.compare_gt_lt.
Qed.

Lemma add_to_folder_keys folder d folders :
  forall k, In k (map fst (add_to_folder folder d folders)) <->
            k = folder \/ In k (map fst folders).
Proof.
  induction folders as [|[f ds] rest IH]; intro k; simpl.
  - intuition.
  - destruct (String.eqb_spec f folder) as [->|Hne]; simpl.
    + intuition.
    + rewrite IH. intuition.
Qed.

Lemma add_to_folder_inv folder d folders :
  dirname (path d) = folder ->
  NoDup (map fst folders) -> Forall folder_ok folders ->
  NoDup (map fst (add_to_folder folder d folders)) /\
  Forall folder_ok (add_to_folder folder d folders) /\
  Permutation (d :: flat_map snd folders)
              (flat_map snd (add_to_folder folder d folders)).
Proof.
  intro Hd. induction folders as [|[f ds] rest IH]; intros Hnd Hok; simpl.
  - split; [repeat constructor; auto|]. split; [|reflexivity].
    repeat constructor; simpl; [discriminate | exact Hd].
  - apply NoDup_cons_iff in Hnd as [Hf Hrest].
    apply Forall_cons_iff in Hok as [[Hne Hall] Hokr]. simpl in *.
    destruct (String.eqb_spec f folder) as [E|Hneq]; simpl.
    + subst f. split; [now constructor|]. split.
      * constructor; [|exact Hokr]. split; simpl.
        -- intro E. now apply app_eq_nil in E as [_ E].
        -- apply Forall_app. split; [exact Hall | now repeat constructor].
      * rewrite <- app_assoc. simpl.
        apply Permutation_cons_app. reflexivity.
    + destruct (IH Hrest Hokr) as (N & O & P). split; [|split].
      * constructor; [|exact N]. intro Hin.
        apply add_to_folder_keys in Hin as [E|Hin]; [congruence | contradiction].
      * constructor; [|exact O]. split; assumption.
      * rewrite <- P. apply Permutation_middle.
Qed.

Lemma group_inv (docs : list doc_record) :
  NoDup (map fst (group docs)) /\ Forall folder_ok (group docs) /\
  Permutation docs (flat_map snd (group docs)).
Proof.
  unfold group.
  assert (H : forall acc seen,
    NoDup (map fst acc) -> Forall folder_ok acc ->
    Permutation seen (flat_map snd acc) ->
    let r := fold_left (fun folders d => add_to_folder (dirname (path d)) d folders)
                       docs acc in
    NoDup (map fst r) /\ Forall folder_ok r /\
    Permutation (seen ++ docs) (flat_map snd r)).
  { induction docs as [|d docs IH]; intros acc seen N O P; simpl.
    - rewrite app_nil_r. auto.
    - destruct (add_to_folder_inv (dirname (path d)) d acc eq_refl N O)
        as (N' & O' & P').
      specialize (IH _ (seen ++ [d]) N' O').
      rewrite <- app_assoc in IH. simpl in IH. apply IH.
      rewrite <- P'. rewrite <- P. symmetry. apply Permutation_cons_append. }
  apply (H [] []); constructor.
Qed.
Lemma strict_of_nodup {A} (key : A -> string) (l : list A) :
  NoDup (map key l) ->
  StronglySorted (fun a b => Text.le (key a) (key b)) l ->
  StronglySorted (fun a b => Text.lt (key a) (key b)) l.
Proof.
  induction l as [|x l IH]; intros Hnd Hs; [constructor|].
  apply NoDup_cons_iff in Hnd as [Hx Hnd].
  apply StronglySorted_inv in Hs as [Hs Hall].
  constructor; [auto|].
  rewrite Forall_forall in *. intros y Hy.
  destruct (Hall y Hy) as [L|E]; [exact L|].
  exfalso. apply Hx. rewrite E. now apply in_map.
Qed.

Lemma texts_app (a b : list piece) : texts (a ++ b) = texts a ++ texts b.
Proof.
  induction a as [|[| | |t] a IH]; simpl; auto. now rewrite IH.
Qed.

Lemma texts_of_records (ds : list doc_record) :
  texts (flat_map (fun d => [FileHeading (basename (path d)); DocText (doc d)]) ds)
  = map doc ds.
Proof. induction ds as [|d ds IH]; simpl; [reflexivity | now rewrite IH]. Qed.

(** The summary shows every record once.  Its folders are in strictly
    increasing order, so no heading comes twice; each folder has at least
    one record, holds only records of its directory, and shows them in the
    order of their paths; the records written straight under the source root
    are under the label Root. *)
Theorem summary_sections (docs : list doc_record) :
  Permutation docs (flat_map snd (sections docs)) /\
  StronglySorted (fun a b => Text.lt (fst a) (fst b)) (sections docs) /\
  Forall (fun s =>
    folder_ok s /\
    StronglySorted (fun a b => Text.le (path a) (path b)) (snd s))
    (sections docs) /\
  Permutation (map doc docs) (texts (generate_summary docs)) /\
  (forall s, In s (sections docs) ->
     (folder_label (fst s) = "Root" <-> fst s = "" \/ fst s = "Root")).
Proof.
  destruct (group_inv docs) as (N & O & P).
  set (sorted := OrderBy.order_by folder_leb (group docs)).
  assert (Ps : Permutation (group docs) sorted)
    by apply OrderByFacts.order_by_perm.
  assert (Pin : forall ds, Permutation ds (OrderBy.order_by path_leb ds))
    by (intro; apply OrderByFacts.order_by_perm).
  assert (Pflat : Permutation (flat_map snd sorted) (flat_map snd (sections docs))).
  { unfold sections. fold sorted. clear. induction sorted as [|[f ds] l IH]; simpl.
    - constructor.
    - apply Permutation_app; [apply OrderByFacts.order_by_perm | exact IH]. }
  assert (Hperm : Permutation docs (flat_map snd (sections docs))).
  { eapply Permutation_trans; [exact P|].
    eapply Permutation_trans; [|exact Pflat].
    now apply Permutation_flat_map. }
  split; [exact Hperm|]. split; [|split; [|split]].
  - unfold sections. fold sorted.
    apply OrderByFacts.StronglySorted_map
      with (R := fun a b : string * list doc_record => Text.lt (fst a) (fst b));
      [auto|].
    apply (strict_of_nodup fst).
    + eapply Permutation_NoDup; [apply Permutation_map; exact Ps | exact N].
    + unfold sorted. apply OrderByFacts.order_by_strongly_sorted.
      * intros a b. apply leb_le.
      * intros a b. apply leb_ge.
      * intros a b c. apply TextFacts.le_trans.
  - unfold sections. fold sorted. apply Forall_forall. intros s Hs.
    apply in_map_iff in Hs as [[f ds] [<- Hin]]. cbn [fst snd].
    assert (Hok : folder_ok (f, ds)).
    { rewrite Forall_forall in O. apply O.
      eapply Permutation_in; [symmetry; exact Ps | exact Hin]. }
    destruct Hok as [Hne Hall]. cbn [fst snd] in *. split; [split|].
    + cbn [snd]. intro E. apply Hne.
      apply Permutation_nil. rewrite <- E. symmetry. apply Pin.
    + cbn [fst snd]. rewrite Forall_forall in *. intros d Hd. apply Hall.
      eapply Permutation_in; [symmetry; apply Pin | exact Hd].
    + apply OrderByFacts.order_by_strongly_sorted.
      * intros a b. apply leb_le.
      * intros a b. apply leb_ge.
      * intros a b c. apply TextFacts.le_trans.
  - unfold generate_summary. cbn [texts].
    eapply Permutation_trans; [exact (Permutation_map doc Hperm)|].
    clear. induction (sections docs) as [|[f ds] l IH]; [constructor|].
    cbn [flat_map fst snd]. rewrite map_app, texts_app. cbn [texts app].
    rewrite texts_of_records. now apply Permutation_app_head.
  - intros s _. unfold folder_label.
    destruct (String.eqb_spec (fst s) "") as [E|Hne].
    + split; auto.
    + split; [auto|]. intros [E|E]; [contradiction | exact E].
Qed.
End SummaryFacts.

(* ================================================================== *)
(** * doc_analyzer.py: what the scan reads and records *)
(* ================================================================== *)

Module RecordFacts.
Import Python DocAnalyzer DocSpec.

Lemma string_length_app (a b : string) :
  String.length (a ++ b) = (String.length a + String.length b)%nat.
Proof. induction a as [|c a IH]; simpl; [reflexivity | now rewrite IH]. Qed.

Lemma substring_after (a b : string) :
  substring (String.length a) (String.length b) (a ++ b) = b.
Proof.
  induction a as [|c a IH]; simpl; [|exact IH].
  apply ExportFacts.substring_start_all. constructor.
Qed.

Lemma substring_cut (k : nat) (s : string) :
  (k <= String.length s)%nat ->
  s = (substring 0 k s ++ substring k (String.length s - k) s)%string.
Proof.
  revert s. induction k as [|k IH]; intros s Hk.
  - rewrite Nat.sub_0_r. simpl.
    replace (substring 0 0 s) with ""%string by (destruct s; reflexivity).
    simpl. symmetry. apply ExportFacts.substring_start_all. constructor.
  - destruct s as [|c s]; simpl in Hk; [lia|].
    simpl. f_equal. apply IH. lia.
Qed.

(** [s.endswith(suffix)] says that [s] is some text followed by [suffix]. *)
Lemma endswith_spec (s suffix : string) :
  endswith s suffix = true <-> exists front, s = (front ++ suffix)%string.
Proof.
  unfold endswith. rewrite andb_true_iff, Nat.leb_le, String.eqb_eq. split.
  - intros [Hle E]. exists (substring 0 (String.length s - String.length suffix) s).
    assert (Hk : (String.length s - String.length suffix <= String.length s)%nat)
      by lia.
    pose proof (substring_cut _ s Hk) as C.
    replace (String.length s - (String.length s - String.length suffix))%nat
      with (String.length suffix) in C by lia.
    now rewrite E in C.
  - intros [front ->]. rewrite string_length_app. split; [lia|].
    replace (String.length front + String.length suffix - String.length suffix)%nat
      with (String.length front) by lia.
    apply substring_after.
Qed.

Lemma string_app_assoc (a b c : string) :
  ((a ++ b) ++ c = a ++ (b ++ c))%string.
Proof. induction a as [|x a IH]; simpl; [reflexivity | now rewrite IH]. Qed.

(** A joined path ends as its last component ends. *)
Lemma join_endswith (a b suffix : string) :
  endswith b suffix = true -> endswith (join a b) suffix = true.
Proof.
  intro H. apply endswith_spec in H as [front ->]. apply endswith_spec.
  unfold join.
  destruct (startswith (front ++ suffix) "/"); [now exists front|].
  destruct (String.eqb a "" || endswith a "/").
  - exists (a ++ front)%string. now rewrite string_app_assoc.
  - exists (a ++ "/" ++ front)%string. now rewrite !string_app_assoc.
Qed.

Section Records.
Variable lib_path : string.
Variable excluded_dirs excluded_files : list string.
Variable relpath : string -> string -> string.
Variable read : string -> option pystr.

Local Open Scope list_scope.

Let records_of (file : string) : list doc_record :=
  process_file lib_path relpath read file [].

Lemma process_file_appends_records (file : string) (docs : list doc_record) :
  process_file lib_path relpath read file docs = docs ++ records_of file.
Proof.
  unfold records_of, process_file.
  destruct (read file) as [content|]; [|now rewrite app_nil_r].
  destruct (extract_claude_doc content) as [[|c d]|]; cbn [app];
    now rewrite ?app_nil_r.
Qed.

Lemma scan_directory_flat (t : tree) :
  scan_directory lib_path excluded_dirs excluded_files relpath read t
  = flat_map records_of (walk excluded_dirs excluded_files lib_path t).
Proof.
  unfold scan_directory.
  assert (H : forall files acc,
    fold_left (fun docs file => process_file lib_path relpath read file docs)
              files acc
    = acc ++ flat_map records_of files).
  { induction files as [|f files IH]; intro acc; simpl.
    - now rewrite app_nil_r.
    - rewrite IH, process_file_appends_records. now rewrite <- app_assoc. }
  apply (H _ []).
Qed.

Lemma records_of_spec (file : string) (r : doc_record) :
  In r (records_of file) ->
  exists content,
    read file = Some content /\
    extract_claude_doc content = Some (doc r) /\
    path r = relpath file lib_path /\ doc r <> [] /\ records_of file = [r].
Proof.
  unfold records_of, process_file.
  destruct (read file) as [content|]; [|intros []].
  destruct (extract_claude_doc content) as [[|c d]|] eqn:E.
  - intros [].
  - cbn [app]. intros [<-|[]]. exists content. cbn [doc path].
    split; [reflexivity|]. split; [exact E|]. split; [reflexivity|].
    split; [discriminate | reflexivity].
  - intros [].
Qed.
Lemma records_of_length (file : string) :
  (List.length (records_of file) <= 1)%nat /\
  (read file = None -> records_of file = []).
Proof.
  unfold records_of, process_file.
  destruct (read file) as [content|]; [|split; [simpl; lia | reflexivity]].
  split; [|discriminate].
  destruct (extract_claude_doc content) as [[|c d]|]; simpl; lia.
Qed.

Lemma extract_is_trimmed (content text : pystr) :
  extract_claude_doc content = Some text ->
  (forall c rest, text = c :: rest -> isspace c = false) /\
  (forall c front, text = front ++ [c] -> isspace c = false).
Proof.
  unfold extract_claude_doc.
  destruct (Re.search pattern content) as [g|]; [|discriminate].
  intros [= <-]. destruct (DocFacts.strip_trimmed g) as (l & r & _ & _ & _ & H1 & H2).
  auto.
Qed.

(** [process_file] never touches the records it was given: it returns them
    followed by at most one new record, for the file it was called with, and
    by none when the file cannot be read. *)
Theorem process_file_only_appends (file : string) (docs : list doc_record) :
  exists new,
    process_file lib_path relpath read file docs = docs ++ new /\
    (List.length new <= 1)%nat /\
    (read file = None -> new = []) /\
    (forall r, In r new -> path r = relpath file lib_path /\ doc r <> []).
Proof.
  exists (records_of file). split; [apply process_file_appends_records|].
  destruct (records_of_length file) as [L N]. split; [exact L|].
  split; [exact N|]. intros r Hr.
  destruct (records_of_spec file r Hr) as (content & _ & _ & Hp & Hd & _). auto.
Qed.

(** The records of a scan are the records of the visited files, file by
    file in the order of the walk, so a file that cannot be read or holds no
    block takes nothing from the others.  There are at most as many records
    as visited files, and every record has the relative path of a visited
    file and a text that is not empty and neither starts nor ends with white
    space. *)
Theorem scan_directory_records (t : tree) :
  scan_directory lib_path excluded_dirs excluded_files relpath read t
  = flat_map (fun file => process_file lib_path relpath read file [])
             (walk excluded_dirs excluded_files lib_path t) /\
  (List.length (scan_directory lib_path excluded_dirs excluded_files relpath read t)
   <= List.length (walk excluded_dirs excluded_files lib_path t))%nat /\
  Forall (fun r =>
    doc r <> [] /\
    (forall c rest, doc r = c :: rest -> isspace c = false) /\
    (forall c front, doc r = front ++ [c] -> isspace c = false) /\
    exists file content,
      In file (walk excluded_dirs excluded_files lib_path t) /\
      read file = Some content /\
      extract_claude_doc content = Some (doc r) /\
      path r = relpath file lib_path)
    (scan_directory lib_path excluded_dirs excluded_files relpath read t).
Proof.
  rewrite scan_directory_flat. split; [reflexivity|]. split.
  - induction (walk excluded_dirs excluded_files lib_path t) as [|f files IH];
      [constructor|].
    cbn [flat_map]. rewrite length_app. cbn [List.length].
    destruct (records_of_length f) as [L _]. lia.
  - apply Forall_forall. intros r Hr.
    apply in_flat_map in Hr as (file & Hfile & Hr).
    destruct (records_of_spec file r Hr) as (content & Hread & He & Hp & Hd & _).
    destruct (extract_is_trimmed content (doc r) He) as [H1 H2].
    split; [exact Hd|]. split; [exact H1|]. split; [exact H2|].
    exists file, content. auto.
Qed.
End Records.

(** Every path the scan hands to [process_file] ends with ".dart". *)
Theorem walked_paths_end_with_dart
        (excluded_dirs excluded_files : list string) (root : string) (t : tree) :
  Forall (fun p => endswith p ".dart" = true)
         (walk excluded_dirs excluded_files root t).
Proof.
  apply Forall_forall. intros p Hp.
  apply ScanFacts.walk_spec in Hp as (dirs & name & _ & -> & Hd & _).
  now apply join_endswith.
Qed.
End RecordFacts.

(* ================================================================== *)
(** * schema_doc_analyzer.py: the table catalog *)
(* ================================================================== *)

Module SchemaFacts.
Import SchemaTables.
Local Open Scope list_scope.
Local Open Scope char_scope.

Lemma like_percent (s : list ascii) : like ["%"] s = true.
Proof.
  induction s as [|x s IH]; [reflexivity|].
  change (like ["%"] (x :: s)) with (like [] (x :: s) || like ["%"] s)%bool.
  rewrite IH. apply orb_true_r.
Qed.

Lemma like_letter (c : ascii) (pat : list ascii) (x : ascii) (s : list ascii) :
  Ascii.eqb c "%" = false -> Ascii.eqb c "_" = false ->
  like (c :: pat) (x :: s) = (Ascii.eqb (lower x) (lower c) && like pat s)%bool.
Proof. intros H1 H2. cbn [like]. now rewrite H1, H2. Qed.

Lemma like_letter_nil (c : ascii) (pat : list ascii) :
  Ascii.eqb c "%" = false -> Ascii.eqb c "_" = false -> like (c :: pat) [] = false.
Proof. intros H1 H2. cbn [like]. now rewrite H1, H2. Qed.

(** The names the pattern ['sqlite_%'] matches: "sqlite" in any letter case,
    followed by at least one more character. *)
Lemma like_sqlite (name : list ascii) :
  like (list_ascii_of_string "sqlite_%") name = true <->
  exists head c tail,
    name = head ++ c :: tail /\
    map lower head = list_ascii_of_string "sqlite".
Proof.
  change (list_ascii_of_string "sqlite_%")
    with ["s"; "q"; "l"; "i"; "t"; "e"; "_"; "%"].
  change (list_ascii_of_string "sqlite") with ["s"; "q"; "l"; "i"; "t"; "e"].
  split.
  - intro H.
    do 6 (destruct name as [|? name];
          [rewrite like_letter_nil in H by reflexivity; discriminate H|];
          rewrite like_letter in H by reflexivity;
          apply andb_true_iff in H as [?E H]).
    repeat match goal with
           | Hc : Ascii.eqb _ _ = true |- _ => apply Ascii.eqb_eq in Hc
           end.
    destruct name as [|c tail]; [discriminate H|].
    exists [a; a0; a1; a2; a3; a4], c, tail. split; [reflexivity|].
    cbn [map]. rewrite E, E0, E1, E2, E3, E4. reflexivity.
  - intros (head & c & tail & -> & Hh).
    do 6 (destruct head as [|? head]; [discriminate Hh|];
          cbn [map] in Hh; injection Hh as ?E Hh).
    destruct head; [|discriminate Hh]. cbn [app].
    rewrite !like_letter by reflexivity.
    rewrite E, E0, E1, E2, E3, E4. cbn [lower]. 
    repeat (rewrite Ascii.eqb_refl; cbn [andb]).
    apply like_percent.
Qed.
Lemma describe_some (name : string) :
  describe descriptions name <> None <-> In name (map fst descriptions).
Proof.
  unfold descriptions. cbn [describe map fst]. split.
  - intro H.
    repeat match goal with
           | H : context [String.eqb ?k name] |- _ =>
               destruct (String.eqb_spec k name);
               [subst name; cbn [In]; tauto|]
           end.
    contradiction.
  - intros Hin. cbn [In] in Hin.
    decompose [or] Hin; try contradiction; subst name; cbn; discriminate.
Qed.

(** The table sheet lists, in catalog order, the catalog rows of type
    'table' whose name is not "sqlite" (in any letter case) followed by at
    least one character.  A listed table has a description exactly when its
    name is one of the eight documented names, and each of those names, when
    the catalog holds it as a table, is listed. *)
Theorem tables_are_listed (master : list master_row) :
  (forall info,
     In info (get_tables_info master) <->
     exists r, In r master /\ m_type r = "table"%string /\
       ~ (exists head c tail,
            list_ascii_of_string (m_name r) = head ++ c :: tail /\
            map lower head = list_ascii_of_string "sqlite") /\
       info = {| table_name := m_name r; create_statement := m_sql r;
                 description := describe descriptions (m_name r) |}) /\
  (forall info, In info (get_tables_info master) ->
     (description info <> None <->
      In (table_name info)
         ["source_files"; "file_imports"; "file_import_relations"; "classes";
          "class_methods"; "class_documentations"; "class_usage_references";
          "method_usage_references"]%string)) /\
  (forall r, In r master -> m_type r = "table"%string ->
     In (m_name r) (map fst descriptions) ->
     exists info, In info (get_tables_info master) /\
                  table_name info = m_name r /\ description info <> None) /\
  map table_name (get_tables_info master)
  = map m_name (filter is_listed master).
Proof.
  assert (Hlisted : forall r, is_listed r = true <->
    m_type r = "table"%string /\
    ~ (exists head c tail,
         list_ascii_of_string (m_name r) = head ++ c :: tail /\
         map lower head = list_ascii_of_string "sqlite")).
  { intro r. unfold is_listed.
    rewrite andb_true_iff, negb_true_iff, String.eqb_eq.
    rewrite <- not_true_iff_false, like_sqlite. reflexivity. }
  split; [|split; [|split]].
  - intro info. unfold get_tables_info. rewrite in_map_iff. split.
    + intros (r & <- & Hr). apply filter_In in Hr as [Hin Hl].
      apply Hlisted in Hl as [Ht Hn]. exists r. auto.
    + intros (r & Hin & Ht & Hn & ->). exists r. split; [reflexivity|].
      apply filter_In. split; [exact Hin|]. apply Hlisted. auto.
  - intros info Hin. unfold get_tables_info in Hin.
    apply in_map_iff in Hin as (r & <- & _). cbn [description table_name].
    apply describe_some.
  - intros r Hin Ht Hname.
    exists {| table_name := m_name r; create_statement := m_sql r;
              description := describe descriptions (m_name r) |}.
    split; [|split; [reflexivity|]].
    + unfold get_tables_info. apply in_map_iff. exists r. split; [reflexivity|].
      apply filter_In. split; [exact Hin|].
      unfold is_listed. rewrite Ht, String.eqb_refl. cbn [andb].
      unfold descriptions in Hname. cbn [map fst In] in Hname.
      decompose [or] Hname; try contradiction;
        match goal with E : _ = m_name r |- _ => rewrite <- E end;
        vm_compute; reflexivity.
    + cbn [description]. now apply describe_some.
  - unfold get_tables_info. now rewrite map_map.
Qed.
End SchemaFacts.

(* ================================================================== *)
(** * config.py and viewmermaid.py: the names of the files written *)
(* ================================================================== *)

Module NameFacts.
Import Yaml Config Python PosixPath.
Local Open Scope string_scope.

Lemma string_app_inv_head (a x y : string) : a ++ x = a ++ y -> x = y.
Proof. induction a as [|c a IH]; simpl; [auto|]. intros [= H]. auto. Qed.

Lemma string_app_inv_tail (x y z : string) : x ++ z = y ++ z -> x = y.
Proof.
  revert y. induction x as [|c x IH]; intros [|d y] H; simpl in H.
  - reflexivity.
  - exfalso. apply (f_equal String.length) in H.
    simpl in H. rewrite RecordFacts.string_length_app in H. lia.
  - exfalso. apply (f_equal String.length) in H.
    simpl in H. rewrite RecordFacts.string_length_app in H. lia.
  - injection H as -> H. f_equal. now apply IH.
Qed.

(** The four report files have four different names, whatever the
    application name, and the names depend on the application name only. *)
Theorem report_names_differ (format : value -> string) (self : AnalyzerConfig) :
  NoDup [ ConfigPaths.documentation_file format self;
          ConfigPaths.markdown_documentation_file format self;
          ConfigPaths.dart_analysis_file format self;
          ConfigPaths.audit_report_file format self ] /\
  forall other, app_name other = app_name self ->
    ConfigPaths.documentation_file format other
    = ConfigPaths.documentation_file format self /\
    ConfigPaths.markdown_documentation_file format other
    = ConfigPaths.markdown_documentation_file format self /\
    ConfigPaths.dart_analysis_file format other
    = ConfigPaths.dart_analysis_file format self /\
    ConfigPaths.audit_report_file format other
    = ConfigPaths.audit_report_file format self.
Proof.
  unfold ConfigPaths.documentation_file, ConfigPaths.markdown_documentation_file,
    ConfigPaths.dart_analysis_file, ConfigPaths.audit_report_file.
  split.
  - repeat constructor; cbn [In]; intro H;
      decompose [or] H; try contradiction;
      match goal with E : _ ++ _ = _ ++ _ |- _ =>
        apply string_app_inv_head in E; discriminate E end.
  - intros other ->. auto.
Qed.

(** ** log_path: the directory two levels above the log file *)

Lemma split_last_no_slash (x : string) :
  no_slash x = true -> split_last x = ("", x).
Proof.
  induction x as [|c x IH]; [reflexivity|].
  cbn [no_slash split_last]. intro H. apply andb_true_iff in H as [Hc Hx].
  rewrite (IH Hx). apply negb_true_iff in Hc. now rewrite Hc.
Qed.

Lemma split_last_component (h x : string) :
  no_slash x = true -> split_last (h ++ "/" ++ x) = (h ++ "/", x).
Proof.
  intro Hx. induction h as [|c h IH].
  - change ("" ++ "/" ++ x) with (String "/" x). cbn [split_last].
    now rewrite (split_last_no_slash x Hx).
  - change (String c h ++ "/" ++ x) with (String c (h ++ "/" ++ x)).
    cbn [split_last]. rewrite IH. now destruct h.
Qed.

Lemma rstrip_slashes_keep (d : string) (c : ascii) :
  c <> "/"%char ->
  rstrip_slashes ((d ++ String c "") ++ "/") = d ++ String c "".
Proof.
  intro Hc. apply Ascii.eqb_neq in Hc. induction d as [|x d IH].
  - cbn. now rewrite Hc.
  - change ((String x d ++ String c "") ++ "/")
      with (String x ((d ++ String c "") ++ "/")).
    cbn [rstrip_slashes]. rewrite IH. now destruct d.
Qed.

Lemma all_slashes_false (d s : string) (c : ascii) :
  c <> "/"%char -> all_slashes ((d ++ String c "") ++ s) = false.
Proof.
  intro Hc. apply Ascii.eqb_neq in Hc. induction d as [|x d IH].
  - cbn. now rewrite Hc.
  - change ((String x d ++ String c "") ++ s)
      with (String x ((d ++ String c "") ++ s)).
    cbn [all_slashes]. rewrite IH. apply andb_false_r.
Qed.

Lemma dirname_component (d x : string) (c : ascii) :
  c <> "/"%char -> no_slash x = true ->
  dirname ((d ++ String c "") ++ "/" ++ x) = d ++ String c "".
Proof.
  intros Hc Hx. unfold dirname. rewrite (split_last_component _ x Hx).
  cbn [fst]. rewrite (all_slashes_false d "/" c Hc).
  assert (E : (((d ++ String c "") ++ "/") =? "") = false) by now destruct d.
  rewrite E. cbn [negb andb]. now apply rstrip_slashes_keep.
Qed.

Lemma last_character (s : string) :
  s <> "" -> exists front c, s = front ++ String c "".
Proof.
  induction s as [|x s IH]; [congruence|]. intros _.
  destruct s as [|y s].
  - now exists "", x.
  - destruct IH as (front & c & E); [discriminate|].
    exists (String x front), c. cbn [append]. now rewrite <- E.
Qed.

Lemma no_slash_last (front : string) (c : ascii) :
  no_slash (front ++ String c "") = true -> c <> "/"%char.
Proof.
  induction front as [|x front IH]; cbn [append no_slash]; intro H;
    apply andb_true_iff in H as [H1 H2]; [|auto].
  apply negb_true_iff in H1. now apply Ascii.eqb_neq.
Qed.

Lemma not_endswith_slash (front : string) (c : ascii) :
  endswith (front ++ String c "") "/" = false -> c <> "/"%char.
Proof.
  intros H ->.
  assert (T : endswith (front ++ "/") "/" = true)
    by (apply RecordFacts.endswith_spec; now exists front).
  congruence.
Qed.

(** [log_path] does not return the path of the log file.  For a log file
    [dir/sub/name], where [dir] does not end with a slash and [sub] and
    [name] are single components, it returns [dir]: the directory two levels
    above the file.  An attribute that is not a str makes it raise. *)
Theorem log_path_is_grandparent
        (self : AnalyzerConfig) (dir sub name : string) :
  dir <> "" -> endswith dir "/" = false ->
  sub <> "" -> no_slash sub = true -> no_slash name = true ->
  log_file self = Str (dir ++ "/" ++ sub ++ "/" ++ name) ->
  ConfigPaths.log_path self = Some dir.
Proof.
  intros Hd Hend Hs Hsub Hname E.
  unfold ConfigPaths.log_path. rewrite E. f_equal.
  destruct (last_character dir Hd) as (d & c & ->).
  destruct (last_character sub Hs) as (s & k & ->).
  pose proof (not_endswith_slash d c Hend) as Hc.
  pose proof (no_slash_last s k Hsub) as Hk.
  replace ((d ++ String c "") ++ "/" ++ (s ++ String k "") ++ "/" ++ name)
    with ((((d ++ String c "") ++ "/" ++ s) ++ String k "") ++ "/" ++ name)
    by now rewrite !RecordFacts.string_app_assoc.
  rewrite (dirname_component _ name k Hk Hname).
  replace (((d ++ String c "") ++ "/" ++ s) ++ String k "")
    with ((d ++ String c "") ++ "/" ++ (s ++ String k ""))
    by now rewrite !RecordFacts.string_app_assoc.
  now apply dirname_component.
Qed.

(** The default configuration logs to pmlutils/logs/analysis.log, and its
    [log_path] is pmlutils. *)
Lemma log_path_is_grandparent_witness :
  ConfigPaths.log_path defaults = Some "pmlutils".
Proof.
  apply (log_path_is_grandparent defaults "pmlutils" "logs" "analysis.log");
    solve [discriminate | reflexivity].
Defined.

(** ** The temporary file of the Mermaid renderer *)

Lemma join_inv (a b b' : string) :
  startswith b "/" = false -> startswith b' "/" = false ->
  join a b = join a b' -> b = b'.
Proof.
  unfold join. intros -> ->.
  destruct ((a =? "") || endswith a "/"); intro H.
  - now apply string_app_inv_head in H.
  - apply string_app_inv_head in H. now injection H.
Qed.

(** The renderer writes a file whose name ends with .html.  A title that is
    missing or empty gives the one untitled file; two different titles give
    two different files, and neither is the untitled file. *)
Theorem temp_file_names (output_dir app : string) :
  let file := MermaidRenderer.temp_file_path output_dir app in
  (forall title, endswith (file title) ".html" = true) /\
  file (Some "") = file None /\
  (forall t1 t2, t1 <> "" -> t2 <> "" ->
     file (Some t1) = file (Some t2) -> t1 = t2) /\
  (forall t, t <> "" -> file (Some t) <> file None).
Proof.
  cbv zeta. unfold MermaidRenderer.temp_file_path.
  assert (S : forall t, startswith ("mermaid_" ++ app ++ t) "/" = false)
    by reflexivity.
  split; [|split; [|split]].
  - intro title. apply RecordFacts.join_endswith, RecordFacts.endswith_spec.
    destruct title as [[|c t]|].
    + now exists ("mermaid_" ++ app).
    + exists ("mermaid_" ++ app ++ "_" ++ String c t).
      cbn [MermaidRenderer.suffix].
      now rewrite !RecordFacts.string_app_assoc.
    + now exists ("mermaid_" ++ app).
  - reflexivity.
  - intros t1 t2 H1 H2 E. apply join_inv in E; [|apply S|apply S].
    apply (string_app_inv_head "mermaid_"), string_app_inv_head in E.
    destruct t1 as [|c1 t1]; [congruence|].
    destruct t2 as [|c2 t2]; [congruence|].
    cbn [MermaidRenderer.suffix] in E.
    apply (string_app_inv_head "_") in E.
    now apply string_app_inv_tail in E.
  - intros t Ht E. apply join_inv in E; [|apply S|apply S].
    apply (string_app_inv_head "mermaid_"), string_app_inv_head in E.
    destruct t as [|c t]; [congruence|].
    cbn [MermaidRenderer.suffix] in E.
    apply (f_equal String.length) in E.
    cbn [append] in E. cbn [String.length] in E.
    rewrite RecordFacts.string_length_app in E. cbn [String.length] in E. lia.
Qed.
End NameFacts.

(* ================================================================== *)
(** * schema_doc_analyzer.py: the Code_Structure sheet *)
(* ================================================================== *)

Module StructureFacts.
Import Schema Sql CodeStructure.

Lemma null_eqb_eq (a b : option string) : null_eqb a b = true <-> a = b.
Proof.
  destruct a as [x|], b as [y|]; cbn [null_eqb];
    try (split; [discriminate | congruence]); [|tauto].
  rewrite String.eqb_eq. split; congruence.
Qed.

Lemma key_eqb_eq (a b : group_key) : key_eqb a b = true <-> a = b.
Proof.
  destruct a as [[f c] t], b as [[f' c'] t']. unfold key_eqb.
  rewrite !andb_true_iff, String.eqb_eq, !null_eqb_eq.
  split; [intros [[-> ->] ->]; reflexivity | intros [= -> -> ->]; auto].
Qed.

Lemma key_eqb_refl (k : group_key) : key_eqb k k = true.
Proof. now apply key_eqb_eq. Qed.

Lemma distinct_In (k : group_key) (l : list group_key) :
  In k (distinct l) <-> In k l.
Proof.
  induction l as [|x l IH]; [tauto|]. cbn [distinct In].
  rewrite filter_In, IH, negb_true_iff. split.
  - intros [->|[H _]]; auto.
  - intros [->|H]; [now left|].
    destruct (key_eqb x k) eqn:E; [left; now apply key_eqb_eq | auto].
Qed.

Lemma distinct_NoDup (l : list group_key) : NoDup (distinct l).
Proof.
  induction l as [|x l IH]; cbn [distinct]; constructor.
  - rewrite filter_In, key_eqb_refl. intros [_ H]. discriminate H.
  - now apply NoDup_filter.
Qed.

Lemma filter_none {A} (f : A -> bool) (l : list A) :
  (forall x, In x l -> f x = false) -> filter f l = [].
Proof.
  induction l as [|x l IH]; [reflexivity|]. intro H. cbn [filter].
  rewrite (H x) by now left. apply IH. intros y Hy. apply H. now right.
Qed.

Lemma flat_map_none {A B} (f : A -> list B) (l : list A) :
  (forall x, In x l -> f x = []) -> flat_map f l = [].
Proof.
  induction l as [|x l IH]; [reflexivity|]. intro H. cbn [flat_map].
  rewrite (H x) by now left. rewrite IH; [reflexivity|].
  intros y Hy. apply H. now right.
Qed.

(** ** The rows of the two LEFT JOINs *)

Lemma join_methods_class db sf c j :
  In j (join_methods db sf c) -> j_file j = sf /\ j_class j = Some c.
Proof.
  unfold join_methods.
  destruct (filter (fun m => class_id c =? m_class_id m) (class_methods db))
    as [|m ms].
  - intros [<-|[]]. auto.
  - intro H. apply in_map_iff in H as [m' [<- _]]. auto.
Qed.

Lemma join_methods_some db sf c :
  exists j, In j (join_methods db sf c).
Proof.
  unfold join_methods.
  destruct (filter (fun m => class_id c =? m_class_id m) (class_methods db))
    as [|m ms]; eexists; now left.
Qed.

Lemma join_methods_method db sf c m :
  In m (class_methods db) -> m_class_id m = class_id c ->
  In {| j_file := sf; j_class := Some c; j_method := Some m |}
     (join_methods db sf c).
Proof.
  intros Hm E. unfold join_methods.
  assert (F : In m (filter (fun m => class_id c =? m_class_id m)
                           (class_methods db))).
  { apply filter_In. split; [exact Hm|]. rewrite E. apply Z.eqb_refl. }
  destruct (filter (fun m => class_id c =? m_class_id m) (class_methods db))
    as [|m' ms]; [destruct F|].
  exact (in_map (fun m => {| j_file := sf; j_class := Some c;
                             j_method := Some m |}) _ m F).
Qed.

Lemma left_join_of_class db sf c j :
  In sf (source_files db) -> In c (classes db) -> c_file_id c = file_id sf ->
  In j (join_methods db sf c) -> In j (left_join db).
Proof.
  intros Hsf Hc E Hj. unfold left_join. apply in_flat_map.
  exists sf. split; [exact Hsf|].
  assert (F : In c (filter (fun c => file_id sf =? c_file_id c) (classes db))).
  { apply filter_In. split; [exact Hc|]. rewrite E. apply Z.eqb_refl. }
  destruct (filter (fun c => file_id sf =? c_file_id c) (classes db))
    as [|c' cs]; [destruct F|].
  apply in_flat_map. exists c. auto.
Qed.

Lemma left_join_no_class db sf :
  In sf (source_files db) ->
  (forall c, In c (classes db) -> c_file_id c <> file_id sf) ->
  In {| j_file := sf; j_class := None; j_method := None |} (left_join db).
Proof.
  intros Hsf Hno. unfold left_join. apply in_flat_map.
  exists sf. split; [exact Hsf|].
  rewrite filter_none; [now left|].
  intros c Hc. apply Z.eqb_neq. intro E. now apply (Hno c Hc).
Qed.

Lemma left_join_file db sf :
  In sf (source_files db) -> exists j, In j (left_join db) /\ j_file j = sf.
Proof.
  intro Hsf. unfold left_join.
  destruct (filter (fun c => file_id sf =? c_file_id c) (classes db))
    as [|c cs] eqn:F.
  - exists {| j_file := sf; j_class := None; j_method := None |}.
    split; [|reflexivity]. apply in_flat_map. exists sf.
    split; [exact Hsf|]. rewrite F. now left.
  - destruct (join_methods_some db sf c) as [j Hj].
    exists j. split; [|now apply (join_methods_class db sf c)].
    apply in_flat_map. exists sf. split; [exact Hsf|]. rewrite F.
    apply in_flat_map. exists c. split; [now left | exact Hj].
Qed.

(** The columns of [m] are NULL where those of [c] are. *)
Lemma left_join_null_class db j :
  In j (left_join db) -> j_class j = None -> j_method j = None.
Proof.
  unfold left_join. intro H. apply in_flat_map in H as [sf [_ H]].
  destruct (filter (fun c => file_id sf =? c_file_id c) (classes db))
    as [|c cs].
  - destruct H as [<-|[]]. reflexivity.
  - apply in_flat_map in H as [c' [_ H]].
    apply join_methods_class in H as [_ E]. congruence.
Qed.

(** ** Groups and their rows *)

Section Groups.
Variable arrange : list string -> list string.
Hypothesis arrange_perm : forall l, Permutation (arrange l) l.

Lemma columns_of_content db k : columns_of (content_of arrange db k) = k.
Proof. now destruct k as [[f c] t]. Qed.

Lemma group_has_row db j :
  In j (left_join db) ->
  In (content_of arrange db (key_of j)) (get_file_contents arrange db).
Proof.
  intro H. unfold get_file_contents.
  apply OrderByFacts.order_by_In, in_map, distinct_In. now apply in_map.
Qed.

Lemma group_without_class db f :
  method_names db (f, None, None) = [].
Proof.
  unfold method_names. apply flat_map_none. intros j Hj.
  destruct (key_eqb (key_of j) (f, None, None)) eqn:E; [|reflexivity].
  apply key_eqb_eq in E. unfold key_of in E.
  assert (N : j_class j = None).
  { destruct (j_class j); [discriminate E | reflexivity]. }
  now rewrite (left_join_null_class db j Hj N).
Qed.

Lemma arrange_nil : arrange [] = [].
Proof. apply Permutation_nil. symmetry. apply arrange_perm. Qed.

Lemma group_lists_method db j m :
  In j (left_join db) -> j_method j = Some m ->
  exists names,
    cs_methods (content_of arrange db (key_of j))
    = Some (String.concat "," names) /\
    In (method_name m) names.
Proof.
  intros Hj Hm. exists (arrange (method_names db (key_of j))).
  assert (Hin : In (method_name m) (arrange (method_names db (key_of j)))).
  { eapply Permutation_in; [symmetry; apply arrange_perm|].
    unfold method_names. apply in_flat_map. exists j. split; [exact Hj|].
    rewrite key_eqb_refl, Hm. now left. }
  split; [|exact Hin]. cbn [content_of cs_methods].
  destruct (arrange (method_names db (key_of j))); [destruct Hin | reflexivity].
Qed.
End Groups.

(** ** The order of the rows *)

Lemma null_lt_trans a b c : null_lt a b -> null_lt b c -> null_lt a c.
Proof.
  unfold null_lt. destruct a, b, c; cbn [compare_null]; try discriminate; auto.
  apply TextFacts.lt_trans.
Qed.

Lemma compare_null_eq a b : compare_null a b = Eq -> a = b.
Proof.
  destruct a, b; cbn [compare_null]; try discriminate; [|reflexivity].
  intro H. f_equal. now apply TextFacts.compare_eq.
Qed.

Lemma compare_null_gt a b : compare_null a b = Gt -> null_lt b a.
Proof.
  unfold null_lt. destruct a, b; cbn [compare_null]; try discriminate; auto.
  apply TextFacts.compare_gt_lt.
Qed.

Lemma contents_le3_trans a b c :
  contents_le3 a b -> contents_le3 b c -> contents_le3 a c.
Proof.
  unfold contents_le3.
  apply (ListingFacts.lex_trans cs_file Text.lt
           (fun a b =>
              null_lt (cs_class a) (cs_class b) \/
              (cs_class a = cs_class b /\
               (null_lt (cs_type a) (cs_type b) \/ cs_type a = cs_type b)))
           TextFacts.lt_trans).
  clear. intros a b c.
  apply (ListingFacts.lex_trans cs_class null_lt
           (fun a b => null_lt (cs_type a) (cs_type b) \/ cs_type a = cs_type b)
           null_lt_trans).
  clear. intros a b c [H1|H1] [H2|H2].
  - left. eapply null_lt_trans; eauto.
  - left. now rewrite <- H2.
  - left. now rewrite H1.
  - right. congruence.
Qed.

Lemma contents_order_le a b : contents_order a b = true -> contents_le3 a b.
Proof.
  unfold contents_order, no_later, contents_compare, then_by, contents_le3.
  destruct (String.compare (cs_file a) (cs_file b)) eqn:F.
  - apply TextFacts.compare_eq in F.
    destruct (compare_null (cs_class a) (cs_class b)) eqn:C.
    + apply compare_null_eq in C.
      destruct (compare_null (cs_type a) (cs_type b)) eqn:T.
      * apply compare_null_eq in T. intros _. right. split; [exact F|].
        right. split; [exact C|]. now right.
      * intros _. right. split; [exact F|]. right. split; [exact C|].
        now left.
      * discriminate.
    + intros _. right. split; [exact F|]. now left.
    + discriminate.
  - now left.
  - discriminate.
Qed.

Lemma contents_order_ge a b : contents_order a b = false -> contents_le3 b a.
Proof.
  unfold contents_order, no_later, contents_compare, then_by, contents_le3.
  destruct (String.compare (cs_file a) (cs_file b)) eqn:F.
  - apply TextFacts.compare_eq in F.
    destruct (compare_null (cs_class a) (cs_class b)) eqn:C.
    + apply compare_null_eq in C.
      destruct (compare_null (cs_type a) (cs_type b)) eqn:T.
      * discriminate.
      * discriminate.
      * apply compare_null_gt in T. intros _. right.
        split; [now symmetry|]. right. split; [now symmetry|]. now left.
    + discriminate.
    + apply compare_null_gt in C. intros _. right.
      split; [now symmetry|]. now left.
  - discriminate.
  - apply TextFacts.compare_gt_lt in F. now left.
Qed.

Lemma contents_le3_le a b : contents_le3 a b -> contents_le a b.
Proof.
  unfold contents_le3, contents_le, null_lt.
  intros [H|[E [H|[H _]]]]; [now left | right | right]; split; auto.
  - congruence.
  - rewrite H. destruct (cs_class b) as [x|]; cbn [compare_null];
      [rewrite TextFacts.compare_refl|]; discriminate.
Qed.

(** The Code_Structure sheet.  Every source file has a row, a file without
    a class the row whose class, type and methods are NULL.  Every class of a
    file has a row under the file's path with its name and type, and the cell
    of that row names each method of the class.  No two rows agree on file,
    class and type, and the rows are ordered by file path, then class name,
    NULL first. *)
Theorem file_contents_rows
        (arrange : list string -> list string) (db : database) :
  (forall l, Permutation (arrange l) l) ->
  let rows := get_file_contents arrange db in
  (forall sf, In sf (source_files db) ->
     exists r, In r rows /\ cs_file r = file_path sf) /\
  (forall sf, In sf (source_files db) ->
     (forall c, In c (classes db) -> c_file_id c <> file_id sf) ->
     In {| cs_file := file_path sf; cs_class := None; cs_type := None;
           cs_methods := None |} rows) /\
  (forall sf c,
     In sf (source_files db) -> In c (classes db) ->
     c_file_id c = file_id sf ->
     exists r, In r rows /\
       cs_file r = file_path sf /\
       cs_class r = Some (class_name c) /\
       cs_type r = Some (class_type c) /\
       forall m, In m (class_methods db) -> m_class_id m = class_id c ->
         exists names, cs_methods r = Some (String.concat "," names) /\
                       In (method_name m) names) /\
  NoDup (map columns_of rows) /\
  StronglySorted contents_le rows.
Proof.
  intros Harr rows. subst rows. split; [|split; [|split; [|split]]].
  - intros sf Hsf. destruct (left_join_file db sf Hsf) as [j [Hj <-]].
    exists (content_of arrange db (key_of j)).
    split; [now apply group_has_row | reflexivity].
  - intros sf Hsf Hno.
    pose proof (group_has_row arrange db _ (left_join_no_class db sf Hsf Hno))
      as H.
    unfold content_of, key_of in H. cbn in H.
    now rewrite group_without_class, (arrange_nil arrange Harr) in H.
  - intros sf c Hsf Hc E.
    destruct (join_methods_some db sf c) as [j Hj].
    pose proof (left_join_of_class db sf c j Hsf Hc E Hj) as Hin.
    apply join_methods_class in Hj as [Ef Ec].
    exists (content_of arrange db (key_of j)).
    split; [now apply group_has_row|].
    unfold key_of. rewrite Ef, Ec. cbn. repeat split.
    intros m Hm Em.
    pose (j' := {| j_file := sf; j_class := Some c; j_method := Some m |}).
    assert (Hj' : In j' (left_join db)).
    { apply (left_join_of_class db sf c j' Hsf Hc E).
      now apply join_methods_method. }
    exact (group_lists_method arrange Harr db j' m Hj' eq_refl).
  - eapply Permutation_NoDup.
    + apply Permutation_map. apply OrderByFacts.order_by_perm.
    + rewrite map_map.
      rewrite (map_ext _ (fun k => k)) by (intro k; apply columns_of_content).
      rewrite map_id. apply distinct_NoDup.
  - assert (S3 : StronglySorted contents_le3 (get_file_contents arrange db)).
    { apply OrderByFacts.order_by_strongly_sorted.
      - apply contents_order_le.
      - apply contents_order_ge.
      - apply contents_le3_trans. }
    rewrite <- (map_id (get_file_contents arrange db)).
    apply (OrderByFacts.StronglySorted_map (fun r => r) contents_le3);
      [apply contents_le3_le | exact S3].
Qed.

(** On the sample store, with the names taken in the order of the join. *)
Lemma file_contents_rows_witness :
  (forall l : list string, Permutation ((fun l => l) l) l) /\
  StronglySorted contents_le (get_file_contents (fun l => l) Sample.db).
Proof.
  assert (H : forall l : list string, Permutation ((fun l => l) l) l)
    by (intro l; apply Permutation_refl).
  split; [exact H|].
  apply (file_contents_rows (fun l => l) Sample.db H).
Defined.
End StructureFacts.

(* ================================================================== *)
(** * The sheet-formatting loop: what its assignments leave readable *)
(* ================================================================== *)

Module WidthFacts.
Import Python Sheet.

Lemma len_nonneg (s : pystr) : 0 <= len s.
Proof. unfold len. lia. Qed.

Lemma column_width_fits (col : column) (w : Z) :
  column_width col = Some w ->
  2 <= w <= 50 /\
  (w < 50 ->
   len (label col) + 2 <= w /\ forall v, In v (values col) -> len v + 2 <= w).
Proof.
  intro E. destruct (SheetFacts.column_width_spec col) as (Hrows & Hnone & _).
  destruct (list_eq_dec (list_eq_dec N.eq_dec) (values col) []) as [V|V].
  - rewrite (Hnone V) in E. discriminate E.
  - destruct (Hrows V) as (n & (_ & Hl & Hv) & En).
    assert (Ew : w = Z.min (n + 2) 50) by congruence.
    pose proof (len_nonneg (label col)). split; [lia|].
    intro Hw. split; [lia|]. intros v Hin. specialize (Hv v Hin). lia.
Qed.

(** For a DataFrame whose column labels are distinct, so that [df[col]] is
    the one column of that label (the sheets the analyzers write are such):
    no two assignments of a run target the same column key, so no width is
    overwritten.  A width that is a number lies between 2 and 50, and unless
    it is the cap of 50 it leaves two units beyond the header and beyond
    every cell of its column. *)
Theorem widths_fit (df : dataframe) (done : list (N * number)) :
  NoDup (map label df) ->
  format_excel_sheet df = Some done ->
  NoDup (map fst done) /\
  forall i key w, nth_error done i = Some (key, Some w) ->
    exists col, nth_error df i = Some col /\
      2 <= w <= 50 /\
      (w < 50 ->
       len (label col) + 2 <= w /\
       forall v, In v (values col) -> len v + 2 <= w).
Proof.
  intros _ E.
  destruct (SheetFacts.format_from_nth df 0 done (Z.le_refl 0) E) as [_ Hnth].
  split.
  - apply NoDup_nth_error. intros i j Hi Hij.
    rewrite !nth_error_map in Hij.
    rewrite length_map in Hi. apply nth_error_Some in Hi.
    destruct (nth_error done i) as [[k w]|] eqn:Ei; [|congruence].
    destruct (nth_error done j) as [[k' w']|] eqn:Ej; [|discriminate Hij].
    cbn in Hij. assert (k = k') by congruence. subst k'.
    destruct (Hnth i k w Ei) as [Hk _]. destruct (Hnth j k w' Ej) as [Hk' _].
    lia.
  - intros i key w Hi. destruct (Hnth i key (Some w) Hi) as [_ (col & Hc & Hw)].
    exists col. split; [exact Hc|]. apply column_width_fits. now symmetry.
Qed.

(** The sheet of one column headed "ab" with the cell "abc": width 5. *)
Lemma widths_fit_witness :
  NoDup (map fst [(65%N, Some 5)]) /\
  forall i key w, nth_error [(65%N, Some 5)] i = Some (key, Some w) ->
    exists col, nth_error [sample_column] i = Some col /\
      2 <= w <= 50 /\
      (w < 50 ->
       len (label col) + 2 <= w /\
       forall v, In v (values col) -> len v + 2 <= w).
Proof.
  apply (widths_fit [sample_column] [(65%N, Some 5)]).
  - repeat constructor. intros [].
  - reflexivity.
Defined.
End WidthFacts.
